(** * Schema inference of tap-s3-csv (tap_s3_csv/conversion.py)

    A shallow embedding of the column type inferrer, the date format
    resolver and the schema emitter.  A column is a pandas [Series]: a
    name, a dtype and a list of cells; the pandas operations the code
    calls ([to_numeric], [to_datetime], [replace], [unique], [min], the
    construction of a frame from rows) are modelled as executable
    functions on such lists, text columns having dtype [object].  The two
    dicts the code mutates are threaded through the calls, and a Python
    exception is a [Raise] result. *)

From Stdlib Require Import ZArith QArith String Ascii List Bool Lia DecimalString.
From stdpp Require Import base option list strings gmap.

Local Open Scope string_scope.
Local Open Scope list_scope.
Local Open Scope Z_scope.

(** ** Exceptions

    Python exceptions are values: a computation either returns or raises. *)

Inductive exn : Type :=
  | AttributeError
  | TypeError
  | ValueError
  | KeyError.

Inductive result (A : Type) : Type :=
  | Ok (a : A)
  | Raise (e : exn).

Arguments Ok {A} a.
Arguments Raise {A} e.

#[export] Instance result_ret : MRet result := fun A a => Ok a.

#[export] Instance result_bind : MBind result := fun A B k m =>
  match m with
  | Ok a => k a
  | Raise e => Raise e
  end.

(** [try: m  except Exception: h] *)
Definition try_except {A : Type} (m : result A) (h : A) : A :=
  match m with
  | Ok a => a
  | Raise _ => h
  end.

Fixpoint mapM_result {A B : Type} (f : A -> result B) (l : list A) : result (list B) :=
  match l with
  | [] => Ok []
  | x :: r => y ← f x; ys ← mapM_result f r; Ok (y :: ys)
  end.

(** ** Characters and text

    Text is a [string] of 8-bit characters; [len], ordering and the
    character classes below are those of Python restricted to that
    alphabet. *)

Definition chars (s : string) : list ascii := list_ascii_of_string s.

Definition code (c : ascii) : Z := Z.of_N (N_of_ascii c).

Definition is_digit (c : ascii) : bool := (48 <=? code c) && (code c <=? 57).

Definition digit_val (c : ascii) : Z := code c - 48.

(** C's [isspace] on ASCII: space, and tab to carriage return. *)
Definition is_space (c : ascii) : bool :=
  (code c =? 32) || ((9 <=? code c) && (code c <=? 13)).

Definition lower_char (c : ascii) : ascii :=
  if (65 <=? code c) && (code c <=? 90)
  then ascii_of_N (Z.to_N (code c + 32)) else c.

(** [str.lower()] *)
Definition lower (s : string) : string :=
  string_of_list_ascii (map lower_char (chars s)).

Definition chars_eqb (a b : list ascii) : bool :=
  bool_decide (a = b).

(** [x.replace(',', '')] *)
Definition strip_commas (s : string) : string :=
  string_of_list_ascii (filter (fun c => c <> ","%char) (chars s)).

(** ['/' in cell] *)
Definition contains_slash (s : string) : bool :=
  existsb (fun c => bool_decide (c = "/"%char)) (chars s).

(** [re.sub('(?i)<null>', '', s)]: one left-to-right pass that drops every
    non-overlapping occurrence of the marker, in any letter case. *)
Definition is_null_marker (c1 c2 c3 c4 c5 c6 : ascii) : bool :=
  chars_eqb (map lower_char [c1; c2; c3; c4; c5; c6]) (chars "<null>").

Fixpoint sub_null_marker (s : list ascii) : list ascii :=
  match s with
  | [] => []
  | c1 :: r =>
      match r with
      | c2 :: c3 :: c4 :: c5 :: c6 :: rest =>
          if is_null_marker c1 c2 c3 c4 c5 c6
          then sub_null_marker rest
          else c1 :: sub_null_marker r
      | _ => c1 :: sub_null_marker r
      end
  end.

Definition remove_null_marker (s : string) : string :=
  string_of_list_ascii (sub_null_marker (chars s)).

(** ** Cells, columns and sample rows *)

(** A raw value of a sample row.  A missing cell is either [None] (the
    value [csv.DictReader] gives a short row, or a JSON null) or the float
    [NaN] (what pandas puts where a row lacks a key, and what [replace]
    writes for a blank): [isnull], [isna] and [dropna] treat the two
    alike, [str], [bool] and [unique] do not.  [VFloat q] is a finite
    float of value [q]; [VList] is the overflow list that
    [csv.DictReader] builds for a row longer than the header. *)
Inductive value : Type :=
  | VNone
  | VNaN
  | VStr (s : string)
  | VBool (b : bool)
  | VInt (z : Z)
  | VFloat (q : Q)
  | VList (items : list string).

(** The dtype names the code inspects, and the ones pandas gives to a
    column built from Python objects. *)
Inductive np_dtype : Type :=
  | DObject
  | DBool
  | DInt32
  | DInt64
  | DUInt64
  | DFloat32
  | DFloat64.

Definition dtype_name (d : np_dtype) : string :=
  match d with
  | DObject => "object"
  | DBool => "bool"
  | DInt32 => "int32"
  | DInt64 => "int64"
  | DUInt64 => "uint64"
  | DFloat32 => "float32"
  | DFloat64 => "float64"
  end.

Record Series : Type := mkSeries {
  name : string;
  dtype : np_dtype;
  cells : list value
}.

(** A row is a dict from column name to raw value, kept in insertion
    order and read through its first binding of a key. *)
Definition row : Type := list (string * value).

Definition is_null (v : value) : bool :=
  match v with VNone | VNaN => true | _ => false end.

Definition is_list (v : value) : bool :=
  match v with VList _ => true | _ => false end.

Definition INT64_MIN : Z := - 2 ^ 63.
Definition INT64_MAX : Z := 2 ^ 63 - 1.
Definition UINT64_MAX : Z := 2 ^ 64 - 1.

(** ** The dtype of a column of Python objects

    [lib.maybe_convert_objects]: one pass over the cells, in row order,
    that records the kinds seen and stops at the first cell that forces
    [object].  An integer is checked against the 64-bit ranges only while
    no [None] has been seen. *)
Record seen : Type := mkSeen {
  null_ : bool;
  bool_ : bool;
  float_ : bool;
  int_ : bool;
  uint_ : bool;
  sint_ : bool
}.

Definition seen_nothing : seen := mkSeen false false false false false false.

(** One cell of the pass; [None] is the [break] with [seen.object_]. *)
Definition saw (s : seen) (x : value) : option seen :=
  match x with
  | VNone => Some (mkSeen true (bool_ s) (float_ s) (int_ s) (uint_ s) (sint_ s))
  | VBool _ => Some (mkSeen (null_ s) true (float_ s) (int_ s) (uint_ s) (sint_ s))
  | VNaN | VFloat _ =>
      Some (mkSeen (null_ s) (bool_ s) true (int_ s) (uint_ s) (sint_ s))
  | VInt z =>
      if null_ s then
        Some (mkSeen (null_ s) (bool_ s) (float_ s) true (uint_ s) (sint_ s))
      else
        let u := uint_ s || ((INT64_MAX <? z) && (z <=? UINT64_MAX)) in
        let n := sint_ s || ((INT64_MIN <=? z) && (z <? 0)) in
        if (u && n) || (UINT64_MAX <? z) || (z <? INT64_MIN) then None
        else Some (mkSeen (null_ s) (bool_ s) (float_ s) true u n)
  | VStr _ | VList _ => None
  end.

Fixpoint saw_all (s : seen) (column : list value) : option seen :=
  match column with
  | [] => Some s
  | x :: rest =>
      match saw s x with
      | Some s' => saw_all s' rest
      | None => None
      end
  end.

(** The result of the pass: with a [None] among numbers the column is
    [float64]; booleans convert only when alone; in every other mixture,
    and for a column of [None] alone, the cells stay objects. *)
Definition dtype_of_seen (s : seen) : np_dtype :=
  if null_ s then
    if negb (bool_ s) && (float_ s || int_ s) then DFloat64 else DObject
  else if negb (bool_ s) then
    if float_ s then DFloat64
    else if int_ s then (if uint_ s then DUInt64 else DInt64)
    else DObject
  else if negb (float_ s || int_ s) then DBool
  else DObject.

Definition frame_dtype (column : list value) : np_dtype :=
  match saw_all seen_nothing column with
  | None => DObject
  | Some s => dtype_of_seen s
  end.

(** The cell as stored under the column's dtype. *)
Definition cast_cell (d : np_dtype) (x : value) : value :=
  match d, x with
  | DFloat64, VInt z => VFloat (inject_Z z)
  | DFloat64, VNone => VNaN
  | _, _ => x
  end.

(** ** [pd.to_numeric] on a column of text

    The decimal grammar of pandas' text-to-number conversion:
    optional blanks, an optional sign, digits with an optional [.] and
    fraction (at least one digit in all), an optional exponent [e]/[E]
    with optional sign and at least one digit, optional blanks, and
    nothing else; or one of the words [inf]/[infinity] with an optional
    sign, in any letter case.  The empty text converts to NaN.  A float
    is kept as [NFloat], without its value; a text whose value is beyond
    the range of a double fails to convert. *)

Inductive num : Type :=
  | NNaN
  | NInt (z : Z)
  | NFloat.

Fixpoint skip_spaces (s : list ascii) : list ascii :=
  match s with
  | c :: r => if is_space c then skip_spaces r else s
  | [] => []
  end.

Fixpoint span_digits (s : list ascii) : list ascii * list ascii :=
  match s with
  | c :: r =>
      if is_digit c
      then let '(ds, rest) := span_digits r in (c :: ds, rest)
      else ([], s)
  | [] => ([], [])
  end.

Definition take_sign (s : list ascii) : bool * list ascii :=
  match s with
  | c :: r =>
      if bool_decide (c = "-"%char) then (true, r)
      else if bool_decide (c = "+"%char) then (false, r)
      else (false, s)
  | [] => (false, [])
  end.

Definition digits_val (ds : list ascii) : Z :=
  fold_left (fun acc c => 10 * acc + digit_val c) ds 0.

Definition is_exp_char (c : ascii) : bool :=
  bool_decide (c = "e"%char) || bool_decide (c = "E"%char).

(** The exponent part: when no digit follows the [e], it is not
    consumed; at most 17 digits are read, so that further digits are left
    over and make the conversion fail. *)
Definition take_exponent (s : list ascii) : bool * list ascii :=
  match s with
  | c :: r =>
      if is_exp_char c then
        let '(_, r1) := take_sign r in
        let '(ed, r2) := span_digits r1 in
        match ed with
        | [] => (false, s)
        | _ => (true, drop 17 ed ++ r2)
        end
      else (false, s)
  | [] => (false, [])
  end.

(** The value of the exponent read.  (The C code keeps it in an [int];
    an exponent of ten digits or more, which overflows it there, is taken
    here at its face value.) *)
Definition exponent_value (s : list ascii) : Z :=
  match s with
  | c :: r =>
      if is_exp_char c then
        let '(negative, r1) := take_sign r in
        let '(ed, _) := span_digits r1 in
        if negative then - digits_val (take 17 ed) else digits_val (take 17 ed)
      else 0
  | [] => 0
  end.

(** The range check of [precise_xstrtod].  The first 17 digits make the
    mantissa, further digits of the integer part raise the exponent and
    further digits of the fraction are dropped; the conversion fails when
    the exponent exceeds 308 or the scaled mantissa is infinite.  The
    scaling is done here on exact integers: the product in doubles
    differs from it in the last bit only. *)
Definition DBL_OVERFLOW : Z := 2 ^ 1024 - 2 ^ 970.

Definition float_overflows (ip fp : list ascii) (e : Z) : bool :=
  let kept_int := Nat.min (length ip) 17 in
  let kept_dec := Nat.min (length fp) (17 - kept_int) in
  let exponent :=
    Z.of_nat (length ip - kept_int) - Z.of_nat kept_dec + e in
  (308 <? exponent)
  || ((0 <=? exponent)
      && (DBL_OVERFLOW <=? digits_val (take 17 (ip ++ fp)) * 10 ^ exponent)).

(** An integer text that overflows a double is also outside the 64-bit
    ranges and raises there, so the range check is made on floats only. *)
Definition to_double (s : list ascii) : option num :=
  let s1 := skip_spaces s in
  let '(negative, s2) := take_sign s1 in
  let '(ip, s3) := span_digits s2 in
  let '(has_dot, fp, s4) :=
    match s3 with
    | c :: r =>
        if bool_decide (c = "."%char)
        then let '(fp, r') := span_digits r in (true, fp, r')
        else (false, [], s3)
    | [] => (false, [], [])
    end in
  match ip ++ fp with
  | [] => None
  | _ =>
      let '(has_exp, s5) := take_exponent s4 in
      match skip_spaces s5 with
      | [] =>
          if has_dot || has_exp then
            (if float_overflows ip fp (exponent_value s4) then None
             else Some NFloat)
          else Some (NInt (if negative then - digits_val ip else digits_val ip))
      | _ => None
      end
  end.

Definition inf_words : list string :=
  ["inf"; "-inf"; "+inf"; "infinity"; "-infinity"; "+infinity"].

Definition floatify (s : string) : result num :=
  match to_double (chars s) with
  | Some n => Ok n
  | None =>
      if bool_decide (lower s ∈ inf_words) then Ok NFloat
      else Raise ValueError
  end.

(** One text cell of [pd.to_numeric]: an integer outside the 64-bit
    ranges raises. *)
Definition convert_numeric (s : string) : result num :=
  match s with
  | "" => Ok NNaN
  | _ =>
      n ← floatify s;
      match n with
      | NInt z =>
          if (z <? INT64_MIN) || (UINT64_MAX <? z) then Raise ValueError
          else Ok n
      | _ => Ok n
      end
  end.

Definition is_nan (n : num) : bool :=
  match n with NNaN => true | _ => false end.

Definition is_float (n : num) : bool :=
  match n with NInt _ => false | _ => true end.

Definition is_uint (n : num) : bool :=
  match n with NInt z => INT64_MAX <? z | _ => false end.

Definition is_sint (n : num) : bool :=
  match n with NInt z => z <? 0 | _ => false end.

(** The dtype of the converted column.  Integers above the signed range
    beside a NaN or a negative integer are a conflict: the column is
    handed back as it was, with dtype [object].  Otherwise floats (and
    NaN) force [float64], and integers above the signed range alone give
    [uint64]. *)
Definition numeric_dtype (ns : list num) : np_dtype :=
  if existsb is_uint ns && (existsb is_nan ns || existsb is_sint ns)
  then DObject
  else if existsb is_float ns then DFloat64
  else if existsb is_uint ns then DUInt64
  else DInt64.

Definition to_numeric (col : list string) : result (np_dtype * list num) :=
  ns ← mapM_result convert_numeric col;
  Ok (numeric_dtype ns, ns).

(** ** [infer_number] *)

(** [x.replace(',', '')] applied to a cell: only text has the method. *)
Definition cell_strip_commas (x : value) : result string :=
  match x with
  | VStr s => Ok (strip_commas s)
  | _ => Raise AttributeError
  end.

Definition infer_number (column : Series) : result bool :=
  tmpCol ← mapM_result cell_strip_commas (cells column);
  match to_numeric tmpCol with
  | Raise _ => Ok false
  | Ok (d, tmpResult) =>
      if forallb is_nan tmpResult then Ok false
      else Ok (bool_decide (dtype_name d ∈ ["float64"; "int64"]))
  end.

(** ** [pd.to_datetime(column, format=...)]

    A format is a sequence of directives and literal characters, matched
    as the regular expression [strptime] builds from it: [%Y] is four
    digits, [%m] is [1[0-2]|0[1-9]|[1-9]], [%d] is
    [3[01]|[12]\d|0[1-9]|[1-9]| [1-9]], alternatives tried in that order;
    the whole text must be consumed. *)

Inductive directive : Type :=
  | DirY
  | Dirm
  | Dird
  | Lit (c : ascii).

Record ymd : Type := mkYmd { year : Z; month : Z; day : Z }.

Definition set_year (y : Z) (t : ymd) : ymd := mkYmd y (month t) (day t).
Definition set_month (m : Z) (t : ymd) : ymd := mkYmd (year t) m (day t).
Definition set_day (d : Z) (t : ymd) : ymd := mkYmd (year t) (month t) d.

Definition in_range (lo hi c : ascii) : bool :=
  (code lo <=? code c) && (code c <=? code hi).

Definition or_else {A : Type} (a b : option A) : option A :=
  match a with
  | Some _ => a
  | None => b
  end.

Fixpoint match_format (fmt : list directive) (s : list ascii) (acc : ymd)
  : option ymd :=
  match fmt with
  | [] =>
      match s with
      | [] => Some acc
      | _ => None
      end
  | Lit c :: fmt' =>
      match s with
      | c' :: s' => if bool_decide (c = c') then match_format fmt' s' acc else None
      | [] => None
      end
  | DirY :: fmt' =>
      match s with
      | a :: b :: c :: d :: s' =>
          if forallb is_digit [a; b; c; d]
          then match_format fmt' s' (set_year (digits_val [a; b; c; d]) acc)
          else None
      | _ => None
      end
  | Dirm :: fmt' =>
      let two :=
        match s with
        | a :: b :: s' =>
            if (bool_decide (a = "1"%char) && in_range "0" "2" b)
               || (bool_decide (a = "0"%char) && in_range "1" "9" b)
            then match_format fmt' s' (set_month (digits_val [a; b]) acc)
            else None
        | _ => None
        end in
      let one :=
        match s with
        | a :: s' =>
            if in_range "1" "9" a
            then match_format fmt' s' (set_month (digits_val [a]) acc)
            else None
        | [] => None
        end in
      or_else two one
  | Dird :: fmt' =>
      let two :=
        match s with
        | a :: b :: s' =>
            if (bool_decide (a = "3"%char) && in_range "0" "1" b)
               || (in_range "1" "2" a && is_digit b)
               || (bool_decide (a = "0"%char) && in_range "1" "9" b)
            then match_format fmt' s' (set_day (digits_val [a; b]) acc)
            else None
        | _ => None
        end in
      let one :=
        match s with
        | a :: s' =>
            if in_range "1" "9" a
            then match_format fmt' s' (set_day (digits_val [a]) acc)
            else None
        | [] => None
        end in
      let padded :=
        match s with
        | a :: b :: s' =>
            if bool_decide (a = " "%char) && in_range "1" "9" b
            then match_format fmt' s' (set_day (digits_val [b]) acc)
            else None
        | _ => None
        end in
      or_else two (or_else one padded)
  end.

Definition is_leap (y : Z) : bool :=
  ((y mod 4 =? 0) && negb (y mod 100 =? 0)) || (y mod 400 =? 0).

Definition days_in_month (y m : Z) : Z :=
  if m =? 2 then (if is_leap y then 29 else 28)
  else if bool_decide (m ∈ [4; 6; 9; 11]) then 30
  else 31.

Definition date_leb (a b : ymd) : bool :=
  (year a <? year b)
  || ((year a =? year b)
      && ((month a <? month b)
          || ((month a =? month b) && (day a <=? day b)))).

(** A parsed date must exist in the calendar and fit a nanosecond
    timestamp (1677-09-22 to 2262-04-11). *)
Definition valid_date (t : ymd) : bool :=
  (day t <=? days_in_month (year t) (month t))
  && date_leb (mkYmd 1677 9 22) t
  && date_leb t (mkYmd 2262 4 11).

Definition strptime (fmt : list directive) (s : string) : bool :=
  match match_format fmt (chars s) (mkYmd 1900 1 1) with
  | Some t => valid_date t
  | None => false
  end.

Definition fmt_mdY (sep : ascii) : list directive := [Dirm; Lit sep; Dird; Lit sep; DirY].
Definition fmt_dmY (sep : ascii) : list directive := [Dird; Lit sep; Dirm; Lit sep; DirY].

(** The texts pandas reads as a missing timestamp. *)
Definition nat_strings : list string := ["NaT"; "nat"; "NAT"; "nan"; "NaN"; "NAN"].

(** One text cell under an explicit format ([array_strptime]): a
    missing-timestamp text is skipped, any other text must match. *)
Definition array_strptime (fmt : list directive) (s : string) : bool :=
  bool_decide (s ∈ nat_strings) || strptime fmt s.

(** *** The ISO 8601 path

    For the format ['%Y-%m-%d'] pandas does not build a regular
    expression: the format is an ISO 8601 prefix, so every text goes
    through the C parser [parse_iso_8601_datetime], which reads a date
    with one of the separators [-], [.], [/], [\] and blank (or none),
    and an optional time of day and UTC offset.  The stages below follow
    that parser; [None] is its [parse_error].  Columns that mix UTC
    offsets are reparsed by [dateutil]; that step is not modelled. *)

Record dts : Type := mkDts {
  dts_date : ymd;
  hour : Z;
  minute : Z;
  sec : Z;
  us : Z;
  ps : Z;
  attos : Z
}.

Definition valid_ymd_sep : list ascii := chars "-./\ ".

(** A field of one or two digits; the second digit may be missing only
    where the fields are separated. *)
Definition one_or_two (separated : bool) (s : list ascii) : option (Z * list ascii) :=
  match s with
  | a :: r =>
      if is_digit a then
        match r with
        | b :: r' =>
            if is_digit b then Some (10 * digit_val a + digit_val b, r')
            else if separated then Some (digit_val a, r) else None
        | [] => if separated then Some (digit_val a, r) else None
        end
      else None
  | [] => None
  end.

(** Up to [n] digits of a fraction, scaled as if [n] were read. *)
Fixpoint take_fraction (n : nat) (acc : Z) (s : list ascii) : Z * list ascii :=
  match n with
  | O => (acc, s)
  | S n' =>
      match s with
      | c :: r =>
          if is_digit c then take_fraction n' (10 * acc + digit_val c) r
          else take_fraction n' (10 * acc) s
      | [] => take_fraction n' (10 * acc) s
      end
  end.

(** [parse_timezone:] and the end of the text.  The offset is recorded
    apart and leaves the parsed fields as they are. *)
Definition iso_timezone (s : list ascii) : bool :=
  match skip_spaces s with
  | [] => true
  | c :: r =>
      let after :=
        if bool_decide (c = "Z"%char) then Some r
        else if bool_decide (c = "-"%char) || bool_decide (c = "+"%char) then
          match r with
          | a :: b :: r1 =>
              if is_digit a && is_digit b && (10 * digit_val a + digit_val b <? 24) then
                match r1 with
                | [] => Some []
                | c1 :: r2 =>
                    match (if bool_decide (c1 = ":"%char) then r2 else r1) with
                    | m1 :: m2 :: r3 =>
                        if is_digit m1 && is_digit m2
                           && (10 * digit_val m1 + digit_val m2 <? 60)
                        then Some r3 else None
                    | _ => None
                    end
                end
              else None
          | _ => None
          end
        else Some (c :: r) in
      match after with
      | Some rest => bool_decide (skip_spaces rest = [])
      | None => false
      end
  end.

Definition starts_with_digit (s : list ascii) : bool :=
  match s with
  | c :: _ => is_digit c
  | [] => false
  end.

(** The fraction of a second, in three groups of six digits. *)
Definition iso_fraction (t : dts) (s : list ascii) : option dts :=
  let '(u, s1) := take_fraction 6 0 s in
  let t := mkDts (dts_date t) (hour t) (minute t) (sec t) u 0 0 in
  if negb (starts_with_digit s1) then (if iso_timezone s1 then Some t else None)
  else
    let '(p, s2) := take_fraction 6 0 s1 in
    let t := mkDts (dts_date t) (hour t) (minute t) (sec t) u p 0 in
    if negb (starts_with_digit s2) then (if iso_timezone s2 then Some t else None)
    else
      let '(a, s3) := take_fraction 6 0 s2 in
      let t := mkDts (dts_date t) (hour t) (minute t) (sec t) u p a in
      if iso_timezone s3 then Some t else None.

(** The seconds, reached with a digit in front. *)
Definition iso_seconds (separated : bool) (t : dts) (s : list ascii) : option dts :=
  match one_or_two separated s with
  | Some (v, r) =>
      if 60 <=? v then None
      else
        let t := mkDts (dts_date t) (hour t) (minute t) v 0 0 0 in
        match r with
        | c :: r' =>
            if bool_decide (c = "."%char) then iso_fraction t r'
            else if iso_timezone r then Some t else None
        | [] => Some t
        end
  | None => None
  end.

(** The minutes, reached with a digit in front. *)
Definition iso_minutes (separated : bool) (t : dts) (s : list ascii) : option dts :=
  match one_or_two separated s with
  | Some (v, r) =>
      if 60 <=? v then None
      else
        let t := mkDts (dts_date t) (hour t) v 0 0 0 0 in
        match r with
        | [] => Some t
        | c :: r' =>
            if separated && bool_decide (c = ":"%char) then
              (if starts_with_digit r' then iso_seconds separated t r' else None)
            else if negb separated && is_digit c then iso_seconds separated t r
            else if iso_timezone r then Some t else None
        end
  | None => None
  end.

(** The time of day, after the [T] or blank that follows the date. *)
Definition iso_time (d : ymd) (s : list ascii) : option dts :=
  match s with
  | a :: r =>
      if is_digit a then
        let '(h, two, r1) :=
          match r with
          | b :: r' =>
              if is_digit b then (10 * digit_val a + digit_val b, true, r')
              else (digit_val a, false, r)
          | [] => (digit_val a, false, r)
          end in
        if 24 <=? h then None
        else
          let t := mkDts d h 0 0 0 0 0 in
          match r1 with
          | [] => if two then Some t else None
          | c :: r2 =>
              if bool_decide (c = ":"%char) then
                (if starts_with_digit r2 then iso_minutes true t r2 else None)
              else if is_digit c then iso_minutes false t r1
              else if two then (if iso_timezone r1 then Some t else None)
              else None
          end
      else None
  | [] => None
  end.

(** What may follow the day: nothing, or [T] or a blank and a time. *)
Definition iso_after_date (d : ymd) (s : list ascii) : option dts :=
  match s with
  | [] => Some (mkDts d 0 0 0 0 0 0)
  | c :: r =>
      if (bool_decide (c = "T"%char) || bool_decide (c = " "%char))
         && negb (bool_decide (r = []))
      then iso_time d r
      else None
  end.

(** The day, after the month; [sep] is the separator read after the
    year, if there was one. *)
Definition iso_day (y m : Z) (sep : option ascii) (s : list ascii) : option dts :=
  match one_or_two (bool_decide (is_Some sep)) s with
  | Some (d, r) =>
      if (d <? 1) || (days_in_month y m <? d) then None
      else iso_after_date (mkYmd y m d) r
  | None => None
  end.

(** The month, reached with a digit in front. *)
Definition iso_month (y : Z) (sep : option ascii) (s : list ascii) : option dts :=
  match one_or_two (bool_decide (is_Some sep)) s with
  | Some (m, r) =>
      if (m <? 1) || (12 <? m) then None
      else
        match r, sep with
        | [], Some _ => Some (mkDts (mkYmd y m 1) 0 0 0 0 0 0)
        | [], None => None
        | c :: r', Some c0 =>
            if bool_decide (c = c0) && negb (bool_decide (r' = []))
            then iso_day y m sep r' else None
        | _ :: _, None => iso_day y m sep r
        end
  | None => None
  end.

(** The whole parser: blanks, an optional [-], four digits of year (a
    text without them leaves the year at 0), then the rest.  The year is
    negated when the text itself begins with [-]. *)
Definition parse_iso_8601_datetime (str : list ascii) : option dts :=
  let s := skip_spaces str in
  let s := match s with
           | c :: r => if bool_decide (c = "-"%char) then r else s
           | [] => s
           end in
  match s with
  | [] => None
  | _ =>
      let '(y, s1) :=
        match s with
        | a :: b :: c :: d :: r =>
            if forallb is_digit [a; b; c; d] then (digits_val [a; b; c; d], r)
            else (0, s)
        | _ => (0, s)
        end in
      let y := if bool_decide (head str = Some "-"%char) then - y else y in
      match s1 with
      | [] => Some (mkDts (mkYmd y 1 1) 0 0 0 0 0 0)
      | c :: r =>
          if is_digit c then iso_month y None s1
          else if bool_decide (c ∈ valid_ymd_sep) && starts_with_digit r
          then iso_month y (Some c) r
          else None
      end
  end.

Definition dts_fields (t : dts) : list Z :=
  [year (dts_date t); month (dts_date t); day (dts_date t);
   hour t; minute t; sec t; us t; ps t; attos t].

Fixpoint lex_leb (a b : list Z) : bool :=
  match a, b with
  | x :: a', y :: b' => (x <? y) || ((x =? y) && lex_leb a' b')
  | _, _ => true
  end.

(** The range of a nanosecond timestamp:
    1677-09-21 00:12:43.145224193 to 2262-04-11 23:47:16.854775807. *)
Definition NS_MIN_DTS : list Z := [1677; 9; 21; 0; 12; 43; 145224; 193000; 0].
Definition NS_MAX_DTS : list Z := [2262; 4; 11; 23; 47; 16; 854775; 807000; 0].

Definition check_dts_bounds (t : dts) : bool :=
  lex_leb NS_MIN_DTS (dts_fields t) && lex_leb (dts_fields t) NS_MAX_DTS.

(** One text cell on the ISO path: an empty or missing-timestamp text is
    skipped; a text the parser reads must fit the range; of the others
    only [now] and [today] are accepted. *)
Definition iso_8601 (s : string) : bool :=
  bool_decide (s = "") || bool_decide (s ∈ nat_strings) ||
  match parse_iso_8601_datetime (chars s) with
  | Some t => check_dts_bounds t
  | None => bool_decide (s ∈ ["now"; "today"])
  end.

(** The [format] arguments of the five attempts. *)
Inductive date_format : Type :=
  | F_Y_m_d
  | F_m_d_Y_dash
  | F_d_m_Y_dash
  | F_m_d_Y_slash
  | F_d_m_Y_slash.

#[export] Instance date_format_eq_dec : EqDecision date_format.
Proof. solve_decision. Defined.

Definition parses (f : date_format) (s : string) : bool :=
  match f with
  | F_Y_m_d => iso_8601 s
  | F_m_d_Y_dash => array_strptime (fmt_mdY "-") s
  | F_d_m_Y_dash => array_strptime (fmt_dmY "-") s
  | F_m_d_Y_slash => array_strptime (fmt_mdY "/") s
  | F_d_m_Y_slash => array_strptime (fmt_dmY "/") s
  end.

(** A missing cell converts to a missing timestamp.  Any other cell that
    is not text is taken to make the conversion raise: under an explicit
    format its [str] never matches, and on the ISO path [column.min()]
    has raised before the conversion is tried. *)
Definition cell_parses (f : date_format) (x : value) : bool :=
  match x with
  | VStr s => parses f s
  | VNone | VNaN => true
  | _ => false
  end.

(** [pd.to_datetime(column, format=f)]: every cell must parse. *)
Definition to_datetime (column : list value) (f : date_format) : result unit :=
  if forallb (cell_parses f) column then Ok tt else Raise ValueError.

(** ** [infer_datetime] and [infer_datetime_and_format] *)

(** [tmpCol.replace('(?i)<null>', '', regex=True)]: only text is rewritten. *)
Definition cell_remove_null_marker (x : value) : value :=
  match x with
  | VStr s => VStr (remove_null_marker s)
  | _ => x
  end.

(** What [replace('', np.nan)] writes for one cell. *)
Definition blank_to_nan (x : value) : value :=
  match x with
  | VStr "" => VNaN
  | _ => x
  end.

Definition is_blank (x : value) : bool :=
  match x with VStr "" => true | _ => false end.

(** [column.replace('', np.nan)] on an object column.  Every blank
    becomes [NaN]; and where a blank was replaced, pandas converts the
    result as it converts the cells of a new column ([Block.replace] ends
    in [convert]): a column left without text, lists or booleans becomes
    [float64] and its [None] cells [NaN], as in
    [pd.Series(['', '']).replace('', np.nan)], whose dtype is [float64].
    A column without a blank is returned as it is. *)
Definition replace_blank (column : list value) : list value :=
  if existsb is_blank column then
    let replaced := map blank_to_nan column in
    map (cast_cell (frame_dtype replaced)) replaced
  else column.

Definition dropna (column : list value) : list value :=
  filter (fun x => is_null x = false) column.

(** Python truth value of a cell, as [column.astype(bool)] computes it. *)
Definition truthy (x : value) : bool :=
  match x with
  | VNone => false
  | VNaN => true
  | VStr s => negb (bool_decide (s = ""))
  | VBool b => b
  | VInt z => negb (z =? 0)
  | VFloat q => negb (Qeq_bool q 0)
  | VList items => negb (bool_decide (items = []))
  end.

Fixpoint min_text (m : string) (l : list value) : result string :=
  match l with
  | [] => Ok m
  | VStr s :: r => min_text (if String.ltb s m then s else m) r
  | _ :: _ => Raise TypeError
  end.

(** [column.min()] on a column of text; an empty column or a cell that is
    not text raises. *)
Definition series_min (column : list value) : result string :=
  match column with
  | VStr s :: r => min_text s r
  | [] => Raise ValueError
  | _ :: _ => Raise TypeError
  end.

Definition later_formats : list (date_format * string) :=
  [ (F_m_d_Y_dash, "MM-DD-YYYY");
    (F_d_m_Y_dash, "DD-MM-YYYY");
    (F_m_d_Y_slash, "MM/DD/YYYY");
    (F_d_m_Y_slash, "DD/MM/YYYY") ].

(** The four attempts after the first one: each records its label and
    returns [False]. *)
Fixpoint try_later_formats (fmts : list (date_format * string))
    (column : Series) (dateFormatMap : gmap string string)
  : bool * gmap string string :=
  match fmts with
  | [] => (false, dateFormatMap)
  | (f, label) :: rest =>
      match to_datetime (cells column) f with
      | Ok _ => (false, <[name column := label]> dateFormatMap)
      | Raise _ => try_later_formats rest column dateFormatMap
      end
  end.

Definition infer_datetime_and_format (column : Series)
    (dateFormatMap : gmap string string) : bool * gmap string string :=
  let column := mkSeries (name column) (dtype column)
                  (filter (fun x => truthy x = true) (cells column)) in
  let first :=
    cell ← series_min (cells column);
    _ ← to_datetime (cells column) F_Y_m_d;
    Ok (true, <[name column :=
                 if contains_slash cell then "YYYY/MM/DD" else "YYYY-MM-DD"]>
                dateFormatMap) in
  match first with
  | Ok r => r
  | Raise _ => try_later_formats later_formats column dateFormatMap
  end.

(** The cells left for the format attempts: markers removed, blanks
    turned into missing cells, missing cells dropped. *)
Definition date_candidates (column : list value) : list value :=
  let tmpCol := map cell_remove_null_marker column in
  dropna (replace_blank tmpCol).

Definition infer_datetime (column : Series)
    (dateFormatMap : gmap string string) : bool * gmap string string :=
  let tmpCol := date_candidates (cells column) in
  match tmpCol with
  | [] => (false, dateFormatMap)
  | _ => infer_datetime_and_format
           (mkSeries (name column) (dtype column) tmpCol) dateFormatMap
  end.

(** ** [infer_boolean] and [is_boolean_value] *)

Definition is_boolean_value (x : value) : bool :=
  match x with
  | VStr s => bool_decide (lower s = "true") || bool_decide (lower s = "false")
  | VBool _ => true
  | _ => false
  end.

Definition num_val (x : value) : option Q :=
  match x with
  | VBool b => Some (inject_Z (if b then 1 else 0))
  | VInt z => Some (inject_Z z)
  | VFloat q => Some q
  | _ => None
  end.

(** Equality of two hashable cells as the hash table of [unique] sees
    it: Python [==] ([True == 1 == 1.0]), with two [NaN] alike; [None]
    equals only [None]. *)
Definition py_eq (a b : value) : bool :=
  match a, b with
  | VNone, VNone => true
  | VNaN, VNaN => true
  | VStr s, VStr t => bool_decide (s = t)
  | _, _ =>
      match num_val a, num_val b with
      | Some p, Some q => Qeq_bool p q
      | _, _ => false
      end
  end.

Fixpoint unique_from (seen : list value) (l : list value) : list value :=
  match l with
  | [] => []
  | x :: r =>
      if existsb (py_eq x) seen then unique_from seen r
      else x :: unique_from (x :: seen) r
  end.

(** [column.unique()]: first occurrences, in order; a list cell cannot be
    hashed. *)
Definition unique (column : list value) : result (list value) :=
  if existsb is_list column then Raise TypeError
  else Ok (unique_from [] column).

Definition infer_boolean (column : Series) : result bool :=
  let column := replace_blank (cells column) in
  unique_values ← unique column;
  if (length unique_values =? 0)%nat then Ok false
  else if (length unique_values =? 1)%nat
          && from_option is_null false (head unique_values) then Ok false
  else
    Ok (forallb
          (fun value => negb (negb (is_boolean_value value) && negb (is_null value)))
          unique_values).

(** ** Schema fragments *)

(** The JSON-shaped values the emitter builds; a dict keeps its keys in
    insertion order. *)
#[warnings="-register-all"]
Inductive json : Type :=
  | JNone
  | JStr (s : string)
  | JInt (z : Z)
  | JList (l : list json)
  | JDict (kvs : list (string * json)).

(** A type tag is a Python string, or [None] when [infer_column] falls
    off its end. *)
Definition json_of_datatype (datatype : option string) : json :=
  match datatype with
  | Some s => JStr s
  | None => JNone
  end.

Definition datatype_schema (datatype : option string) (length : Z)
    (string_max_length : bool) : json :=
  let maxLength :=
    if string_max_length then [("maxLength", JInt length)] else [] in
  if bool_decide (datatype = Some "date-time") then
    JDict ([("type", JList [JStr "null"; JStr "string"]);
            ("format", JStr "date-time")] ++ maxLength)
  else if bool_decide (datatype = Some "dict") then
    JDict [("anyOf",
            JList [JDict [("type", JStr "object"); ("properties", JDict [])];
                   JDict ([("type", JList [JStr "null"; JStr "string"])]
                          ++ maxLength)])]
  else
    let types := [JStr "null"; json_of_datatype datatype] in
    let types :=
      if bool_decide (datatype ≠ Some "string") then types ++ [JStr "string"]
      else types in
    JDict ([("type", JList types)] ++ maxLength).

(** ** [infer_column] and [generate_schema] *)

Section Inference.

(** The text Python's [str] prints for a float and for an overflow
    list; the code only measures its length. *)
Variable float_str : Q -> string.
Variable list_str : list string -> string.

(** [str(x)].  A missing cell prints as [nan]; a [None] kept in an object
    column prints one character more, in columns that are typed [list] or
    make [infer_number] raise, whose length never reaches the schema. *)
Definition py_str (x : value) : string :=
  match x with
  | VNone => "None"
  | VNaN => "nan"
  | VStr s => s
  | VBool b => if b then "True" else "False"
  | VInt z => NilZero.string_of_int (Z.to_int z)
  | VFloat q => float_str q
  | VList items => list_str items
  end.

Definition len (s : string) : Z := Z.of_nat (String.length s).

(** [column.apply(lambda x: len(str(x))).max()] on a column with a cell. *)
Definition max_len (column : list value) : Z :=
  fold_right Z.max 0 (map (fun x => len (py_str x)) column).

Definition infer_column (column : Series)
    (dateFormatMap : gmap string string) (lengths : gmap string Z)
  : result (option string * gmap string string * gmap string Z) :=
  if forallb is_null (cells column) then
    Ok (Some "string", dateFormatMap, <[name column := 0]> lengths)
  else
    let lengths := <[name column := max_len (cells column)]> lengths in
    if bool_decide (dtype_name (dtype column) = "object") then
      if existsb is_list (cells column) then
        Ok (Some "list", dateFormatMap, lengths)
      else
        is_number ← infer_number column;
        if is_number : bool then Ok (Some "number", dateFormatMap, lengths)
        else
          let '(is_datetime, dateFormatMap) :=
            infer_datetime column dateFormatMap in
          if is_datetime then Ok (Some "date-time", dateFormatMap, lengths)
          else
            is_boolean ← infer_boolean column;
            if is_boolean : bool then Ok (Some "boolean", dateFormatMap, lengths)
            else Ok (Some "string", dateFormatMap, lengths)
    else if bool_decide (dtype_name (dtype column) ∈ ["int32"; "int64"; "float32"])
    then Ok (Some "number", dateFormatMap, lengths)
    else Ok (None, dateFormatMap, lengths).

(** *** [pd.DataFrame(samples)] *)

Definition row_get (k : string) (r : row) : option value :=
  snd <$> List.find (fun kv => bool_decide (fst kv = k)) r.

Fixpoint first_seen (seen : list string) (ks : list string) : list string :=
  match ks with
  | [] => []
  | k :: r =>
      if bool_decide (k ∈ seen) then first_seen seen r
      else k :: first_seen (k :: seen) r
  end.

(** The columns of the frame: every key of every row, in order of first
    appearance. *)
Definition frame_columns (samples : list row) : list string :=
  first_seen [] (concat (map (map fst) samples)).

(** A key absent from a row gives a missing cell. *)
Definition column_cells (k : string) (samples : list row) : list value :=
  map (fun r => default VNaN (row_get k r)) samples.

Definition frame_column (samples : list row) (k : string) : Series :=
  let column := column_cells k samples in
  let d := frame_dtype column in
  mkSeries k d (map (cast_cell d) column).

Definition DataFrame (samples : list row) : list Series :=
  map (frame_column samples) (frame_columns samples).

(** *** [generate_schema] *)

(** The first loop: [col_types] is the dict of type tags in insertion
    order; the two maps are threaded through the columns. *)
Fixpoint infer_columns (columns : list Series)
    (col_types : list (string * option string))
    (date_format_map : gmap string string) (lengths : gmap string Z)
  : result (list (string * option string) * gmap string string * gmap string Z) :=
  match columns with
  | [] => Ok (col_types, date_format_map, lengths)
  | column :: rest =>
      '(datatype, date_format_map, lengths) ←
        infer_column column date_format_map lengths;
      infer_columns rest (col_types ++ [(name column, datatype)])
        date_format_map lengths
  end.

(** The second loop: list columns are skipped. *)
Fixpoint emit_schema (col_types : list (string * option string))
    (lengths : gmap string Z) (string_max_length : bool)
    (schema : gmap string json) : result (gmap string json) :=
  match col_types with
  | [] => Ok schema
  | (col_name, datatype) :: rest =>
      if bool_decide (datatype ≠ Some "list") then
        match lengths !! col_name with
        | Some n =>
            emit_schema rest lengths string_max_length
              (<[col_name := datatype_schema datatype n string_max_length]> schema)
        | None => Raise KeyError
        end
      else emit_schema rest lengths string_max_length schema
  end.

Definition generate_schema {T : Type} (samples : list row) (table_spec : T)
    (string_max_length : bool)
  : result (gmap string json * gmap string string) :=
  let df := DataFrame samples in
  '(col_types, date_format_map, lengths) ← infer_columns df [] ∅ ∅;
  schema ← emit_schema col_types lengths string_max_length ∅;
  Ok (schema, date_format_map).

(** The claim C1 as the specification states it. *)
Definition format_recorded_iff_datetime (samples : list row) : Prop :=
  forall (flag : bool) schema dfm col_types dfm0 lengths,
    generate_schema samples tt flag = Ok (schema, dfm) ->
    infer_columns (DataFrame samples) [] ∅ ∅ = Ok (col_types, dfm0, lengths) ->
    forall k t, (k, t) ∈ col_types ->
      (is_Some (dfm !! k) <-> t = Some "date-time").

End Inference.

(** Renderings used to run the model on concrete batches: exact for a
    float of integral value below 10^16, and for a list of texts without
    quotes, backslashes or control characters. *)
Definition integral_float_str (q : Q) : string :=
  NilZero.string_of_int (Z.to_int (Qnum q / Z.pos (Qden q))) +:+ ".0".

Definition plain_list_str (items : list string) : string :=
  "[" +:+ String.concat ", " (map (fun s => "'" +:+ s +:+ "'") items) +:+ "]".

(** ** Predicates and examples used in the statements *)

Definition numeric_char (c : ascii) : bool :=
  is_space c || is_digit c || bool_decide (c ∈ chars "+-.eE").

Definition inf_char (c : ascii) : bool := bool_decide (c ∈ chars "+-infty").

(** The shape every date text starts with: an optional blank, digits and
    a separator. *)
Definition date_shaped (s : list ascii) : Prop :=
  exists pre ds c rest,
    s = pre ++ ds ++ c :: rest /\ forallb is_space pre = true /\
    ds <> [] /\ forallb is_digit ds = true /\ (c = "-"%char \/ c = "/"%char).

Definition is_text (x : value) : bool :=
  match x with VStr _ => true | _ => false end.

Definition iso_label (cell : string) : string :=
  if contains_slash cell then "YYYY/MM/DD" else "YYYY-MM-DD".

(** Cells that are text, booleans or missing; on them [py_eq] is plain
    equality. *)
Definition is_simple (x : value) : bool :=
  match x with VNone | VNaN | VStr _ | VBool _ => true | _ => false end.

(** An empty text counts as missing. *)
Definition is_missing (x : value) : bool := is_null (blank_to_nan x).

Definition iso_labels : list string := ["YYYY-MM-DD"; "YYYY/MM/DD"].
Definition later_labels : list string := map snd later_formats.



Definition json_keys (j : json) : list string :=
  match j with
  | JDict kvs => map fst kvs
  | _ => []
  end.

Definition untyped_batch : list row :=
  [[("b", VBool true); ("n", VInt 1)]; [("b", VBool false); ("n", VNone)]].

Definition overflow_batch : list row :=
  [[("id", VStr "1"); ("_sdc_extra", VList ["x"; "y"])];
   [("id", VStr "2"); ("_sdc_extra", VStr "2022-01-02")]].

Definition day_first_batch : list row := [[("d", VStr "01-15-2022")]].

(** [fragment[key]] of an emitted fragment, when the key is present. *)
Definition json_get (key : string) (j : json) : option json :=
  match j with
  | JDict kvs => snd <$> List.find (fun kv => bool_decide (kv.1 = key)) kvs
  | _ => None
  end.

(** The type tags [infer_column] hands to the schema emitter. *)
Definition emitted_tags : list (option string) :=
  [Some "string"; Some "number"; Some "date-time"; Some "boolean"; None].

(** A text of digits grouped by commas, at most eighteen digits in all:
    the thousands-separated integers that fit the signed 64-bit range. *)
Definition grouped_digits (s : string) : bool :=
  let ds := chars (strip_commas s) in
  negb (bool_decide (ds = [])) && forallb is_digit ds
  && bool_decide (length ds <= 18)%nat.

(** A numeric result that is NaN or an integer of the signed range. *)
Definition small_num (n : num) : bool :=
  match n with
  | NNaN => true
  | NInt z => (0 <=? z) && (z <=? INT64_MAX)
  | NFloat => false
  end.

(** The text of a cell, empty for a cell that is not text. *)
Definition cell_text (x : value) : string :=
  match x with
  | VStr s => s
  | _ => ""
  end.

(** A batch with an integer column, a column of year-first dates in both
    separators, a column of grouped digits with a blank, and a column of
    month-first dates; and what [generate_schema] returns for it with the
    length flag set. *)
Definition mixed_batch : list row :=
  [[("id", VInt 1); ("d", VStr "2022-01-05"); ("amount", VStr "1,200");
    ("m", VStr "01-15-2022")];
   [("id", VInt 2); ("d", VStr "2022/03/01"); ("amount", VStr "");
    ("m", VStr "02-20-2022")]].

Definition mixed_schema : gmap string json :=
  {["id" := JDict [("type", JList [JStr "null"; JStr "number"; JStr "string"]);
                   ("maxLength", JInt 1)];
    "d" := JDict [("type", JList [JStr "null"; JStr "string"]);
                  ("format", JStr "date-time"); ("maxLength", JInt 10)];
    "amount" := JDict [("type", JList [JStr "null"; JStr "number"; JStr "string"]);
                       ("maxLength", JInt 5)];
    "m" := JDict [("type", JList [JStr "null"; JStr "string"]);
                  ("maxLength", JInt 10)]]}.

Definition mixed_formats : gmap string string :=
  {["d" := "YYYY-MM-DD"; "m" := "MM-DD-YYYY"]}.


(** The fragment without its [maxLength] key. *)
Definition without_max_length (j : json) : json :=
  match j with
  | JDict kvs =>
      JDict (List.filter (fun kv => negb (bool_decide (kv.1 = "maxLength"))) kvs)
  | _ => j
  end.



(** An integer cell within the signed 64-bit range; any other cell. *)
Definition fits_int64 (x : value) : bool :=
  match x with
  | VInt z => (INT64_MIN <=? z) && (z <=? INT64_MAX)
  | _ => true
  end.


(** Every integer of every sample row fits the signed 64-bit range. *)
Definition ints_fit_int64 (samples : list row) : bool :=
  forallb (fun r => forallb (fun kv => fits_int64 kv.2) r) samples.

Definition is_none (x : value) : bool :=
  match x with VNone => true | _ => false end.

(** A [NaN], or the blank that [replace] turns into one. *)
Definition is_nan_or_blank (x : value) : bool :=
  match x with VNaN | VStr "" => true | _ => false end.


(** The kinds of cells the dtype of a column depends on. *)
Definition is_text_or_list (x : value) : bool :=
  match x with VStr _ | VList _ => true | _ => false end.

Definition is_bool_cell (x : value) : bool :=
  match x with VBool _ => true | _ => false end.

Definition is_float_cell (x : value) : bool :=
  match x with VNaN | VFloat _ => true | _ => false end.

Definition int_cell (p : Z -> bool) (x : value) : bool :=
  match x with VInt z => p z | _ => false end.


(** Every non-missing value of a column of text (a text left by
    [date_candidates]) is accepted by [p]. *)
Definition all_match (p : string -> bool) (column : list value) : Prop :=
  forall s, VStr s ∈ date_candidates column -> p s = true.




(** * Properties *)

(** ** Character classes *)

Ltac by_all_chars c :=
  destruct c as [[] [] [] [] [] [] [] []]; vm_compute; try reflexivity;
  try discriminate; try tauto.

Lemma lower_char_digit c : is_digit (lower_char c) = is_digit c.
Proof. by_all_chars c. Qed.

Lemma digit_not_space c : is_digit c = true -> is_space c = false.
Proof. by_all_chars c. Qed.

Lemma chars_lower s : chars (lower s) = map lower_char (chars s).
Proof. unfold lower, chars. apply list_ascii_of_string_of_list_ascii. Qed.

Lemma chars_inj s t : chars s = chars t -> s = t.
Proof.
  unfold chars. intros H.
  rewrite <- (string_of_list_ascii_of_string s), <- (string_of_list_ascii_of_string t).
  now rewrite H.
Qed.

Lemma chars_of_list l : chars (string_of_list_ascii l) = l.
Proof. apply list_ascii_of_string_of_list_ascii. Qed.

(** ** The monad of results *)

Lemma mapM_result_ok {A B : Type} (f : A -> result B) (g : A -> B) (l : list A) :
  Forall (fun x => f x = Ok (g x)) l -> mapM_result f l = Ok (map g l).
Proof.
  induction 1 as [|x l Hx _ IH]; simpl; [reflexivity|].
  rewrite Hx. simpl. rewrite IH. reflexivity.
Qed.

Lemma mapM_result_raise {A B : Type} (f : A -> result B) (l : list A) (x : A) (e : exn) :
  x ∈ l -> f x = Raise e -> exists e', mapM_result f l = Raise e'.
Proof.
  intros Hin Hx. induction l as [|y l IH]; [inversion Hin|].
  simpl. destruct (f y) as [b|e1] eqn:Hy; simpl; [|eauto].
  apply elem_of_cons in Hin as [->|Hin]; [congruence|].
  destruct (IH Hin) as [e' ->]. simpl. eauto.
Qed.

(** ** Text that is not a number *)

Lemma skip_spaces_chars P s :
  (forall c, is_space c = true -> P c = true) ->
  forallb P (skip_spaces s) = true -> forallb P s = true.
Proof.
  intros HP. induction s as [|c s IH]; simpl; [done|].
  destruct (is_space c) eqn:Hc; simpl; [|done].
  intros H. rewrite (HP c Hc), (IH H). done.
Qed.

Lemma skip_spaces_nil s : skip_spaces s = [] -> forallb is_space s = true.
Proof.
  induction s as [|c s IH]; simpl; [done|].
  destruct (is_space c); simpl; [exact IH|discriminate].
Qed.

Lemma span_digits_app s : s = (span_digits s).1 ++ (span_digits s).2.
Proof.
  induction s as [|c s IH]; simpl; [done|].
  destruct (is_digit c); [|done].
  destruct (span_digits s) as [ds rest]; simpl in *. congruence.
Qed.

Lemma span_digits_digits s : forallb is_digit (span_digits s).1 = true.
Proof.
  induction s as [|c s IH]; simpl; [done|].
  destruct (is_digit c) eqn:Hc; [|done].
  destruct (span_digits s) as [ds rest]; simpl in *. rewrite Hc. done.
Qed.

Lemma span_digits_chars s :
  forallb numeric_char (span_digits s).2 = true -> forallb numeric_char s = true.
Proof.
  intros H. rewrite (span_digits_app s), forallb_app, H, andb_true_r.
  pose proof (span_digits_digits s) as Hd.
  rewrite forallb_forall in Hd. apply forallb_forall. intros c Hc.
  unfold numeric_char. rewrite (Hd c Hc). apply orb_true_iff. left.
  apply orb_true_r.
Qed.

Lemma take_sign_chars s :
  forallb numeric_char (take_sign s).2 = true -> forallb numeric_char s = true.
Proof.
  destruct s as [|c s]; simpl; [done|].
  repeat case_bool_decide; subst; simpl; done.
Qed.

Lemma take_exponent_chars s :
  forallb numeric_char (take_exponent s).2 = true -> forallb numeric_char s = true.
Proof.
  destruct s as [|c s]; simpl; [done|].
  destruct (is_exp_char c) eqn:Hc; simpl; [|done].
  destruct (take_sign s) as [sg r1] eqn:Hs.
  destruct (span_digits r1) as [ed r2] eqn:Hd.
  destruct ed as [|d ed]; [done|]. cbn [snd].
  intros H. rewrite forallb_app in H. apply andb_true_iff in H as [_ H].
  assert (numeric_char c = true) as ->.
  { unfold is_exp_char in Hc. unfold numeric_char.
    apply orb_true_iff in Hc as [Hc|Hc]; apply bool_decide_eq_true in Hc;
      subst; done. }
  simpl. apply take_sign_chars. rewrite Hs. simpl.
  apply span_digits_chars. rewrite Hd. exact H.
Qed.

(** Text accepted by the decimal grammar is made of blanks, digits,
    signs, the point and the exponent letter. *)
Lemma to_double_chars s n :
  to_double s = Some n -> forallb numeric_char s = true.
Proof.
  unfold to_double. intros H.
  apply (skip_spaces_chars numeric_char).
  { intros c Hc. unfold numeric_char. rewrite Hc. done. }
  apply take_sign_chars.
  destruct (take_sign (skip_spaces s)) as [negative s2]; simpl.
  apply span_digits_chars.
  destruct (span_digits s2) as [ip s3]; simpl.
  assert (exists has_dot fp s4,
    (match s3 with
     | c :: r =>
         if bool_decide (c = "."%char)
         then let '(fp, r') := span_digits r in (true, fp, r')
         else (false, [], s3)
     | [] => (false, [], [])
     end) = (has_dot, fp, s4)
    /\ (forallb numeric_char s4 = true -> forallb numeric_char s3 = true))
    as (has_dot & fp & s4 & Heq & Hs4).
  { destruct s3 as [|c r]; [by eexists _, _, _|].
    case_bool_decide as Hc.
    - subst c. destruct (span_digits r) as [fp r'] eqn:Hr.
      eexists _, _, _; split; [done|]. intros Hr'. simpl.
      apply span_digits_chars. rewrite Hr. done.
    - by eexists _, _, _. }
  rewrite Heq in H. apply Hs4.
  destruct (ip ++ fp); [done|].
  apply take_exponent_chars.
  destruct (take_exponent s4) as [has_exp s5]; simpl.
  destruct (skip_spaces s5) eqn:Hs5; [|done].
  apply skip_spaces_nil in Hs5.
  rewrite forallb_forall in Hs5. apply forallb_forall. intros c Hc.
  unfold numeric_char. rewrite (Hs5 c Hc). done.
Qed.

Lemma digit_not_sign c :
  is_digit c = true -> c <> "-"%char /\ c <> "+"%char /\ c <> ","%char.
Proof. by_all_chars c; intros _; repeat split; discriminate. Qed.

Lemma space_not_comma c : is_space c = true -> c <> ","%char.
Proof. by_all_chars c. Qed.

Lemma skip_spaces_app pre c r :
  forallb is_space pre = true -> is_space c = false ->
  skip_spaces (pre ++ c :: r) = c :: r.
Proof.
  intros Hpre Hc. induction pre as [|x pre IH]; simpl in *.
  - rewrite Hc. done.
  - apply andb_true_iff in Hpre as [-> Hpre]. auto.
Qed.

Lemma span_digits_sep ds c r :
  forallb is_digit ds = true -> is_digit c = false ->
  span_digits (ds ++ c :: r) = (ds, c :: r).
Proof.
  intros Hds Hc. induction ds as [|d ds IH]; simpl in *.
  - rewrite Hc. done.
  - apply andb_true_iff in Hds as [-> Hds]. rewrite (IH Hds). done.
Qed.

(** Digits followed by a date separator are rejected by the grammar. *)
Lemma to_double_digits_sep pre ds c rest :
  forallb is_space pre = true -> ds <> [] -> forallb is_digit ds = true ->
  c = "-"%char \/ c = "/"%char ->
  to_double (pre ++ ds ++ c :: rest) = None.
Proof.
  intros Hpre Hne Hds Hc. unfold to_double.
  destruct ds as [|d ds]; [done|]. simpl in Hds.
  apply andb_true_iff in Hds as [Hd Hds].
  change (pre ++ (d :: ds) ++ c :: rest) with (pre ++ d :: (ds ++ c :: rest)).
  rewrite (skip_spaces_app pre d _ Hpre (digit_not_space d Hd)).
  destruct (digit_not_sign d Hd) as (Hm & Hp & _).
  unfold take_sign. rewrite !bool_decide_eq_false_2 by done.
  change (d :: ds ++ c :: rest) with ((d :: ds) ++ c :: rest).
  rewrite span_digits_sep; [|simpl; rewrite Hd; done|by destruct Hc; subst].
  destruct Hc; subst c; simpl; done.
Qed.

Lemma lower_chars s w c :
  lower s = w -> c ∈ chars s -> lower_char c ∈ chars w.
Proof.
  intros <- Hc. rewrite chars_lower. apply list_elem_of_fmap. eauto.
Qed.

Ltac elim_elem_of H :=
  repeat (apply elem_of_cons in H as [H|H]; [subst|]); [..|by inversion H].

Lemma inf_word_chars w k : w ∈ inf_words -> k ∈ chars w -> inf_char k = true.
Proof.
  intros Hw Hk. unfold inf_words in Hw.
  elim_elem_of Hw; vm_compute in Hk; elim_elem_of Hk; reflexivity.
Qed.

Lemma inf_words_chars s c :
  lower s ∈ inf_words -> c ∈ chars s -> inf_char (lower_char c) = true.
Proof.
  intros Hw Hc. apply (inf_word_chars (lower s)); [done|].
  by apply (lower_chars s).
Qed.

(** A character outside both alphabets makes the conversion raise. *)
Lemma floatify_raises_char s c :
  c ∈ chars s -> numeric_char c = false -> inf_char (lower_char c) = false ->
  floatify s = Raise ValueError.
Proof.
  intros Hc Hn Hi. unfold floatify.
  destruct (to_double (chars s)) as [n|] eqn:Hd.
  - apply to_double_chars in Hd. rewrite forallb_forall in Hd.
    apply list_elem_of_In in Hc. rewrite (Hd c Hc) in Hn. done.
  - case_bool_decide as Hw; [|done].
    rewrite (inf_words_chars s c Hw Hc) in Hi. done.
Qed.

Lemma convert_numeric_floatify s e :
  s <> "" -> floatify s = Raise e -> convert_numeric s = Raise e.
Proof.
  intros Hs Hf. unfold convert_numeric. destruct s; [done|].
  rewrite Hf. done.
Qed.

Lemma chars_strip_commas s :
  chars (strip_commas s) = filter (fun c => c <> ","%char) (chars s).
Proof. unfold strip_commas. apply chars_of_list. Qed.

Lemma not_empty_of_char s c : c ∈ chars s -> s <> "".
Proof. intros Hc ->. inversion Hc. Qed.

(** Text with a [<] in it is not a number, with or without its commas. *)
Lemma convert_numeric_angle s :
  "<"%char ∈ chars s -> convert_numeric (strip_commas s) = Raise ValueError.
Proof.
  intros Hc.
  assert ("<"%char ∈ chars (strip_commas s)) as Hc'.
  { rewrite chars_strip_commas. apply list_elem_of_filter. done. }
  apply convert_numeric_floatify; [by eapply not_empty_of_char|].
  by apply (floatify_raises_char _ "<"%char).
Qed.

Lemma filter_keep_all {A} (P : A -> Prop) `{forall x, Decision (P x)} (l : list A) :
  Forall P l -> filter P l = l.
Proof.
  induction 1 as [|x l Hx _ IH]; [done|].
  rewrite filter_cons_True by done. by rewrite IH.
Qed.

Lemma date_shaped_strip_commas s :
  date_shaped (chars s) -> date_shaped (chars (strip_commas s)).
Proof.
  intros (pre & ds & c & rest & Hs & Hpre & Hne & Hds & Hc).
  exists pre, ds, c, (filter (fun c => c <> ","%char) rest).
  repeat split; try done.
  rewrite chars_strip_commas, Hs, !filter_app, filter_cons_True
    by (destruct Hc; subst; done).
  rewrite (filter_keep_all _ pre), (filter_keep_all _ ds); [done| |].
  - apply Forall_forall. intros x Hx. rewrite forallb_forall in Hds.
    apply list_elem_of_In in Hx. by apply digit_not_sign, Hds.
  - apply Forall_forall. intros x Hx. rewrite forallb_forall in Hpre.
    apply list_elem_of_In in Hx. by apply space_not_comma, Hpre.
Qed.

Lemma convert_numeric_date_shaped s :
  date_shaped (chars s) -> convert_numeric s = Raise ValueError.
Proof.
  intros (pre & ds & c & rest & Hs & Hpre & Hne & Hds & Hc).
  destruct ds as [|d ds]; [done|].
  assert (d ∈ chars s) as Hd.
  { rewrite Hs. apply elem_of_app. right. apply elem_of_app. left. left. }
  assert (is_digit d = true) as Hdd. { simpl in Hds. by apply andb_true_iff in Hds as []. }
  apply convert_numeric_floatify; [by eapply not_empty_of_char|].
  unfold floatify. rewrite Hs, to_double_digits_sep by done.
  case_bool_decide as Hw; [|done].
  pose proof (inf_words_chars s d Hw Hd) as Hi.
  revert Hi Hdd. clear. by_all_chars d.
Qed.

(** ** The shape of a date text *)

Lemma in_range_digit lo hi c :
  is_digit lo = true -> is_digit hi = true -> in_range lo hi c = true ->
  is_digit c = true.
Proof.
  unfold in_range, is_digit. intros Hlo Hhi Hc.
  apply andb_true_iff in Hlo as [Hlo _]. apply andb_true_iff in Hhi as [_ Hhi].
  apply andb_true_iff in Hc as [H1 H2].
  apply andb_true_iff. split; apply Z.leb_le; apply Z.leb_le in Hlo, Hhi, H1, H2; lia.
Qed.

Lemma match_format_lit sep fmt s acc t :
  match_format (Lit sep :: fmt) s acc = Some t -> exists s', s = sep :: s'.
Proof.
  simpl. destruct s as [|c s']; [done|]. case_bool_decide; [|done].
  subst. eauto.
Qed.

Lemma or_else_some {A} (a b : option A) (x : A) :
  or_else a b = Some x -> a = Some x \/ b = Some x.
Proof. destruct a; simpl; auto. Qed.

Lemma date_shaped_intro pre ds sep s' :
  forallb is_space pre = true -> ds <> [] -> forallb is_digit ds = true ->
  sep = "-"%char \/ sep = "/"%char ->
  date_shaped (pre ++ ds ++ sep :: s').
Proof. intros. exists pre, ds, sep, s'. done. Qed.

Ltac digit_of H :=
  eapply in_range_digit in H; [|reflexivity|reflexivity].

Lemma match_format_shaped d sep fmt s acc t :
  (forall c, d <> Lit c) -> sep = "-"%char \/ sep = "/"%char ->
  match_format (d :: Lit sep :: fmt) s acc = Some t -> date_shaped s.
Proof.
  intros Hd Hsep H. destruct d as [| | |c]; [| | |by destruct (Hd c)].
  - (* %Y *)
    cbn [match_format] in H.
    destruct s as [|a [|b [|c [|e s']]]]; try done.
    destruct (forallb is_digit [a; b; c; e]) eqn:Hds; [|done].
    apply match_format_lit in H as [s'' ->].
    by apply (date_shaped_intro [] [a; b; c; e]).
  - (* %m *)
    cbn [match_format] in H. apply or_else_some in H as [H|H].
    + destruct s as [|a [|b s']]; try done.
      destruct (_ || _) eqn:Hc in H; [|done].
      apply match_format_lit in H as [s'' ->].
      apply (date_shaped_intro [] [a; b]); try done.
      apply orb_true_iff in Hc as [Hc|Hc]; apply andb_true_iff in Hc as [Ha Hb];
        apply bool_decide_eq_true in Ha; subst a; digit_of Hb; simpl;
        rewrite Hb; done.
    + destruct s as [|a s']; [done|].
      destruct (in_range _ _ a) eqn:Ha; [|done].
      apply match_format_lit in H as [s'' ->]. digit_of Ha.
      apply (date_shaped_intro [] [a]); try done. simpl. rewrite Ha. done.
  - (* %d *)
    cbn [match_format] in H.
    apply or_else_some in H as [H|H]; [|apply or_else_some in H as [H|H]].
    + destruct s as [|a [|b s']]; try done.
      destruct (_ || _) eqn:Hc in H; [|done].
      apply match_format_lit in H as [s'' ->].
      apply (date_shaped_intro [] [a; b]); try done.
      apply orb_true_iff in Hc as [Hc|Hc];
        [apply orb_true_iff in Hc as [Hc|Hc]|];
        apply andb_true_iff in Hc as [Ha Hb].
      * apply bool_decide_eq_true in Ha; subst a; digit_of Hb. simpl.
        rewrite Hb. done.
      * digit_of Ha. simpl. rewrite Ha, Hb. done.
      * apply bool_decide_eq_true in Ha; subst a; digit_of Hb. simpl.
        rewrite Hb. done.
    + destruct s as [|a s']; [done|].
      destruct (in_range _ _ a) eqn:Ha; [|done].
      apply match_format_lit in H as [s'' ->]. digit_of Ha.
      apply (date_shaped_intro [] [a]); try done. simpl. rewrite Ha. done.
    + destruct s as [|a [|b s']]; try done.
      destruct (_ && _) eqn:Hc in H; [|done].
      apply andb_true_iff in Hc as [Ha Hb].
      apply bool_decide_eq_true in Ha; subst a; digit_of Hb.
      apply match_format_lit in H as [s'' ->].
      apply (date_shaped_intro [" "%char] [b]); try done. simpl. rewrite Hb. done.
Qed.

Lemma strptime_shaped d sep fmt s :
  (forall c, d <> Lit c) -> sep = "-"%char \/ sep = "/"%char ->
  strptime (d :: Lit sep :: fmt) s = true -> date_shaped (chars s).
Proof.
  intros Hd Hsep. unfold strptime.
  destruct (match_format _ _ _) as [t|] eqn:H; [|done].
  intros _. by eapply match_format_shaped.
Qed.

(** Every text accepted under one of the four explicit formats is a
    missing-timestamp text or is date shaped. *)
Lemma parses_later_shaped f s :
  f <> F_Y_m_d -> parses f s = true -> s ∈ nat_strings \/ date_shaped (chars s).
Proof.
  intros Hf. destruct f; [done|..]; unfold parses, array_strptime;
    rewrite orb_true_iff; (intros [H|H]; [left; by apply bool_decide_eq_true in H|]);
    right; revert H; apply strptime_shaped; auto; done.
Qed.

Lemma match_format_sep d sep fmt s acc t :
  (forall c, d <> Lit c) -> is_digit sep = false ->
  match_format (d :: Lit sep :: fmt) s acc = Some t ->
  exists pre ds rest,
    s = pre ++ ds ++ sep :: rest /\ forallb is_space pre = true /\
    ds <> [] /\ forallb is_digit ds = true.
Proof.
  intros Hd Hsep H.
  assert (forall a, in_range "1" "9" a = true -> is_digit a = true) as H19
    by (intros a Ha; by digit_of Ha).
  destruct d as [| | |c]; [| | |by destruct (Hd c)]; cbn [match_format] in H.
  - destruct s as [|a [|b [|c [|e s']]]]; try done.
    destruct (forallb is_digit [a; b; c; e]) eqn:Hds; [|done].
    apply match_format_lit in H as [s'' ->]. by exists [], [a; b; c; e], s''.
  - apply or_else_some in H as [H|H].
    + destruct s as [|a [|b s']]; try done.
      destruct (_ || _) eqn:Hc in H; [|done].
      apply match_format_lit in H as [s'' ->]. exists [], [a; b], s''.
      repeat split; try done.
      apply orb_true_iff in Hc as [Hc|Hc]; apply andb_true_iff in Hc as [Ha Hb];
        apply bool_decide_eq_true in Ha; subst a; digit_of Hb; simpl;
        by rewrite Hb.
    + destruct s as [|a s']; [done|].
      destruct (in_range _ _ a) eqn:Ha; [|done].
      apply match_format_lit in H as [s'' ->]. exists [], [a], s''.
      repeat split; try done. simpl. by rewrite (H19 a Ha).
  - apply or_else_some in H as [H|H]; [|apply or_else_some in H as [H|H]].
    + destruct s as [|a [|b s']]; try done.
      destruct (_ || _) eqn:Hc in H; [|done].
      apply match_format_lit in H as [s'' ->]. exists [], [a; b], s''.
      repeat split; try done.
      apply orb_true_iff in Hc as [Hc|Hc];
        [apply orb_true_iff in Hc as [Hc|Hc]|];
        apply andb_true_iff in Hc as [Ha Hb].
      * apply bool_decide_eq_true in Ha; subst a; digit_of Hb. simpl. by rewrite Hb.
      * digit_of Ha. simpl. by rewrite Ha, Hb.
      * apply bool_decide_eq_true in Ha; subst a; digit_of Hb. simpl. by rewrite Hb.
    + destruct s as [|a s']; [done|].
      destruct (in_range _ _ a) eqn:Ha; [|done].
      apply match_format_lit in H as [s'' ->]. exists [], [a], s''.
      repeat split; try done. simpl. by rewrite (H19 a Ha).
    + destruct s as [|a [|b s']]; try done.
      destruct (_ && _) eqn:Hc in H; [|done].
      apply andb_true_iff in Hc as [Ha Hb].
      apply bool_decide_eq_true in Ha; subst a.
      apply match_format_lit in H as [s'' ->]. exists [" "%char], [b], s''.
      repeat split; try done. simpl. by rewrite (H19 b Hb).
Qed.

(** A text matches formats with one separator only: the character after
    its first run of digits. *)
Lemma strptime_one_separator d sep fmt d' sep' fmt' s :
  (forall c, d <> Lit c) -> (forall c, d' <> Lit c) ->
  is_digit sep = false -> is_digit sep' = false -> sep <> sep' ->
  strptime (d :: Lit sep :: fmt) s = true ->
  strptime (d' :: Lit sep' :: fmt') s = false.
Proof.
  intros Hd Hd' Hs Hs' Hne H1.
  destruct (strptime (d' :: Lit sep' :: fmt') s) eqn:H2; [|done]. exfalso.
  unfold strptime in H1, H2.
  destruct (match_format (d :: _) _ _) as [t|] eqn:M1; [|done].
  destruct (match_format (d' :: _) _ _) as [t'|] eqn:M2; [|done].
  apply match_format_sep in M1 as (pre & ds & rest & E1 & Hpre & Hds0 & Hds);
    [|done|done].
  apply match_format_sep in M2 as (pre' & ds' & rest' & E2 & Hpre' & Hds0' & Hds');
    [|done|done].
  assert (ds ++ sep :: rest = ds' ++ sep' :: rest') as E.
  { destruct ds as [|x ds]; [done|]. destruct ds' as [|x' ds']; [done|].
    pose proof Hds as Hx. pose proof Hds' as Hx'. simpl in Hx, Hx'.
    apply andb_true_iff in Hx as [Hx _]. apply andb_true_iff in Hx' as [Hx' _].
    pose proof (skip_spaces_app pre x (ds ++ sep :: rest) Hpre
                  (digit_not_space _ Hx)) as S1.
    pose proof (skip_spaces_app pre' x' (ds' ++ sep' :: rest') Hpre'
                  (digit_not_space _ Hx')) as S2.
    change (skip_spaces (pre ++ (x :: ds) ++ sep :: rest)
            = (x :: ds) ++ sep :: rest) in S1.
    change (skip_spaces (pre' ++ (x' :: ds') ++ sep' :: rest')
            = (x' :: ds') ++ sep' :: rest') in S2.
    rewrite <- E1 in S1. rewrite <- E2 in S2. congruence. }
  apply (f_equal span_digits) in E.
  rewrite !span_digits_sep in E by done. congruence.
Qed.

(** *** The ISO path *)

Lemma skip_spaces_elem s x : x ∈ skip_spaces s -> x ∈ s.
Proof.
  induction s as [|c r IH]; simpl; [done|].
  destruct (is_space c); [right; auto|done].
Qed.


Lemma starts_with_digit_elem s :
  starts_with_digit s = true -> exists d, d ∈ s /\ is_digit d = true.
Proof. destruct s as [|a s]; simpl; [done|]. intros H. exists a. split; [left|done]. Qed.

(** A text the ISO parser reads holds a digit. *)
Lemma parse_iso_digit str t :
  parse_iso_8601_datetime str = Some t -> exists d, d ∈ str /\ is_digit d = true.
Proof.
  unfold parse_iso_8601_datetime.
  set (s := match skip_spaces str with
            | c :: r => if bool_decide (c = "-"%char) then r else skip_spaces str
            | [] => skip_spaces str
            end).
  assert (forall x, x ∈ s -> x ∈ str) as Hsub.
  { intros x. unfold s. destruct (skip_spaces str) as [|c r] eqn:Hs;
      [by inversion 1|].
    destruct (bool_decide (c = "-"%char)); intros Hx;
      apply skip_spaces_elem; rewrite Hs; [by right|done]. }
  clearbody s. intros H.
  assert (exists d, d ∈ s /\ is_digit d = true) as (d & Hd & Hdd);
    [|exists d; auto].
  destruct s as [|c0 r0]; [done|].
  destruct (starts_with_digit (c0 :: r0)) eqn:H0.
  { by apply starts_with_digit_elem. }
  simpl in H0.
  assert ((let '(y, s1) :=
            match c0 :: r0 with
            | a :: b :: c :: d :: r =>
                if forallb is_digit [a; b; c; d] then (digits_val [a; b; c; d], r)
                else (0, c0 :: r0)
            | _ => (0, c0 :: r0)
            end in (y, s1)) = (0, c0 :: r0)) as Hy.
  { destruct r0 as [|b [|c [|d r]]]; try done. simpl. by rewrite H0. }
  revert H.
  destruct (match c0 :: r0 with
            | a :: b :: c :: d :: r =>
                if forallb is_digit [a; b; c; d] then (digits_val [a; b; c; d], r)
                else (0, c0 :: r0)
            | _ => (0, c0 :: r0)
            end) as [y s1].
  injection Hy as -> ->. rewrite H0.
  destruct (bool_decide (c0 ∈ valid_ymd_sep) && starts_with_digit r0) eqn:Hsep;
    [|done].
  intros _. apply andb_true_iff in Hsep as [_ Hr].
  destruct (starts_with_digit_elem _ Hr) as (d & Hd & Hdd).
  exists d. split; [by right|done].
Qed.

Lemma iso_8601_cases s :
  iso_8601 s = true ->
  s = "" \/ s ∈ nat_strings \/ s ∈ ["now"; "today"]
  \/ exists d, d ∈ chars s /\ is_digit d = true.
Proof.
  unfold iso_8601. rewrite !orb_true_iff. intros [[H|H]|H].
  - left. by apply bool_decide_eq_true in H.
  - right. left. by apply bool_decide_eq_true in H.
  - destruct (parse_iso_8601_datetime (chars s)) as [t|] eqn:Hp.
    + do 3 right. by eapply parse_iso_digit.
    + right. right. left. by apply bool_decide_eq_true in H.
Qed.



Lemma date_shaped_digit s : date_shaped s -> exists d, d ∈ s /\ is_digit d = true.
Proof.
  intros (pre & ds & c & rest & -> & _ & Hne & Hds & _).
  destruct ds as [|d ds]; [done|]. exists d. split.
  - apply elem_of_app. right. left.
  - simpl in Hds. by apply andb_true_iff in Hds as [].
Qed.

(** ** The null marker *)

Lemma sub_null_marker_cons c1 r :
  sub_null_marker (c1 :: r) =
  match r with
  | c2 :: c3 :: c4 :: c5 :: c6 :: rest =>
      if is_null_marker c1 c2 c3 c4 c5 c6
      then sub_null_marker rest
      else c1 :: sub_null_marker r
  | _ => c1 :: sub_null_marker r
  end.
Proof. reflexivity. Qed.

Lemma is_null_marker_angle c1 c2 c3 c4 c5 c6 :
  is_null_marker c1 c2 c3 c4 c5 c6 = true -> c1 = "<"%char.
Proof.
  unfold is_null_marker, chars_eqb. intros H.
  apply bool_decide_eq_true in H. injection H as H _. clear -H.
  revert H. by_all_chars c1.
Qed.

Lemma sub_null_marker_id s : "<"%char ∉ s -> sub_null_marker s = s.
Proof.
  induction s as [|c1 r IH]; [done|]. intros Hnot.
  assert (c1 <> "<"%char) as Hc1 by (intros ->; apply Hnot; left).
  assert ("<"%char ∉ r) as Hr by (intros Hr; apply Hnot; by right).
  rewrite sub_null_marker_cons.
  destruct r as [|c2 [|c3 [|c4 [|c5 [|c6 rest]]]]]; try (by rewrite IH).
  destruct (is_null_marker c1 c2 c3 c4 c5 c6) eqn:Hm.
  - by apply is_null_marker_angle in Hm.
  - by rewrite IH.
Qed.

Lemma remove_null_marker_id s : "<"%char ∉ chars s -> remove_null_marker s = s.
Proof.
  intros H. unfold remove_null_marker. rewrite sub_null_marker_id by done.
  apply string_of_list_ascii_of_string.
Qed.

(** A text whose marker-free form is date shaped, or is read as a
    missing timestamp, is not a number. *)
Lemma date_text_not_numeric s :
  date_shaped (chars (remove_null_marker s)) \/ remove_null_marker s ∈ nat_strings ->
  convert_numeric (strip_commas s) = Raise ValueError.
Proof.
  intros Hp. destruct (decide ("<"%char ∈ chars s)) as [Hin|Hnot].
  - by apply convert_numeric_angle.
  - rewrite remove_null_marker_id in Hp by done. destruct Hp as [Hp|Hp].
    + by apply convert_numeric_date_shaped, date_shaped_strip_commas.
    + unfold nat_strings in Hp. elim_elem_of Hp; reflexivity.
Qed.

(** A boolean word is free of markers and is not a date. *)
Lemma boolean_word_chars s c :
  is_boolean_value (VStr s) = true -> c ∈ chars s ->
  bool_decide (lower_char c ∈ chars "truefals") = true.
Proof.
  simpl. intros Hb Hc.
  apply orb_true_iff in Hb as [Hb|Hb]; apply bool_decide_eq_true in Hb;
    apply (lower_chars _ _ c Hb) in Hc; revert Hc;
    generalize (lower_char c); intros k Hk; vm_compute in Hk;
    elim_elem_of Hk; reflexivity.
Qed.

Lemma boolean_word_no_digit s d :
  is_boolean_value (VStr s) = true -> d ∈ chars s -> is_digit d = false.
Proof.
  intros Hb Hd. apply (boolean_word_chars s d Hb) in Hd.
  rewrite <- lower_char_digit. revert Hd.
  generalize (lower_char d). intros k. by_all_chars k.
Qed.

Lemma boolean_word_not_date f s :
  is_boolean_value (VStr s) = true -> parses f (remove_null_marker s) = false.
Proof.
  intros Hb. destruct (parses f (remove_null_marker s)) eqn:Hp; [|done].
  exfalso. rewrite remove_null_marker_id in Hp.
  2:{ intros Hc. apply (boolean_word_chars s _ Hb) in Hc. done. }
  assert (s ∈ "" :: nat_strings ++ ["now"; "today"]
          \/ exists d, d ∈ chars s /\ is_digit d = true) as [Hw|(d & Hd & Hdd)].
  { destruct (decide (f = F_Y_m_d)) as [->|Hf].
    - apply iso_8601_cases in Hp as [->|[H|[H|H]]]; [left; left|left; right..|by right].
      + apply elem_of_app. by left.
      + apply elem_of_app. by right.
    - apply parses_later_shaped in Hp as [H|H]; [| |done].
      + left. right. apply elem_of_app. by left.
      + right. by apply date_shaped_digit. }
  - simpl in Hb. unfold nat_strings in Hw. simpl in Hw.
    elim_elem_of Hw; vm_compute in Hb; done.
  - by rewrite (boolean_word_no_digit s d Hb Hd) in Hdd.
Qed.

(** ** The order of text and the minimum of a column *)

Lemma string_leb_trans a b c :
  String.leb a b = true -> String.leb b c = true -> String.leb a c = true.
Proof.
  unfold String.leb. revert b c.
  induction a as [|x a IH]; intros [|y b] [|z c]; simpl; try done.
  unfold Ascii.compare.
  destruct (N.compare_spec (N_of_ascii x) (N_of_ascii y)) as [Hxy|Hxy|Hxy];
    destruct (N.compare_spec (N_of_ascii y) (N_of_ascii z)) as [Hyz|Hyz|Hyz];
    try done.
  - rewrite Hxy, Hyz, N.compare_refl. apply IH.
  - rewrite Hxy. intros _ _.
    by destruct (N.compare_spec (N_of_ascii y) (N_of_ascii z)); try lia.
  - rewrite <- Hyz. intros _ _.
    by destruct (N.compare_spec (N_of_ascii x) (N_of_ascii y)); try lia.
  - intros _ _.
    by destruct (N.compare_spec (N_of_ascii x) (N_of_ascii z)); try lia.
Qed.

Lemma string_leb_refl a : String.leb a a = true.
Proof. by destruct (String.leb_total a a). Qed.

Lemma string_ltb_leb a b : String.ltb a b = true -> String.leb a b = true.
Proof. unfold String.ltb, String.leb. by destruct (String.compare a b). Qed.

Lemma string_ltb_false_leb a b : String.ltb a b = false -> String.leb b a = true.
Proof.
  unfold String.ltb, String.leb. rewrite (String.compare_antisym a b).
  by destruct (String.compare b a).
Qed.

Lemma min_text_spec m l :
  forallb is_text l = true ->
  exists m', min_text m l = Ok m' /\ (m' = m \/ VStr m' ∈ l) /\
    String.leb m' m = true /\ (forall s, VStr s ∈ l -> String.leb m' s = true).
Proof.
  revert m. induction l as [|x l IH]; intros m Hl; simpl in *.
  - exists m. repeat split; auto using string_leb_refl. intros s Hs. inversion Hs.
  - destruct x as [| |s| | | |]; try done.
    destruct (IH (if String.ltb s m then s else m) Hl) as (m' & -> & Hin & Hle & Hall).
    exists m'. split; [done|].
    destruct (String.ltb s m) eqn:Hsm.
    + split; [|split].
      * right. destruct Hin as [->|Hin]; [left|by right].
      * eapply string_leb_trans; [exact Hle|by apply string_ltb_leb].
      * intros t Ht. apply elem_of_cons in Ht as [[= ->]|Ht]; auto.
    + split; [|split].
      * destruct Hin as [->|Hin]; [by left|right; by right].
      * done.
      * intros t Ht. apply elem_of_cons in Ht as [[= ->]|Ht]; auto.
        eapply string_leb_trans; [exact Hle|by apply string_ltb_false_leb].
Qed.

(** [column.min()] of a column of text returns a cell that is below every
    cell. *)
Lemma series_min_spec l :
  l <> [] -> forallb is_text l = true ->
  exists m, series_min l = Ok m /\ VStr m ∈ l /\
    (forall s, VStr s ∈ l -> String.leb m s = true).
Proof.
  intros Hne Hl. destruct l as [|x l]; [done|]. simpl in Hl.
  destruct x as [| |s| | | |]; try done. simpl.
  destruct (min_text_spec s l Hl) as (m & -> & Hin & Hle & Hall).
  exists m. split; [done|]. split.
  - destruct Hin as [->|Hin]; [left|by right].
  - intros t Ht. apply elem_of_cons in Ht as [[= ->]|Ht]; auto.
Qed.

(** ** The dtype of a column of objects *)

(** A text or a list stops the pass, wherever it stands. *)
Lemma saw_all_object s l : existsb is_text_or_list l = true -> saw_all s l = None.
Proof.
  revert s. induction l as [|x l IH]; intros s; simpl; [done|].
  destruct (is_text_or_list x) eqn:Hx; simpl.
  - intros _. by destruct x.
  - intros H. destruct (saw s x); [by apply IH|done].
Qed.

Lemma frame_dtype_object l :
  existsb is_text_or_list l = true -> frame_dtype l = DObject.
Proof. intros H. unfold frame_dtype. by rewrite saw_all_object. Qed.

(** On cells whose integers fit the signed range the pass never stops at
    an integer, and what it has seen at the end are the kinds of cells
    of the column. *)
Lemma saw_all_fits s l :
  uint_ s = false -> forallb fits_int64 l = true ->
  existsb is_text_or_list l = false ->
  exists n,
    saw_all s l =
      Some (mkSeen (null_ s || existsb is_none l) (bool_ s || existsb is_bool_cell l)
              (float_ s || existsb is_float_cell l)
              (int_ s || existsb (int_cell (fun _ => true)) l) false n).
Proof.
  revert s. induction l as [|x l IH]; intros s Hu Hfit Hobj; simpl.
  - exists (sint_ s). rewrite !orb_false_r. destruct s; simpl in *. by subst.
  - simpl in Hfit, Hobj. apply andb_true_iff in Hfit as [Hx Hfit].
    apply orb_false_iff in Hobj as [Hxo Hobj].
    destruct x as [| |t|b|z|q|items]; try done; simpl.
    + destruct (IH (mkSeen true (bool_ s) (float_ s) (int_ s) (uint_ s) (sint_ s))
                  Hu Hfit Hobj) as [n ->].
      exists n. simpl. by rewrite orb_true_r.
    + destruct (IH (mkSeen (null_ s) (bool_ s) true (int_ s) (uint_ s) (sint_ s))
                  Hu Hfit Hobj) as [n ->].
      exists n. simpl. by rewrite orb_true_r.
    + destruct (IH (mkSeen (null_ s) true (float_ s) (int_ s) (uint_ s) (sint_ s))
                  Hu Hfit Hobj) as [n ->].
      exists n. simpl. by rewrite orb_true_r.
    + simpl in Hx. apply andb_true_iff in Hx as [Hlo Hhi].
      destruct (null_ s) eqn:Hnull.
      * destruct (IH (mkSeen true (bool_ s) (float_ s) true (uint_ s) (sint_ s))
                    Hu Hfit Hobj) as [n ->].
        exists n. simpl. by rewrite orb_true_r.
      * rewrite Hu. simpl.
        assert ((INT64_MAX <? z) = false) as -> by lia. simpl.
        assert ((UINT64_MAX <? z) = false) as ->
          by (unfold UINT64_MAX, INT64_MAX in *; lia).
        assert ((z <? INT64_MIN) = false) as -> by lia.
        rewrite !orb_false_r.
        destruct (IH (mkSeen false (bool_ s) (float_ s) true false
                        (sint_ s || (INT64_MIN <=? z) && (z <? 0)))
                    eq_refl Hfit Hobj) as [n ->].
        exists n. simpl. by rewrite orb_true_r.
    + destruct (IH (mkSeen (null_ s) (bool_ s) true (int_ s) (uint_ s) (sint_ s))
                  Hu Hfit Hobj) as [n ->].
      exists n. simpl. by rewrite orb_true_r.
Qed.

(** The dtype of a column whose integers fit the signed range, from the
    kinds of its cells. *)
Lemma frame_dtype_fits l :
  forallb fits_int64 l = true ->
  frame_dtype l =
    if existsb is_text_or_list l then DObject
    else dtype_of_seen
           (mkSeen (existsb is_none l) (existsb is_bool_cell l)
              (existsb is_float_cell l) (existsb (int_cell (fun _ => true)) l)
              false false).
Proof.
  intros Hfit. destruct (existsb is_text_or_list l) eqn:Hobj.
  - by apply frame_dtype_object.
  - unfold frame_dtype.
    destruct (saw_all_fits seen_nothing l eq_refl Hfit Hobj) as [n ->].
    unfold dtype_of_seen. simpl. done.
Qed.

Lemma existsb_false_forall {A} (p : A -> bool) l :
  (forall x, x ∈ l -> p x = false) -> existsb p l = false.
Proof.
  intros H. apply not_true_is_false. intros Hex.
  apply existsb_exists in Hex as (x & Hx & Hp).
  apply list_elem_of_In in Hx. by rewrite (H x Hx) in Hp.
Qed.

Lemma cast_cell_object l : map (cast_cell DObject) l = l.
Proof. induction l as [|x l IH]; simpl; [done|]. by rewrite IH. Qed.

(** ** The replacement of blanks *)

Lemma blank_to_nan_id l : existsb is_blank l = false -> map blank_to_nan l = l.
Proof.
  induction l as [|x l IH]; simpl; [done|]. intros H.
  apply orb_false_iff in H as [Hx Hl]. rewrite (IH Hl).
  by destruct x as [| |[|c s]| | | |].
Qed.

(** On text, booleans and missing cells the conversion that follows the
    replacement changes the column only when no cell is text or a
    boolean: every cell is then [NaN]. *)
Lemma replace_blank_simple l :
  forallb is_simple l = true ->
  replace_blank l =
    if existsb is_blank l && negb (existsb (fun x => negb (is_missing x)) l)
    then map (fun _ => VNaN) l else map blank_to_nan l.
Proof.
  intros Hs. unfold replace_blank.
  destruct (existsb is_blank l) eqn:Hb; [|by rewrite blank_to_nan_id].
  cbn [andb].
  assert (forall x, x ∈ l -> is_simple x = true) as Hs'.
  { intros x Hx. rewrite forallb_forall in Hs. by apply Hs, list_elem_of_In. }
  destruct (existsb (fun x => negb (is_missing x)) l) eqn:Hn; cbn [negb].
  - assert (frame_dtype (map blank_to_nan l) = DObject) as ->;
      [|by rewrite cast_cell_object].
    apply existsb_exists in Hn as (x & Hx & Hxm).
    pose proof (Hs' x (proj2 (list_elem_of_In _ _) Hx)) as Hxs.
    destruct x as [| |[|c s]|b| | |]; try done.
    + apply frame_dtype_object, existsb_exists. exists (VStr (String c s)).
      split; [|done]. by apply (in_map blank_to_nan _ _ Hx).
    + rewrite frame_dtype_fits.
      2:{ apply forallb_forall. intros y Hy. apply in_map_iff in Hy as (z & <- & Hz).
          apply list_elem_of_In, Hs' in Hz. by destruct z as [| |[|c s]| | | |]. }
      destruct (existsb is_text_or_list _); [done|].
      assert (existsb is_bool_cell (map blank_to_nan l) = true) as ->.
      { apply existsb_exists. exists (VBool b). split; [|done].
        by apply (in_map blank_to_nan _ _ Hx). }
      assert (existsb is_float_cell (map blank_to_nan l) = true) as ->.
      { apply existsb_exists in Hb as (y & Hy & Hyb). apply existsb_exists.
        exists VNaN. split; [|done]. destruct y as [| |[|c s]| | | |]; try done.
        by apply (in_map blank_to_nan _ _ Hy). }
      unfold dtype_of_seen. simpl. by destruct (existsb is_none _).
  - assert (forall x, x ∈ l -> blank_to_nan x = VNone \/ blank_to_nan x = VNaN) as Hm.
    { intros x Hx. pose proof (Hs' x Hx) as Hxs.
      assert (negb (is_missing x) = false) as Hxm.
      { apply not_true_is_false. intros Hc.
        assert (existsb (fun x => negb (is_missing x)) l = true) as Hex; [|congruence].
        apply existsb_exists. exists x. split; [by apply list_elem_of_In|done]. }
      destruct x as [| |[|c s]|b| | |]; try done; auto. }
    assert (frame_dtype (map blank_to_nan l) = DFloat64) as ->.
    { rewrite frame_dtype_fits.
      2:{ apply forallb_forall. intros y Hy. apply in_map_iff in Hy as (z & <- & Hz).
          apply list_elem_of_In, Hm in Hz as [-> | ->]; done. }
      rewrite (existsb_false_forall is_text_or_list),
        (existsb_false_forall is_bool_cell),
        (existsb_false_forall (int_cell (fun _ => true)));
        try (intros y Hy; apply list_elem_of_fmap in Hy as (z & -> & Hz);
             by destruct (Hm z Hz) as [-> | ->]).
      assert (existsb is_float_cell (map blank_to_nan l) = true) as ->.
      { apply existsb_exists in Hb as (y & Hy & Hyb). apply existsb_exists.
        exists VNaN. split; [|done]. destruct y as [| |[|c s]| | | |]; try done.
        by apply (in_map blank_to_nan _ _ Hy). }
      unfold dtype_of_seen. simpl. by destruct (existsb is_none _). }
    rewrite map_map. apply map_ext_in. intros x Hx.
    by destruct (Hm x (proj2 (list_elem_of_In _ _) Hx)) as [-> | ->].
Qed.

Lemma replace_blank_text l :
  forallb is_text l = true -> replace_blank l = map blank_to_nan l.
Proof.
  intros Hl. rewrite replace_blank_simple.
  2:{ rewrite forallb_forall in *. intros x Hx. specialize (Hl x Hx). by destruct x. }
  destruct (_ && _) eqn:Hc; [|done].
  apply andb_true_iff in Hc as [_ Hn]. apply negb_true_iff in Hn.
  apply map_ext_in. intros x Hx.
  assert (negb (is_missing x) = false) as Hxm.
  { apply not_true_is_false. intros Hc.
    assert (existsb (fun x => negb (is_missing x)) l = true) as Hex; [|congruence].
    apply existsb_exists. exists x. split; done. }
  rewrite forallb_forall in Hl. specialize (Hl x Hx).
  by destruct x as [| |[|c s]| | | |].
Qed.

(** ** Columns of text *)

Lemma mapM_result_inv {A B : Type} (f : A -> result B) (l : list A) (ys : list B) :
  mapM_result f l = Ok ys -> Forall2 (fun x y => f x = Ok y) l ys.
Proof.
  revert ys. induction l as [|x l IH]; simpl; intros ys H.
  - injection H as <-. constructor.
  - destruct (f x) as [y|] eqn:Hx; simpl in H; [|done].
    destruct (mapM_result f l) as [zs|] eqn:Hl; simpl in H; [|done].
    injection H as <-. constructor; auto.
Qed.

Lemma forallb_is_text l :
  forallb is_text l = true <-> forall x, x ∈ l -> exists s, x = VStr s.
Proof.
  rewrite forallb_forall. split; intros H x Hx.
  - apply list_elem_of_In, H in Hx. destruct x; try done. eauto.
  - apply list_elem_of_In, H in Hx as [s ->]. done.
Qed.

Lemma strip_commas_column l :
  forallb is_text l = true ->
  exists ts, mapM_result cell_strip_commas l = Ok ts /\
    forall s, VStr s ∈ l -> strip_commas s ∈ ts.
Proof.
  induction l as [|x l IH]; simpl; intros Hl.
  - exists []. split; [done|]. intros s Hs. inversion Hs.
  - apply andb_true_iff in Hl as [Hx Hl]. destruct x as [| |s| | | |]; try done.
    destruct (IH Hl) as (ts & -> & Hts). simpl.
    exists (strip_commas s :: ts). split; [done|].
    intros t Ht. apply elem_of_cons in Ht as [[= ->]|Ht]; [left|right; auto].
Qed.

Lemma strip_commas_column_text l ts :
  mapM_result cell_strip_commas l = Ok ts -> forallb is_text l = true.
Proof.
  intros H. apply mapM_result_inv in H. apply forallb_forall.
  intros x Hx. apply list_elem_of_In in Hx.
  induction H as [|y t l ts Hy _ IH]; [inversion Hx|].
  apply elem_of_cons in Hx as [->|Hx]; auto. by destruct y.
Qed.

(** [infer_number] returns only on a column of text; any other cell makes
    it raise. *)
Lemma infer_number_text column b :
  infer_number column = Ok b -> forallb is_text (cells column) = true.
Proof.
  unfold infer_number.
  destruct (mapM_result cell_strip_commas (cells column)) as [ts|] eqn:H; [|done].
  intros _. by eapply strip_commas_column_text.
Qed.

Lemma infer_number_not_text column :
  forallb is_text (cells column) = false -> infer_number column = Raise AttributeError.
Proof.
  intros Hl. unfold infer_number.
  assert (mapM_result cell_strip_commas (cells column) = Raise AttributeError) as ->;
    [|done].
  revert Hl. generalize (cells column). intros l.
  induction l as [|x l IH]; simpl; [done|].
  destruct x; simpl; try done. intros Hl. by rewrite (IH Hl).
Qed.

Lemma infer_number_date column s :
  forallb is_text (cells column) = true -> VStr s ∈ cells column ->
  date_shaped (chars (remove_null_marker s)) \/ remove_null_marker s ∈ nat_strings ->
  infer_number column = Ok false.
Proof.
  intros Hl Hs Hp. unfold infer_number.
  destruct (strip_commas_column _ Hl) as (ts & -> & Hts). simpl.
  unfold to_numeric.
  destruct (mapM_result_raise convert_numeric ts (strip_commas s) ValueError)
    as [e ->]; [by apply Hts|by eapply date_text_not_numeric|done].
Qed.

(** The candidates of a column of text are its non-blank marker-free
    texts. *)
Lemma date_candidates_text l x :
  forallb is_text l = true -> x ∈ date_candidates l ->
  exists s, VStr s ∈ l /\ x = VStr (remove_null_marker s) /\
    remove_null_marker s <> "".
Proof.
  intros Hl Hx. unfold date_candidates, dropna in Hx.
  rewrite replace_blank_text in Hx.
  2:{ apply forallb_forall. intros y Hy. apply in_map_iff in Hy as (z & <- & Hz).
      rewrite forallb_forall in Hl. specialize (Hl z Hz). by destruct z. }
  apply list_elem_of_filter in Hx as [Hnn Hx].
  apply list_elem_of_fmap in Hx as (y & -> & Hy).
  apply list_elem_of_fmap in Hy as (z & -> & Hz).
  destruct (proj1 (forallb_is_text l) Hl z Hz) as [s ->].
  exists s. split; [done|]. simpl in *.
  destruct (remove_null_marker s); done.
Qed.

Lemma date_candidates_truthy l :
  forallb is_text l = true ->
  filter (fun x => truthy x = true) (date_candidates l) = date_candidates l.
Proof.
  intros Hl. apply filter_keep_all, Forall_forall. intros x Hx.
  apply (date_candidates_text l x Hl) in Hx as (s & _ & -> & Hne).
  simpl. by rewrite bool_decide_eq_false_2.
Qed.

Lemma date_candidates_is_text l :
  forallb is_text l = true -> forallb is_text (date_candidates l) = true.
Proof.
  intros Hl. apply forallb_is_text. intros x Hx.
  apply (date_candidates_text l x Hl) in Hx as (s & _ & -> & _). eauto.
Qed.

(** ** The date format resolver *)

Lemma try_later_formats_cases fmts column dfm :
  (Forall (fun fl => forallb (cell_parses fl.1) (cells column) = false) fmts /\
   try_later_formats fmts column dfm = (false, dfm))
  \/ (exists pre f label post,
        fmts = pre ++ (f, label) :: post /\
        Forall (fun fl => forallb (cell_parses fl.1) (cells column) = false) pre /\
        forallb (cell_parses f) (cells column) = true /\
        try_later_formats fmts column dfm = (false, <[name column := label]> dfm)).
Proof.
  induction fmts as [|[f label] fmts IH]; simpl.
  - left. split; [constructor|done].
  - unfold to_datetime.
    destruct (forallb (cell_parses f) (cells column)) eqn:Hf.
    + right. exists [], f, label, fmts. repeat split; [constructor|done].
    + destruct IH as [[Hall ->]|(pre & f' & label' & post & -> & Hpre & Hf' & ->)].
      * left. split; [by constructor|done].
      * right. exists ((f, label) :: pre), f', label', post.
        repeat split; [by constructor|done].
Qed.

(** The three outcomes of [infer_datetime] on a column of text. *)
Lemma infer_datetime_cases column dfm :
  forallb is_text (cells column) = true ->
  let vals := date_candidates (cells column) in
  (vals = [] /\ infer_datetime column dfm = (false, dfm))
  \/ (vals <> [] /\ forallb (cell_parses F_Y_m_d) vals = true /\
      exists m, VStr m ∈ vals /\
        (forall s, VStr s ∈ vals -> String.leb m s = true) /\
        infer_datetime column dfm = (true, <[name column := iso_label m]> dfm))
  \/ (vals <> [] /\ forallb (cell_parses F_Y_m_d) vals = false /\
      infer_datetime column dfm =
        try_later_formats later_formats
          (mkSeries (name column) (dtype column) vals) dfm).
Proof.
  intros Hl. cbv zeta. unfold infer_datetime.
  destruct (date_candidates (cells column)) as [|v vals'] eqn:Hvals; [by left|].
  right. rewrite <- Hvals.
  assert (date_candidates (cells column) <> []) as Hne by (rewrite Hvals; done).
  unfold infer_datetime_and_format. cbn [cells name dtype].
  rewrite !date_candidates_truthy by done.
  destruct (series_min_spec _ Hne (date_candidates_is_text _ Hl))
    as (m & Hmin & Hm & Hall).
  rewrite Hmin. simpl. unfold to_datetime.
  destruct (forallb (cell_parses F_Y_m_d) (date_candidates (cells column)))
    eqn:Hiso; simpl.
  - left. repeat split; try done. exists m. done.
  - right. done.
Qed.

(** ** The boolean check *)

Lemma py_eq_simple x y :
  is_simple x = true -> is_simple y = true -> py_eq x y = true -> x = y.
Proof.
  destruct x as [| |s|[]| | |], y as [| |t|[]| | |]; simpl; try done.
  intros _ _ H. apply bool_decide_eq_true in H. by subst.
Qed.

Lemma py_eq_simple_refl x : is_simple x = true -> py_eq x x = true.
Proof.
  destruct x as [| |s|[]| | |]; simpl; try done.
  intros _. by apply bool_decide_eq_true.
Qed.

Lemma unique_from_subset seen l y : y ∈ unique_from seen l -> y ∈ l.
Proof.
  revert seen. induction l as [|x l IH]; simpl; intros seen Hy; [done|].
  destruct (existsb (py_eq x) seen).
  - right. eauto.
  - apply elem_of_cons in Hy as [->|Hy]; [left|right; eauto].
Qed.

Lemma unique_from_elem seen l x :
  forallb is_simple l = true -> forallb is_simple seen = true ->
  x ∈ l -> x ∉ seen -> x ∈ unique_from seen l.
Proof.
  revert seen. induction l as [|z l IH]; simpl; intros seen Hl Hseen Hx Hnot;
    [inversion Hx|].
  apply andb_true_iff in Hl as [Hz Hl].
  destruct (existsb (py_eq z) seen) eqn:Hex.
  - apply existsb_exists in Hex as (w & Hw & Hzw).
    assert (z = w) as ->.
    { apply py_eq_simple; [done| |done].
      rewrite forallb_forall in Hseen. auto. }
    apply elem_of_cons in Hx as [->|Hx].
    + by apply list_elem_of_In in Hw.
    + by apply IH.
  - apply elem_of_cons in Hx as [->|Hx]; [left|].
    assert (is_simple x = true) as Hxs.
    { rewrite forallb_forall in Hl. by apply Hl, list_elem_of_In. }
    destruct (py_eq x z) eqn:Hxz.
    + apply py_eq_simple in Hxz as ->; [left|done|done].
    + right. apply IH; simpl; try done.
      * by rewrite Hz.
      * intros Hin. apply elem_of_cons in Hin as [->|Hin]; [|done].
        by rewrite py_eq_simple_refl in Hxz.
Qed.

Lemma unique_from_fresh seen l y :
  forallb is_simple l = true -> y ∈ unique_from seen l -> y ∉ seen.
Proof.
  revert seen. induction l as [|x l IH]; simpl; intros seen Hl Hy; [inversion Hy|].
  apply andb_true_iff in Hl as [Hx Hl].
  destruct (existsb (py_eq x) seen) eqn:Hex; [by apply IH|].
  apply elem_of_cons in Hy as [->|Hy].
  - intros Hin. assert (existsb (py_eq x) seen = true) as Hex'; [|congruence].
    apply existsb_exists. exists x. split; [by apply list_elem_of_In|].
    by apply py_eq_simple_refl.
  - apply IH in Hy; [|done]. intros Hin. apply Hy. by right.
Qed.

Lemma unique_from_NoDup seen l :
  forallb is_simple l = true -> NoDup (unique_from seen l).
Proof.
  revert seen. induction l as [|x l IH]; simpl; intros seen Hl; [constructor|].
  apply andb_true_iff in Hl as [Hx Hl].
  destruct (existsb (py_eq x) seen); [by apply IH|].
  constructor; [|by apply IH].
  intros Hin. apply unique_from_fresh in Hin; [|done]. apply Hin. left.
Qed.

Lemma is_null_cases x : is_null x = true -> x = VNone \/ x = VNaN.
Proof. destruct x; simpl; auto; done. Qed.

(** The distinct values of a column of missing cells: [None] and [NaN]
    when both occur, else at most one value. *)
Lemma unique_from_all_null l :
  forallb is_null l = true ->
  forallb is_null (unique_from [] l) = true /\
  (if existsb is_none l && existsb is_nan_or_blank l
   then length (unique_from [] l) = 2%nat
   else (length (unique_from [] l) <= 1)%nat).
Proof.
  intros Hl.
  assert (forallb is_simple l = true) as Hs.
  { rewrite forallb_forall in *. intros x Hx. specialize (Hl x Hx). by destruct x. }
  assert (forall x, x ∈ unique_from [] l -> x ∈ l) as Hsub
    by (intros x; apply unique_from_subset).
  assert (forall x, x ∈ l -> x ∈ unique_from [] l) as Hsup.
  { intros x Hx. apply unique_from_elem; try done. intros Hin. inversion Hin. }
  pose proof (unique_from_NoDup [] l Hs) as Hnd.
  split.
  { apply forallb_forall. intros x Hx. rewrite forallb_forall in Hl.
    by apply Hl, list_elem_of_In, Hsub, list_elem_of_In. }
  assert (forall k, (forall x, x ∈ unique_from [] l -> x ∈ k) ->
            (length (unique_from [] l) <= length k)%nat) as Hlen.
  { intros k Hk. apply submseteq_length, NoDup_submseteq; done. }
  assert (forall x, x ∈ l -> x = VNone \/ x = VNaN) as Hcases.
  { intros x Hx. apply is_null_cases. rewrite forallb_forall in Hl.
    by apply Hl, list_elem_of_In. }
  destruct (existsb is_none l) eqn:Hnone; simpl.
  - apply existsb_exists in Hnone as (x & Hx & Hxn).
    destruct x; try done. apply list_elem_of_In in Hx.
    destruct (existsb is_nan_or_blank l) eqn:Hnan.
    + apply existsb_exists in Hnan as (y & Hy & Hyn).
      apply list_elem_of_In in Hy.
      destruct (Hcases y Hy) as [->| ->]; [done|].
      apply Nat.le_antisymm.
      * apply (Hlen [VNone; VNaN]). intros z Hz.
        destruct (Hcases z (Hsub z Hz)) as [->| ->]; [left|right; left].
      * assert ([VNone; VNaN] ⊆+ unique_from [] l) as Hsm.
        { apply NoDup_submseteq.
          - constructor; [|constructor; [|constructor]].
            + intros Hin. apply elem_of_cons in Hin as [?|Hin]; [done|inversion Hin].
            + intros Hin. inversion Hin.
          - intros z Hz. apply Hsup. elim_elem_of Hz; done. }
        by apply submseteq_length in Hsm.
    + apply (Hlen [VNone]). intros z Hz. apply Hsub in Hz.
      destruct (Hcases z Hz) as [->| ->]; [left|].
      assert (existsb is_nan_or_blank l = true) as Hex; [|congruence].
      apply existsb_exists. exists VNaN. split; [by apply list_elem_of_In|done].
  - apply (Hlen [VNaN]). intros z Hz. apply Hsub in Hz.
    destruct (Hcases z Hz) as [->| ->]; [|left].
    assert (existsb is_none l = true) as Hex; [|congruence].
    apply existsb_exists. exists VNone. split; [by apply list_elem_of_In|done].
Qed.

Lemma blank_to_nan_simple x : is_simple x = true -> is_simple (blank_to_nan x) = true.
Proof. destruct x as [| |[|c s]| | | |]; done. Qed.

Lemma is_boolean_value_blank x :
  is_missing x || is_boolean_value x =
  negb (negb (is_boolean_value (blank_to_nan x)) && negb (is_null (blank_to_nan x))).
Proof. destruct x as [| |[|c s]|[]| | |]; simpl; try done. by destruct (_ || _). Qed.

(** The verdict of the boolean check, from the column the replacement
    of blanks gives. *)
Lemma infer_boolean_replaced column l :
  forallb is_simple l = true -> replace_blank (cells column) = l ->
  infer_boolean column =
    Ok ((existsb (fun y => negb (is_null y)) l
         || (existsb is_none l && existsb is_nan_or_blank l))
        && forallb (fun y => negb (negb (is_boolean_value y) && negb (is_null y))) l).
Proof.
  intros Hl Hr. unfold infer_boolean. rewrite Hr.
  assert (existsb is_list l = false) as Hnl.
  { apply not_true_is_false. intros H. apply existsb_exists in H as (y & Hy & Hyl).
    rewrite forallb_forall in Hl. specialize (Hl y Hy). by destruct y. }
  unfold unique. rewrite Hnl. simpl.
  assert (forall P, forallb P (unique_from [] l) = forallb P l) as Hall.
  { intros P. apply eq_true_iff_eq. rewrite !forallb_forall. split; intros H y Hy.
    - apply H, list_elem_of_In, unique_from_elem; try done.
      + by apply list_elem_of_In.
      + intros Hin. inversion Hin.
    - apply H, list_elem_of_In, (unique_from_subset []), list_elem_of_In, Hy. }
  destruct (existsb (fun y => negb (is_null y)) l) eqn:Hex.
  - apply existsb_exists in Hex as (y & Hy & Hyn).
    assert (y ∈ unique_from [] l) as Hyu.
    { apply unique_from_elem; try done; [by apply list_elem_of_In|].
      intros Hin. inversion Hin. }
    destruct (unique_from [] l) as [|u [|u' us]] eqn:Hu.
    + inversion Hyu.
    + apply list_elem_of_singleton in Hyu as <-.
      apply negb_true_iff in Hyn. rewrite <- Hall. simpl. rewrite Hyn. done.
    + cbn [length Nat.eqb andb orb]. rewrite <- Hall. done.
  - assert (forallb is_null l = true) as Hnull.
    { apply forallb_forall. intros y Hy.
      destruct (is_null y) eqn:Hyn; [done|].
      assert (existsb (fun y => negb (is_null y)) l = true) as Hex'; [|congruence].
      apply existsb_exists. exists y. by rewrite Hyn. }
    destruct (unique_from_all_null l Hnull) as [Hun Hlen].
    assert (forallb
              (fun y => negb (negb (is_boolean_value y) && negb (is_null y))) l
            = true) as Hb.
    { apply forallb_forall. intros y Hy. rewrite forallb_forall in Hnull.
      rewrite (Hnull y Hy). by rewrite andb_false_r. }
    rewrite Hb. simpl.
    destruct (existsb is_none l && existsb is_nan_or_blank l).
    + rewrite Hlen. simpl. by rewrite Hall, Hb.
    + destruct (unique_from [] l) as [|u [|u' us]]; simpl in *; [done| |lia].
      apply andb_true_iff in Hun as [-> _]. done.
Qed.

Lemma forallb_const_nan (l : list value) :
  forallb is_simple (map (fun _ => VNaN) l) = true.
Proof. by induction l. Qed.

Lemma existsb_const_nan (p : value -> bool) (l : list value) :
  p VNaN = false -> existsb p (map (fun _ => VNaN) l) = false.
Proof. intros Hp. induction l as [|x l IH]; simpl; [done|]. by rewrite Hp. Qed.

(** The verdict of the boolean check on simple cells: every cell is
    missing or a boolean value, and the distinct values are more than one
    missing value: some cell is not missing, or a [None] stands beside a
    [NaN] in a column without a blank. *)
Lemma infer_boolean_simple column :
  forallb is_simple (cells column) = true ->
  infer_boolean column =
    Ok ((existsb (fun x => negb (is_missing x)) (cells column)
         || (existsb is_none (cells column)
             && existsb is_nan_or_blank (cells column)
             && negb (existsb is_blank (cells column))))
        && forallb (fun x => is_missing x || is_boolean_value x) (cells column)).
Proof.
  intros Hs. pose proof (replace_blank_simple _ Hs) as Hr.
  destruct (existsb is_blank (cells column)
            && negb (existsb (fun x => negb (is_missing x)) (cells column))) eqn:Hc.
  - rewrite (infer_boolean_replaced column _ (forallb_const_nan _) Hr).
    apply andb_true_iff in Hc as [Hb Hn]. apply negb_true_iff in Hn.
    rewrite Hb, Hn. cbn [negb]. rewrite andb_false_r. cbn [orb andb].
    by rewrite (existsb_const_nan (fun y => negb (is_null y))),
      (existsb_const_nan is_none).
  - assert (forallb is_simple (map blank_to_nan (cells column)) = true) as Hs'.
    { rewrite forallb_forall in *. intros y Hy.
      apply in_map_iff in Hy as (x & <- & Hx). by apply blank_to_nan_simple, Hs. }
    rewrite (infer_boolean_replaced column _ Hs' Hr).
    assert (existsb (fun y => negb (is_null y)) (map blank_to_nan (cells column))
            = existsb (fun x => negb (is_missing x)) (cells column)) as ->.
    { clear. induction (cells column) as [|x r IH]; simpl; [done|]. by rewrite IH. }
    assert (existsb is_none (map blank_to_nan (cells column))
            = existsb is_none (cells column)) as ->.
    { clear. induction (cells column) as [|x r IH]; simpl; [done|].
      rewrite IH. by destruct x as [| |[|c s]| | | |]. }
    assert (existsb is_nan_or_blank (map blank_to_nan (cells column))
            = existsb is_nan_or_blank (cells column)) as ->.
    { clear. induction (cells column) as [|x r IH]; simpl; [done|].
      rewrite IH. by destruct x as [| |[|c s]| | | |]. }
    assert (forallb (fun y => negb (negb (is_boolean_value y) && negb (is_null y)))
              (map blank_to_nan (cells column))
            = forallb (fun x => is_missing x || is_boolean_value x) (cells column))
      as ->.
    { clear. induction (cells column) as [|x r IH]; simpl; [done|].
      by rewrite IH, is_boolean_value_blank. }
    f_equal. f_equal.
    destruct (existsb is_blank (cells column)); simpl in *.
    + rewrite andb_false_r. apply negb_false_iff in Hc. by rewrite Hc.
    + by rewrite andb_true_r.
Qed.

(** On a column of text the missing cells are its blanks, and the check
    asks for a cell that is not blank. *)
Lemma infer_boolean_text column :
  forallb is_text (cells column) = true ->
  infer_boolean column =
    Ok (existsb (fun x => negb (is_missing x)) (cells column)
        && forallb (fun x => is_missing x || is_boolean_value x) (cells column)).
Proof.
  intros Hl. rewrite infer_boolean_simple.
  2:{ rewrite forallb_forall in *. intros x Hx. specialize (Hl x Hx). by destruct x. }
  assert (existsb is_none (cells column) = false) as ->.
  { apply not_true_is_false. intros H. apply existsb_exists in H as (x & Hx & Hn).
    rewrite forallb_forall in Hl. specialize (Hl x Hx). by destruct x. }
  by rewrite orb_false_r.
Qed.

(** A text that is neither blank nor a boolean word fails the check. *)
Lemma infer_boolean_text_false column s :
  forallb is_text (cells column) = true -> VStr s ∈ cells column ->
  s <> "" -> is_boolean_value (VStr s) = false ->
  infer_boolean column = Ok false.
Proof.
  intros Hl Hs Hne Hb. rewrite infer_boolean_simple.
  - f_equal. apply andb_false_iff. right.
    apply not_true_is_false. intros H. rewrite forallb_forall in H.
    apply list_elem_of_In in Hs. specialize (H _ Hs).
    simpl in Hb. unfold is_missing in H. simpl in H.
    destruct s; [done|]. simpl in H. by rewrite Hb in H.
  - rewrite forallb_forall in *. intros x Hx. specialize (Hl x Hx). by destruct x.
Qed.

(** ** [infer_column] *)

Section InferenceProperties.

Variable float_str : Q -> string.
Variable list_str : list string -> string.

Local Abbreviation infer_column := (infer_column float_str list_str).
Local Abbreviation max_len := (max_len float_str list_str).

Lemma text_not_all_null l s :
  VStr s ∈ l -> forallb is_null l = false.
Proof.
  intros Hs. apply not_true_is_false. intros H. rewrite forallb_forall in H.
  apply list_elem_of_In in Hs. by specialize (H _ Hs).
Qed.

Lemma text_no_list l : forallb is_text l = true -> existsb is_list l = false.
Proof.
  intros Hl. apply not_true_is_false. intros H.
  apply existsb_exists in H as (x & Hx & Hxl).
  rewrite forallb_forall in Hl. specialize (Hl x Hx). by destruct x.
Qed.

(** The object branch on a column of text with a cell, spelled out. *)
Lemma infer_column_text column dfm lengths s :
  dtype column = DObject -> forallb is_text (cells column) = true ->
  VStr s ∈ cells column ->
  infer_column column dfm lengths =
    (let lengths := <[name column := max_len (cells column)]> lengths in
     is_number ← infer_number column;
     if is_number : bool then Ok (Some "number", dfm, lengths)
     else
       let '(is_datetime, dfm) := infer_datetime column dfm in
       if is_datetime : bool then Ok (Some "date-time", dfm, lengths)
       else
         is_boolean ← infer_boolean column;
         if is_boolean : bool then Ok (Some "boolean", dfm, lengths)
         else Ok (Some "string", dfm, lengths)).
Proof.
  intros Hd Hl Hs. unfold infer_column.
  rewrite (text_not_all_null _ _ Hs), Hd, (text_no_list _ Hl). done.
Qed.

(** An object column with a cell that is neither text nor a list, and
    not all null, makes [infer_column] raise: the comma stripping of
    [infer_number] is not inside its [try]. *)
Lemma infer_column_not_text column dfm lengths :
  dtype column = DObject -> forallb is_null (cells column) = false ->
  existsb is_list (cells column) = false ->
  forallb is_text (cells column) = false ->
  infer_column column dfm lengths = Raise AttributeError.
Proof.
  intros Hd Hnull Hlist Hl. unfold infer_column.
  rewrite Hnull, Hd, Hlist. simpl.
  by rewrite (infer_number_not_text _ Hl).
Qed.

Lemma date_candidates_cell l :
  forallb is_text l = true -> date_candidates l <> [] ->
  exists s, VStr s ∈ l /\ VStr (remove_null_marker s) ∈ date_candidates l.
Proof.
  intros Hl Hne. destruct (date_candidates l) as [|x r] eqn:Hc; [done|].
  assert (x ∈ date_candidates l) as Hx by (rewrite Hc; left).
  pose proof Hx as Hx'.
  apply (date_candidates_text l x Hl) in Hx as (s & Hs & -> & _).
  exists s. rewrite <- Hc. done.
Qed.

Lemma all_parse_cell f l x :
  forallb (cell_parses f) l = true -> x ∈ l -> cell_parses f x = true.
Proof.
  intros H Hx. rewrite forallb_forall in H. by apply H, list_elem_of_In.
Qed.

Lemma all_match_forallb l p f :
  forallb is_text l = true -> (forall s, parses f s = p s) ->
  (all_match p l <-> forallb (cell_parses f) (date_candidates l) = true).
Proof.
  intros Hl Hp. unfold all_match. rewrite forallb_forall. split.
  - intros H x Hx. apply list_elem_of_In in Hx.
    destruct (date_candidates_text l x Hl Hx) as (s & _ & -> & _).
    simpl. rewrite Hp. by apply H.
  - intros H s Hs. apply list_elem_of_In, H in Hs. simpl in Hs. by rewrite <- Hp.
Qed.

Lemma not_all_match_forallb l p f :
  forallb is_text l = true -> (forall s, parses f s = p s) ->
  ~ all_match p l -> forallb (cell_parses f) (date_candidates l) = false.
Proof.
  intros Hl Hp H. apply not_true_is_false. intros Hf. apply H.
  by apply (all_match_forallb l p f).
Qed.

Lemma forallb_false_elem {A : Type} (P : A -> bool) (l : list A) :
  forallb P l = false -> exists x, x ∈ l /\ P x = false.
Proof.
  induction l as [|x l IH]; simpl; [done|].
  destruct (P x) eqn:Hx; simpl.
  - intros H. destruct (IH H) as (y & Hy & Hpy). exists y. split; [by right|done].
  - intros _. exists x. split; [left|done].
Qed.


(** A column accepted under a format with [/], and not on the ISO path,
    is not accepted under a format with [-]. *)
Lemma slash_excludes_dash l f g :
  f ∈ [F_m_d_Y_slash; F_d_m_Y_slash] -> g ∈ [F_m_d_Y_dash; F_d_m_Y_dash] ->
  forallb (cell_parses f) l = true -> forallb (cell_parses F_Y_m_d) l = false ->
  forallb (cell_parses g) l = false.
Proof.
  intros Hf Hg Hall Hno.
  destruct (forallb_false_elem _ _ Hno) as (x & Hx & Hxno).
  pose proof (all_parse_cell _ _ _ Hall Hx) as Hp.
  apply not_true_is_false. intros Hbad.
  pose proof (all_parse_cell _ _ _ Hbad Hx) as Hp'.
  destruct x as [| |c| | | |]; try done. simpl in *.
  assert (c ∉ nat_strings) as Hnat.
  { intros Hin. unfold iso_8601 in Hxno.
    by rewrite (bool_decide_eq_true_2 _ Hin), orb_true_r in Hxno. }
  assert (forall fmt, array_strptime fmt c = strptime fmt c) as Hs.
  { intros fmt. unfold array_strptime. by rewrite bool_decide_eq_false_2. }
  elim_elem_of Hf; elim_elem_of Hg; unfold parses in Hp, Hp';
    rewrite Hs in Hp, Hp'; unfold fmt_mdY, fmt_dmY in Hp, Hp';
    match type of Hp with
    | strptime (?d :: Lit ?sep :: ?fmt) _ = true =>
        match type of Hp' with
        | strptime (?d' :: Lit ?sep' :: ?fmt') _ = true =>
            by rewrite (strptime_one_separator d sep fmt d' sep' fmt' c) in Hp'
        end
    end.
Qed.

Lemma infer_column_later column dfm lengths pre f label post :
  dtype column = DObject -> forallb is_text (cells column) = true ->
  forallb (cell_parses F_Y_m_d) (date_candidates (cells column)) = false ->
  later_formats = pre ++ (f, label) :: post ->
  Forall (fun fl => forallb (cell_parses fl.1) (date_candidates (cells column)) = false) pre ->
  forallb (cell_parses f) (date_candidates (cells column)) = true ->
  infer_number column = Ok false /\
  infer_datetime column dfm = (false, <[name column := label]> dfm) /\
  infer_boolean column = Ok false /\
  infer_column column dfm lengths =
    Ok (Some "string", <[name column := label]> dfm,
        <[name column := max_len (cells column)]> lengths).
Proof.
  intros Hd Hl Hno Hfmts Hpre Hf.
  assert (date_candidates (cells column) <> []) as Hne.
  { intros Hnil. by rewrite Hnil in Hno. }
  destruct (forallb_false_elem _ _ Hno) as (x & Hx & Hxno).
  pose proof (all_parse_cell _ _ _ Hf Hx) as Hps.
  apply (date_candidates_text _ _ Hl) in Hx as (s & Hs & -> & Hsne).
  simpl in Hps, Hxno.
  assert (f <> F_Y_m_d) as Hfne by (intros ->; congruence).
  assert (date_shaped (chars (remove_null_marker s))) as Hshape.
  { destruct (parses_later_shaped f _ Hfne Hps) as [Hnat|H]; [|done].
    unfold iso_8601 in Hxno.
    by rewrite (bool_decide_eq_true_2 _ Hnat), orb_true_r in Hxno. }
  assert (infer_number column = Ok false) as Hnum.
  { apply (infer_number_date column s Hl Hs). by left. }
  assert (infer_datetime column dfm = (false, <[name column := label]> dfm)) as Hdt.
  { destruct (infer_datetime_cases column dfm Hl)
      as [[Hnil _]|[(_ & Hyes & _)|(_ & _ & ->)]]; [done|congruence|].
    destruct (try_later_formats_cases later_formats
                (mkSeries (name column) (dtype column)
                   (date_candidates (cells column))) dfm)
      as [[Hall _]|(pre' & f' & label' & post' & Heq & Hpre' & Hf' & ->)];
      cbn [cells name] in *.
    - rewrite Hfmts in Hall. apply Forall_app in Hall as [_ Hall].
      apply Forall_cons in Hall as [Hall _]. simpl in Hall. congruence.
    - rewrite Hfmts in Heq. clear Hfmts.
      revert pre' Heq Hpre'. induction Hpre as [|fl pre Hfl Hpre IH];
        intros [|fl' pre'] Heq Hpre'; simpl in Heq.
      + by injection Heq as <- <-.
      + injection Heq as <- _. apply Forall_cons in Hpre' as [Hbad _].
        simpl in Hbad. congruence.
      + injection Heq as -> _. simpl in Hfl. congruence.
      + injection Heq as -> Heq. apply Forall_cons in Hpre' as [_ Hpre'].
        by apply (IH pre'). }
  assert (infer_boolean column = Ok false) as Hbool.
  { apply (infer_boolean_text_false column s Hl Hs).
    - intros ->. by vm_compute in Hsne.
    - destruct (is_boolean_value (VStr s)) eqn:Hb; [|done].
      by rewrite (boolean_word_not_date f s Hb) in Hps. }
  repeat split; try done.
  rewrite (infer_column_text _ _ _ s) by done.
  rewrite Hnum. simpl. rewrite Hdt, Hbool. done.
Qed.

Lemma text_cell_exists l :
  forallb is_text l = true -> forallb is_null l = false ->
  exists s, VStr s ∈ l.
Proof.
  intros Hl Hn. destruct l as [|x l]; [done|]. simpl in Hl.
  apply andb_true_iff in Hl as [Hx _]. destruct x as [| |s| | | |]; try done.
  exists s. left.
Qed.

Lemma dtype_name_object d : dtype_name d = "object" -> d = DObject.
Proof. by destruct d. Qed.

Lemma later_label_elem pre f label post :
  later_formats = pre ++ (f, label) :: post -> label ∈ later_labels.
Proof.
  intros H. unfold later_labels. rewrite H.
  apply list_elem_of_fmap. exists (f, label). split; [done|].
  apply elem_of_app. right. left.
Qed.

Lemma iso_label_elem m : iso_label m ∈ iso_labels.
Proof.
  unfold iso_label, iso_labels. destruct (contains_slash m); [right|]; left.
Qed.

(** What one call of [infer_column] does to the two maps: the length of
    its column is recorded, and a format is recorded only for a column
    typed [date-time], or for a column typed [string] that one of the
    four later formats matched. *)
Lemma infer_column_effect column dfm lengths t dfm' lengths' :
  infer_column column dfm lengths = Ok (t, dfm', lengths') ->
  (exists n, lengths' = <[name column := n]> lengths) /\
  ((dfm' = dfm /\ t <> Some "date-time") \/
   (exists l, dfm' = <[name column := l]> dfm /\
      ((t = Some "date-time" /\ l ∈ iso_labels) \/
       (t = Some "string" /\ l ∈ later_labels)))).
Proof.
  intros H.
  destruct (forallb is_null (cells column)) eqn:Hnull.
  { unfold infer_column in H. rewrite Hnull in H.
    injection H as <- <- <-. split; [eauto|]. left. done. }
  destruct (bool_decide (dtype_name (dtype column) = "object")) eqn:Hobj.
  2:{ unfold infer_column in H. rewrite Hnull, Hobj in H.
      destruct (bool_decide _) in H; injection H as <- <- <-;
        (split; [eauto|]); left; done. }
  apply bool_decide_eq_true, dtype_name_object in Hobj.
  destruct (existsb is_list (cells column)) eqn:Hlist.
  { unfold infer_column in H. rewrite Hnull, Hobj, Hlist in H.
    simpl in H. injection H as <- <- <-. split; [eauto|]. left. done. }
  destruct (infer_number column) as [is_number|e] eqn:Hnum.
  2:{ unfold infer_column in H.
      rewrite Hnull, Hobj, Hlist, Hnum in H. done. }
  pose proof (infer_number_text _ _ Hnum) as Hl.
  destruct (text_cell_exists _ Hl Hnull) as [s Hs].
  rewrite (infer_column_text _ _ _ s Hobj Hl Hs), Hnum in H. simpl in H.
  destruct is_number.
  { injection H as <- <- <-. split; [eauto|]. left. done. }
  destruct (infer_datetime_cases column dfm Hl)
    as [[_ Hdt]|[(_ & _ & m & _ & _ & Hdt)|(_ & Hno & Hdt)]].
  - rewrite Hdt in H.
    destruct (infer_boolean column) as [[]|]; simpl in H; try done;
      injection H as <- <- <-; (split; [eauto|]); left; done.
  - rewrite Hdt in H. injection H as <- <- <-. split; [eauto|]. right.
    exists (iso_label m). split; [done|]. left. split; [done|].
    apply iso_label_elem.
  - destruct (try_later_formats_cases later_formats
                (mkSeries (name column) (dtype column)
                   (date_candidates (cells column))) dfm)
      as [[_ Hnone]|(pre & f & label & post & Heq & Hpre & Hf & _)];
      cbn [cells name] in *.
    + rewrite Hdt, Hnone in H.
      destruct (infer_boolean column) as [[]|]; simpl in H; try done;
        injection H as <- <- <-; (split; [eauto|]); left; done.
    + destruct (infer_column_later column dfm lengths pre f label post
                  Hobj Hl Hno Heq Hpre Hf) as (_ & Hdt' & Hbool & _).
      rewrite Hdt', Hbool in H. simpl in H. injection H as <- <- <-.
      split; [eauto|]. right. exists label. split; [done|]. right.
      split; [done|]. by eapply later_label_elem.
Qed.

Lemma infer_column_other column dfm lengths t dfm' lengths' k :
  infer_column column dfm lengths = Ok (t, dfm', lengths') ->
  k <> name column ->
  dfm' !! k = dfm !! k /\ lengths' !! k = lengths !! k.
Proof.
  intros H Hk. apply infer_column_effect in H as [[n ->] Hd]. split.
  - destruct Hd as [[-> _]|(l & -> & _)]; [done|].
    by rewrite lookup_insert_ne.
  - by rewrite lookup_insert_ne.
Qed.

(** ** The frame built from the samples *)

Lemma first_seen_spec seen ks k :
  k ∈ first_seen seen ks <-> k ∈ ks /\ k ∉ seen.
Proof.
  revert seen. induction ks as [|x ks IH]; intros seen; simpl.
  - split; [intros H; inversion H|intros [H _]; inversion H].
  - case_bool_decide as Hx.
    + rewrite IH. split.
      * intros [H1 H2]. split; [by right|done].
      * intros [H1 H2]. split; [|done].
        apply elem_of_cons in H1 as [->|H1]; done.
    + rewrite elem_of_cons, IH. split.
      * intros [->|[H1 H2]]; [split; [left|done]|].
        split; [by right|]. intros Hks. apply H2. by right.
      * intros [H1 H2]. apply elem_of_cons in H1 as [->|H1]; [by left|].
        destruct (decide (k = x)) as [->|Hne]; [by left|right].
        split; [done|]. rewrite not_elem_of_cons. done.
Qed.

Lemma first_seen_NoDup seen ks : NoDup (first_seen seen ks).
Proof.
  revert seen. induction ks as [|x ks IH]; intros seen; simpl; [constructor|].
  case_bool_decide as Hx; [apply IH|]. constructor; [|apply IH].
  rewrite first_seen_spec. intros [_ Hs]. apply Hs. left.
Qed.

Lemma frame_names samples :
  map name (DataFrame samples) = frame_columns samples.
Proof.
  unfold DataFrame. rewrite map_map. simpl. apply map_id.
Qed.

Lemma frame_NoDup samples : NoDup (map name (DataFrame samples)).
Proof. rewrite frame_names. apply first_seen_NoDup. Qed.

Lemma frame_column_elem samples column :
  column ∈ DataFrame samples ->
  column = frame_column samples (name column) /\
  name column ∈ frame_columns samples.
Proof.
  unfold DataFrame. intros H. apply list_elem_of_fmap in H as (k & -> & Hk). done.
Qed.

Lemma row_get_key k r v : row_get k r = Some v -> k ∈ map fst r.
Proof.
  unfold row_get. destruct (List.find _ r) as [[k' v']|] eqn:Hf; [|done].
  apply find_some in Hf as [Hin Hk]. apply bool_decide_eq_true in Hk.
  simpl in Hk. subst k'. intros _. apply list_elem_of_fmap.
  exists (k, v'). split; [done|]. by apply list_elem_of_In.
Qed.

Lemma frame_columns_row samples r k v :
  r ∈ samples -> row_get k r = Some v -> k ∈ frame_columns samples.
Proof.
  intros Hr Hk. unfold frame_columns. apply first_seen_spec. split.
  - apply list_elem_of_In, in_concat. exists (map fst r). split.
    + apply in_map, list_elem_of_In, Hr.
    + apply list_elem_of_In. by eapply row_get_key.
  - intros H. inversion H.
Qed.

(** ** The two loops of [generate_schema] *)

Local Abbreviation infer_columns := (infer_columns float_str list_str).

(** With distinct column names, the maps returned by the first loop
    hold at a column's key what the call for that column left there. *)
Lemma infer_columns_local columns col_types dfm lengths col_types' dfm' lengths' :
  NoDup (map name columns) ->
  infer_columns columns col_types dfm lengths = Ok (col_types', dfm', lengths') ->
  exists ts,
    col_types' = col_types ++ ts /\ map fst ts = map name columns /\
    (forall k, k ∉ map name columns ->
       dfm' !! k = dfm !! k /\ lengths' !! k = lengths !! k) /\
    (forall k t, (k, t) ∈ ts ->
       exists column dfm0 lengths0 dfm1 lengths1,
         column ∈ columns /\ name column = k /\
         infer_column column dfm0 lengths0 = Ok (t, dfm1, lengths1) /\
         dfm0 !! k = dfm !! k /\
         dfm' !! k = dfm1 !! k /\ lengths' !! k = lengths1 !! k).
Proof.
  revert col_types dfm lengths.
  induction columns as [|column rest IH]; intros col_types dfm lengths Hnd H.
  - simpl in H. injection H as <- <- <-. exists []. rewrite app_nil_r.
    repeat split; try done. intros k t Hk. inversion Hk.
  - simpl in H, Hnd. apply NoDup_cons in Hnd as [Hfresh Hnd].
    destruct (infer_column column dfm lengths) as [[[t1 dfm1] lengths1]|] eqn:Hc;
      [|done].
    simpl in H. apply (IH _ _ _ Hnd) in H as (ts & -> & Hnames & Hout & Hin).
    exists ((name column, t1) :: ts). rewrite <- app_assoc. simpl.
    split; [done|]. split; [by rewrite Hnames|]. split.
    + intros k Hk. rewrite not_elem_of_cons in Hk. destruct Hk as [Hk1 Hk2].
      destruct (Hout k Hk2) as [-> ->].
      by apply (infer_column_other _ _ _ _ _ _ k Hc).
    + intros k t Hkt. apply elem_of_cons in Hkt as [[= -> ->]|Hkt].
      * destruct (Hout (name column) Hfresh) as [Hd Hl].
        exists column, dfm, lengths, dfm1, lengths1.
        repeat split; try done. left.
      * destruct (Hin k t Hkt)
          as (c & dfm0 & l0 & dfm2 & l2 & Hcin & Hcn & Hcall & Hd0 & Hd2 & Hl2).
        exists c, dfm0, l0, dfm2, l2. repeat split; try done; [by right|].
        rewrite Hd0. apply (infer_column_other _ _ _ _ _ _ k Hc).
        intros ->. apply Hfresh. rewrite <- Hcn.
        apply list_elem_of_fmap. eauto.
Qed.

Local Abbreviation generate_schema := (generate_schema float_str list_str).

(** The second loop writes a fragment for every column not typed
    [list], and nothing else. *)
Lemma emit_schema_lookup col_types lengths flag schema schema' k :
  NoDup (map fst col_types) ->
  emit_schema col_types lengths flag schema = Ok schema' ->
  (k ∉ map fst col_types -> schema' !! k = schema !! k) /\
  (forall t, (k, t) ∈ col_types ->
     if bool_decide (t = Some "list") then schema' !! k = schema !! k
     else exists n, lengths !! k = Some n /\
            schema' !! k = Some (datatype_schema t n flag)).
Proof.
  revert schema. induction col_types as [|[c t1] rest IH]; intros schema Hnd H.
  - simpl in H. injection H as <-. split; [done|]. intros t Ht. inversion Ht.
  - simpl in Hnd, H. apply NoDup_cons in Hnd as [Hfresh Hnd].
    assert (forall t, (k, t) ∈ rest -> k <> c) as Hkc.
    { intros t Ht ->. apply Hfresh. apply list_elem_of_fmap. by exists (c, t). }
    case_bool_decide as Ht1.
    + destruct (lengths !! c) as [n|] eqn:Hn; [|done].
      destruct (IH _ Hnd H) as [Hout Hin]. split.
      * intros Hk. simpl in Hk. rewrite not_elem_of_cons in Hk.
        destruct Hk as [Hk1 Hk2]. rewrite (Hout Hk2). by rewrite lookup_insert_ne.
      * intros t Ht. apply elem_of_cons in Ht as [[= -> ->]|Ht].
        -- rewrite bool_decide_eq_false_2 by done. exists n. split; [done|].
           rewrite (Hout Hfresh). apply lookup_insert_eq.
        -- specialize (Hin t Ht). specialize (Hkc t Ht).
           destruct (bool_decide (t = Some "list")).
           ++ by rewrite Hin, lookup_insert_ne.
           ++ done.
    + destruct (IH _ Hnd H) as [Hout Hin]. split.
      * intros Hk. simpl in Hk. rewrite not_elem_of_cons in Hk.
        destruct Hk as [Hk1 Hk2]. by rewrite (Hout Hk2).
      * intros t Ht. apply elem_of_cons in Ht as [[= -> ->]|Ht].
        -- rewrite bool_decide_eq_true_2 by done.
           by apply Hout.
        -- by apply Hin.
Qed.

(** A returned result comes from the two loops run on the frame. *)
Lemma generate_schema_inv {T} samples (table_spec : T) flag schema dfm :
  generate_schema samples table_spec flag = Ok (schema, dfm) ->
  exists col_types lengths,
    infer_columns (DataFrame samples) [] ∅ ∅ = Ok (col_types, dfm, lengths) /\
    emit_schema col_types lengths flag ∅ = Ok schema /\
    map fst col_types = frame_columns samples.
Proof.
  unfold generate_schema. intros H.
  destruct (infer_columns (DataFrame samples) [] ∅ ∅)
    as [[[col_types dfm1] lengths]|] eqn:Hc; [|done].
  simpl in H.
  destruct (emit_schema col_types lengths flag ∅) as [schema1|] eqn:He; [|done].
  simpl in H. injection H as <- <-.
  exists col_types, lengths. repeat split; try done.
  apply infer_columns_local in Hc as (ts & -> & Hn & _); [|apply frame_NoDup].
  simpl. by rewrite Hn, frame_names.
Qed.

(** ** The claims about [infer_column] and [generate_schema] *)

(** C7. A column whose cells are all missing is typed [string], and 0
    is recorded as its entry of the lengths map. *)
Theorem infer_column_all_null column dfm lengths :
  Forall (fun x => x = VNone \/ x = VNaN) (cells column) ->
  infer_column column dfm lengths =
    Ok (Some "string", dfm, <[name column := 0]> lengths) /\
  (<[name column := 0]> lengths) !! name column = Some 0.
Proof.
  intros Hnull. split; [|apply lookup_insert_eq].
  unfold infer_column.
  assert (forallb is_null (cells column) = true) as ->; [|done].
  apply forallb_forall. intros x Hx. rewrite Forall_forall in Hnull.
  by destruct (Hnull x) as [-> | ->]; [apply list_elem_of_In| |].
Qed.

(** C2, at its failing input.  The batch [[{"x": 1.5}]] gives a column
    of dtype [float64] that is not all null; [infer_column] returns
    [None] for it, not [number], and the schema holds a fragment without
    a type tag. *)
Theorem infer_column_float64_untyped dfm lengths :
  DataFrame [[("x", VFloat (3 # 2))]] = [mkSeries "x" DFloat64 [VFloat (3 # 2)]] /\
  infer_column (mkSeries "x" DFloat64 [VFloat (3 # 2)]) dfm lengths =
    Ok (None, dfm, <["x" := max_len [VFloat (3 # 2)]]> lengths) /\
  generate_schema [[("x", VFloat (3 # 2))]] tt false =
    Ok ({["x" := JDict [("type", JList [JStr "null"; JNone; JStr "string"])]]}, ∅).
Proof.
  split; [reflexivity|]. split; [reflexivity|]. vm_compute. reflexivity.
Qed.

(** The last two tests of [infer_column] on a column that is not all
    null and not of dtype [object]. *)
Lemma infer_column_not_object column dfm lengths :
  forallb is_null (cells column) = false ->
  dtype_name (dtype column) <> "object" ->
  infer_column column dfm lengths =
    Ok (if bool_decide (dtype_name (dtype column) ∈ ["int32"; "int64"; "float32"])
        then Some "number" else None,
        dfm, <[name column := max_len (cells column)]> lengths).
Proof.
  intros Hnull Hobj. unfold infer_column.
  rewrite Hnull, bool_decide_eq_false_2 by done. by destruct (bool_decide _).
Qed.

(** The fragment the second loop holds for a column of the frame, from
    the type and the maps its own call of [infer_column] returned. *)
Lemma generate_schema_column {T} samples (table_spec : T) flag schema dfm column :
  generate_schema samples table_spec flag = Ok (schema, dfm) ->
  column ∈ DataFrame samples ->
  exists t dfm0 lengths0 dfm1 lengths1,
    infer_column column dfm0 lengths0 = Ok (t, dfm1, lengths1) /\
    dfm0 !! name column = None /\
    dfm !! name column = dfm1 !! name column /\
    (if bool_decide (t = Some "list") then schema !! name column = None
     else exists n, lengths1 !! name column = Some n /\
            schema !! name column = Some (datatype_schema t n flag)).
Proof.
  intros Hg Hc.
  apply generate_schema_inv in Hg as (col_types & lengths & Hloop & Hemit & Hnames).
  pose proof (frame_NoDup samples) as Hnd.
  destruct (infer_columns_local _ _ _ _ _ _ _ Hnd Hloop)
    as (ts & -> & Hts & _ & Hin).
  simpl in *.
  assert (exists t, (name column, t) ∈ ts) as [t Ht].
  { assert (name column ∈ map fst ts) as Hk.
    { rewrite Hts. apply list_elem_of_fmap. eauto. }
    apply list_elem_of_fmap in Hk as ([k t] & Hk & Hkt). simpl in Hk. subst k. eauto. }
  destruct (Hin _ _ Ht) as (c & dfm0 & l0 & dfm1 & l1 & Hcin & Hcn & Hcall & Hd0 & Hd1 & Hl1).
  assert (c = column) as ->.
  { apply frame_column_elem in Hcin as [-> _], Hc as [-> _]. by rewrite Hcn. }
  exists t, dfm0, l0, dfm1, l1. repeat split; try done.
  assert (NoDup (map fst ts)) as Hnd' by by rewrite Hts.
  destruct (emit_schema_lookup ts lengths flag ∅ schema (name column) Hnd' Hemit)
    as [_ Hfrag].
  specialize (Hfrag t Ht). destruct (bool_decide (t = Some "list")); [done|].
  destruct Hfrag as (n & Hn & Hs). exists n. by rewrite <- Hl1.
Qed.

(** C10. A column that is not all null and whose dtype is neither
    [object] nor one of [int32], [int64], [float32] gets no type tag:
    [infer_column] returns [None], and the fragment [generate_schema]
    emits for it has the type list [['null', None, 'string']] (with the
    [maxLength] entry when the length flag is set, and nothing else). *)
Theorem infer_column_other_dtype {T} samples (table_spec : T) flag schema dfm column :
  generate_schema samples table_spec flag = Ok (schema, dfm) ->
  column ∈ DataFrame samples ->
  forallb is_null (cells column) = false ->
  dtype_name (dtype column) <> "object" ->
  dtype_name (dtype column) ∉ ["int32"; "int64"; "float32"] ->
  (forall dfm0 lengths0,
     infer_column column dfm0 lengths0 =
       Ok (None, dfm0, <[name column := max_len (cells column)]> lengths0)) /\
  schema !! name column =
    Some (JDict (("type", JList [JStr "null"; JNone; JStr "string"])
                 :: if flag then [("maxLength", JInt (max_len (cells column)))]
                    else [])).
Proof.
  intros Hg Hc Hnull Hobj Hnum.
  assert (forall dfm0 lengths0,
     infer_column column dfm0 lengths0 =
       Ok (None, dfm0, <[name column := max_len (cells column)]> lengths0)) as Hcall.
  { intros dfm0 lengths0. rewrite infer_column_not_object by done.
    by rewrite bool_decide_eq_false_2. }
  split; [done|].
  destruct (generate_schema_column _ _ _ _ _ _ Hg Hc)
    as (t & dfm0 & l0 & dfm1 & l1 & Hcall' & _ & _ & Hfrag).
  rewrite Hcall in Hcall'. injection Hcall' as <- <- <-.
  simpl in Hfrag. destruct Hfrag as (n & Hn & ->).
  rewrite lookup_insert_eq in Hn. injection Hn as <-. by destruct flag.
Qed.

Lemma column_cells_row samples k r v :
  r ∈ samples -> row_get k r = Some v -> v ∈ column_cells k samples.
Proof.
  intros Hr Hv. unfold column_cells. apply list_elem_of_fmap.
  exists r. by rewrite Hv.
Qed.

Lemma frame_column_list samples k items :
  VList items ∈ column_cells k samples ->
  dtype (frame_column samples k) = DObject /\
  VList items ∈ cells (frame_column samples k).
Proof.
  intros Hin. unfold frame_column.
  assert (frame_dtype (column_cells k samples) = DObject) as ->.
  { apply frame_dtype_object.
    apply existsb_exists. exists (VList items).
    split; [by apply list_elem_of_In|done]. }
  split; [done|]. simpl. apply list_elem_of_fmap. by exists (VList items).
Qed.

Lemma infer_column_list column dfm lengths items :
  dtype column = DObject -> VList items ∈ cells column ->
  infer_column column dfm lengths =
    Ok (Some "list", dfm, <[name column := max_len (cells column)]> lengths).
Proof.
  intros Hd Hin. unfold infer_column. apply list_elem_of_In in Hin.
  assert (forallb is_null (cells column) = false) as ->.
  { apply not_true_is_false. intros H. rewrite forallb_forall in H.
    by specialize (H _ Hin). }
  assert (existsb is_list (cells column) = true) as ->.
  { apply existsb_exists. by exists (VList items). }
  by rewrite Hd.
Qed.

(** C8. A column with a list cell in some row is typed [list] whatever
    its other cells are, and a result returned by [generate_schema] has
    no entry for it, in the schema and in the date format map. *)
Theorem list_column_excluded samples k r items :
  r ∈ samples -> row_get k r = Some (VList items) ->
  k ∈ frame_columns samples /\
  (forall dfm0 lengths0,
     infer_column (frame_column samples k) dfm0 lengths0 =
       Ok (Some "list", dfm0,
           <[k := max_len (cells (frame_column samples k))]> lengths0)) /\
  (forall (flag : bool) schema dfm,
     generate_schema samples tt flag = Ok (schema, dfm) ->
     schema !! k = None /\ dfm !! k = None).
Proof.
  intros Hr Hk.
  pose proof (frame_columns_row _ _ _ _ Hr Hk) as Hcol.
  destruct (frame_column_list samples k items (column_cells_row _ _ _ _ Hr Hk))
    as [Hd Hin].
  assert (forall dfm0 lengths0,
     infer_column (frame_column samples k) dfm0 lengths0 =
       Ok (Some "list", dfm0,
           <[k := max_len (cells (frame_column samples k))]> lengths0)) as Hcall.
  { intros dfm0 lengths0. by rewrite (infer_column_list _ _ _ items). }
  repeat split; try done.
  - destruct (generate_schema_column samples tt flag schema dfm (frame_column samples k))
      as (t & dfm0 & l0 & dfm1 & l1 & Hcall' & _ & _ & Hfrag); [done| |].
    { unfold DataFrame. apply list_elem_of_fmap. eauto. }
    rewrite Hcall in Hcall'. injection Hcall' as <- <- <-. done.
  - destruct (generate_schema_column samples tt flag schema dfm (frame_column samples k))
      as (t & dfm0 & l0 & dfm1 & l1 & Hcall' & Hd0 & Hd1 & _); [done| |].
    { unfold DataFrame. apply list_elem_of_fmap. eauto. }
    rewrite Hcall in Hcall'. injection Hcall' as <- <- <-.
    simpl in *. congruence.
Qed.

(** C3, at its failing input.  In the batch [[{"a": "abc"}, {"a": None}]]
    the column mixes text with a missing cell; comma stripping in
    [infer_number] runs outside the [try] block and its
    [AttributeError] reaches the caller of [generate_schema]. *)
Theorem generate_schema_raises (flag : bool) :
  infer_number (mkSeries "a" DObject [VStr "abc"; VNone]) = Raise AttributeError /\
  generate_schema [[("a", VStr "abc")]; [("a", VNone)]] tt flag
    = Raise AttributeError.
Proof. split; reflexivity. Qed.

(** C1, amended.  In a result returned by [generate_schema], every
    column typed [date-time] has an entry in the date format map, one of
    the two year-first labels; and an entry belongs either to such a
    column, or to a column typed [string] for which one of the four
    later formats was recorded. *)
Theorem date_format_map_entries (samples : list row) (flag : bool) schema dfm :
  generate_schema samples tt flag = Ok (schema, dfm) ->
  exists col_types lengths,
    infer_columns (DataFrame samples) [] ∅ ∅ = Ok (col_types, dfm, lengths) /\
    forall k,
      (forall t, (k, t) ∈ col_types -> t = Some "date-time" ->
         exists l, dfm !! k = Some l /\ l ∈ iso_labels) /\
      (forall l, dfm !! k = Some l ->
         exists t, (k, t) ∈ col_types /\
           ((t = Some "date-time" /\ l ∈ iso_labels) \/
            (t = Some "string" /\ l ∈ later_labels))).
Proof.
  intros Hg.
  apply generate_schema_inv in Hg as (col_types & lengths & Hloop & _ & _).
  exists col_types, lengths. split; [done|].
  pose proof (frame_NoDup samples) as Hnd.
  destruct (infer_columns_local _ _ _ _ _ _ _ Hnd Hloop)
    as (ts & -> & Hts & Hout & Hin).
  simpl. intros k. split.
  - intros t Ht ->.
    destruct (Hin _ _ Ht)
      as (c & dfm0 & l0 & dfm1 & l1 & _ & Hcn & Hcall & _ & Hd1 & _).
    apply infer_column_effect in Hcall as [_ [[_ Hne]|(l & -> & [[_ Hl]|[Hs _]])]];
      try done.
    exists l. split; [|done]. rewrite Hd1, Hcn. apply lookup_insert_eq.
  - intros l Hl.
    destruct (decide (k ∈ map name (DataFrame samples))) as [Hk|Hk].
    2:{ destruct (Hout k Hk) as [Hnone _]. rewrite Hnone in Hl. done. }
    rewrite <- Hts in Hk. apply list_elem_of_fmap in Hk as ([k' t] & Hk' & Ht).
    simpl in Hk'. subst k'. exists t. split; [done|].
    destruct (Hin _ _ Ht)
      as (c & dfm0 & l0 & dfm1 & l1 & _ & Hcn & Hcall & Hd0 & Hd1 & _).
    apply infer_column_effect in Hcall as [_ [[-> _]|(l' & -> & Hcases)]].
    + rewrite Hd1, Hd0 in Hl. done.
    + rewrite Hd1, Hcn, lookup_insert_eq in Hl. injection Hl as ->. done.
Qed.

(** ** The claims about the checks *)

(** C4. On a column of text whose non-missing values (the texts left by
    [date_candidates]) are not all accepted on the ISO path of
    ['%Y-%m-%d'], the resolver records [MM-DD-YYYY] when they all match
    ['%m-%d-%Y'], [DD-MM-YYYY] when they do not but all match
    ['%d-%m-%Y'], [MM/DD/YYYY] when they all match ['%m/%d/%Y'] and
    [DD/MM/YYYY] when they do not but all match ['%d/%m/%Y']; in each
    case it returns fail, the boolean check fails too, and [infer_column]
    ends at the [string] fallback. *)
Theorem infer_column_later_format column dfm lengths :
  dtype column = DObject -> forallb is_text (cells column) = true ->
  ~ all_match iso_8601 (cells column) ->
  let matched fmt := all_match (array_strptime fmt) (cells column) in
  let recorded label :=
    infer_datetime column dfm = (false, <[name column := label]> dfm) /\
    infer_boolean column = Ok false /\
    infer_column column dfm lengths =
      Ok (Some "string", <[name column := label]> dfm,
          <[name column := max_len (cells column)]> lengths) in
  (matched [Dirm; Lit "-"%char; Dird; Lit "-"%char; DirY] -> recorded "MM-DD-YYYY") /\
  (~ matched [Dirm; Lit "-"%char; Dird; Lit "-"%char; DirY] ->
   matched [Dird; Lit "-"%char; Dirm; Lit "-"%char; DirY] -> recorded "DD-MM-YYYY") /\
  (matched [Dirm; Lit "/"%char; Dird; Lit "/"%char; DirY] -> recorded "MM/DD/YYYY") /\
  (~ matched [Dirm; Lit "/"%char; Dird; Lit "/"%char; DirY] ->
   matched [Dird; Lit "/"%char; Dirm; Lit "/"%char; DirY] -> recorded "DD/MM/YYYY").
Proof.
  intros Hd Hl Hiso. cbv zeta.
  pose proof (not_all_match_forallb _ iso_8601 F_Y_m_d Hl (fun _ => eq_refl) Hiso)
    as Hno.
  assert (forall f fmt, (forall s, parses f s = array_strptime fmt s) ->
            all_match (array_strptime fmt) (cells column) ->
            forallb (cell_parses f) (date_candidates (cells column)) = true) as Hyes.
  { intros f fmt Hp H. by apply (all_match_forallb _ (array_strptime fmt) f). }
  assert (forall f fmt, (forall s, parses f s = array_strptime fmt s) ->
            ~ all_match (array_strptime fmt) (cells column) ->
            forallb (cell_parses f) (date_candidates (cells column)) = false) as Hnot.
  { intros f fmt Hp H. by apply (not_all_match_forallb _ (array_strptime fmt) f). }
  split; [|split; [|split]].
  - intros H1. pose proof (Hyes F_m_d_Y_dash _ (fun _ => eq_refl) H1) as Hf.
    by destruct (infer_column_later column dfm lengths []
                   F_m_d_Y_dash "MM-DD-YYYY"
                   [(F_d_m_Y_dash, "DD-MM-YYYY"); (F_m_d_Y_slash, "MM/DD/YYYY");
                    (F_d_m_Y_slash, "DD/MM/YYYY")] Hd Hl Hno eq_refl
                   (List.Forall_nil _) Hf) as (_ & ? & ? & ?).
  - intros H1 H2.
    pose proof (Hnot F_m_d_Y_dash _ (fun _ => eq_refl) H1) as Hf1.
    pose proof (Hyes F_d_m_Y_dash _ (fun _ => eq_refl) H2) as Hf.
    assert (Forall (fun fl => forallb (cell_parses fl.1)
                                (date_candidates (cells column)) = false)
              [(F_m_d_Y_dash, "MM-DD-YYYY")]) as Hpre
      by (repeat constructor; exact Hf1).
    by destruct (infer_column_later column dfm lengths
                   [(F_m_d_Y_dash, "MM-DD-YYYY")]
                   F_d_m_Y_dash "DD-MM-YYYY"
                   [(F_m_d_Y_slash, "MM/DD/YYYY"); (F_d_m_Y_slash, "DD/MM/YYYY")]
                   Hd Hl Hno eq_refl Hpre Hf) as (_ & ? & ? & ?).
  - intros H1. pose proof (Hyes F_m_d_Y_slash _ (fun _ => eq_refl) H1) as Hf.
    assert (Forall (fun fl => forallb (cell_parses fl.1)
                                (date_candidates (cells column)) = false)
              [(F_m_d_Y_dash, "MM-DD-YYYY"); (F_d_m_Y_dash, "DD-MM-YYYY")]) as Hpre.
    { repeat constructor; simpl;
        apply (slash_excludes_dash _ F_m_d_Y_slash); try done;
        [left|left|left|right; left]. }
    by destruct (infer_column_later column dfm lengths
                   [(F_m_d_Y_dash, "MM-DD-YYYY"); (F_d_m_Y_dash, "DD-MM-YYYY")]
                   F_m_d_Y_slash "MM/DD/YYYY" [(F_d_m_Y_slash, "DD/MM/YYYY")]
                   Hd Hl Hno eq_refl Hpre Hf) as (_ & ? & ? & ?).
  - intros H1 H2.
    pose proof (Hnot F_m_d_Y_slash _ (fun _ => eq_refl) H1) as Hf1.
    pose proof (Hyes F_d_m_Y_slash _ (fun _ => eq_refl) H2) as Hf.
    assert (Forall (fun fl => forallb (cell_parses fl.1)
                                (date_candidates (cells column)) = false)
              [(F_m_d_Y_dash, "MM-DD-YYYY"); (F_d_m_Y_dash, "DD-MM-YYYY");
               (F_m_d_Y_slash, "MM/DD/YYYY")]) as Hpre.
    { repeat constructor; simpl; [| |exact Hf1];
        apply (slash_excludes_dash _ F_d_m_Y_slash); try done;
        [right; left|left|right; left|right; left]. }
    by destruct (infer_column_later column dfm lengths
                   [(F_m_d_Y_dash, "MM-DD-YYYY"); (F_d_m_Y_dash, "DD-MM-YYYY");
                    (F_m_d_Y_slash, "MM/DD/YYYY")]
                   F_d_m_Y_slash "DD/MM/YYYY" [] Hd Hl Hno eq_refl Hpre Hf)
      as (_ & ? & ? & ?).
Qed.









End InferenceProperties.

(** C9. [datatype_schema('number', 5, True)] is exactly
    [{'type': ['null', 'number', 'string'], 'maxLength': 5}], and with the
    flag false the same schema without a [maxLength] key. *)
Theorem datatype_schema_number :
  datatype_schema (Some "number") 5 true =
    JDict [("type", JList [JStr "null"; JStr "number"; JStr "string"]);
           ("maxLength", JInt 5)] /\
  datatype_schema (Some "number") 5 false =
    JDict [("type", JList [JStr "null"; JStr "number"; JStr "string"])] /\
  "maxLength" ∉ json_keys (datatype_schema (Some "number") 5 false).
Proof.
  split; [reflexivity|]. split; [reflexivity|].
  simpl. rewrite list_elem_of_singleton. done.
Qed.


(** ** The claims on concrete batches *)

(** A column of two missing cells, a [None] and a [NaN]. *)
Lemma infer_column_all_null_witness :
  Forall (fun x => x = VNone \/ x = VNaN) [VNone; VNaN] /\
  infer_column integral_float_str plain_list_str
    (mkSeries "e" DObject [VNone; VNaN]) ∅ ∅
  = Ok (Some "string", ∅, <["e" := 0]> ∅).
Proof.
  assert (Forall (fun x => x = VNone \/ x = VNaN) [VNone; VNaN]) as H
    by (repeat constructor; auto).
  split; [exact H|].
  exact (proj1 (infer_column_all_null integral_float_str plain_list_str
                  (mkSeries "e" DObject [VNone; VNaN]) ∅ ∅ H)).
Defined.

(** A column of booleans has dtype [bool], a numeric column with a
    missing cell has dtype [float64]; both get the fragment with [None]. *)
Lemma infer_column_other_dtype_witness :
  DataFrame untyped_batch =
    [mkSeries "b" DBool [VBool true; VBool false];
     mkSeries "n" DFloat64 [VFloat 1; VNaN]] /\
  generate_schema integral_float_str plain_list_str untyped_batch tt false
  = Ok ({["b" := JDict [("type", JList [JStr "null"; JNone; JStr "string"])];
          "n" := JDict [("type", JList [JStr "null"; JNone; JStr "string"])]]}, ∅) /\
  infer_column integral_float_str plain_list_str
    (mkSeries "n" DFloat64 [VFloat 1; VNaN]) ∅ ∅
  = Ok (None, ∅, <["n" := 3]> ∅).
Proof.
  assert (generate_schema integral_float_str plain_list_str untyped_batch tt false
    = Ok ({["b" := JDict [("type", JList [JStr "null"; JNone; JStr "string"])];
            "n" := JDict [("type", JList [JStr "null"; JNone; JStr "string"])]]}, ∅))
    as Hg by (vm_compute; reflexivity).
  split; [reflexivity|]. split; [exact Hg|].
  refine (proj1 (infer_column_other_dtype integral_float_str plain_list_str
                   untyped_batch tt false _ _
                   (mkSeries "n" DFloat64 [VFloat 1; VNaN]) Hg _ _ _ _) ∅ ∅).
  - right. left.
  - reflexivity.
  - simpl. discriminate.
  - simpl. intros H. repeat (apply elem_of_cons in H as [H|H]; [discriminate|]).
    inversion H.
Defined.

(** One row has overflow fields, the other a date in the same column. *)
Lemma list_column_excluded_witness :
  generate_schema integral_float_str plain_list_str overflow_batch tt false
  = Ok ({["id" := JDict [("type", JList [JStr "null"; JStr "number"; JStr "string"])]]}, ∅) /\
  "_sdc_extra" ∈ frame_columns overflow_batch /\
  ({["id" := JDict [("type", JList [JStr "null"; JStr "number"; JStr "string"])]]}
     : gmap string json) !! "_sdc_extra" = None /\
  (∅ : gmap string string) !! "_sdc_extra" = None.
Proof.
  assert (generate_schema integral_float_str plain_list_str overflow_batch tt false
    = Ok ({["id" := JDict [("type", JList [JStr "null"; JStr "number"; JStr "string"])]]}, ∅))
    as Hg by (vm_compute; reflexivity).
  split; [exact Hg|].
  destruct (list_column_excluded integral_float_str plain_list_str overflow_batch
              "_sdc_extra"
              [("id", VStr "1"); ("_sdc_extra", VList ["x"; "y"])] ["x"; "y"])
    as (Hk & _ & Hout).
  - left.
  - reflexivity.
  - split; [exact Hk|]. exact (Hout false _ _ Hg).
Defined.

(** C1 fails on a column of [MM-DD-YYYY] dates: it is typed [string] and
    has an entry in the date format map. *)
Lemma format_recorded_iff_datetime_fails :
  ~ format_recorded_iff_datetime integral_float_str plain_list_str day_first_batch.
Proof.
  intros H.
  destruct (H true
              {["d" := JDict [("type", JList [JStr "null"; JStr "string"]);
                              ("maxLength", JInt 10)]]}
              {["d" := "MM-DD-YYYY"]}
              [("d", Some "string")] {["d" := "MM-DD-YYYY"]} {["d" := 10]})
    with "d" (Some "string") as [Hiff _].
  - vm_compute. reflexivity.
  - vm_compute. reflexivity.
  - left.
  - assert (Some "string" = Some "date-time") as Habs; [|discriminate Habs].
    apply Hiff. eexists. reflexivity.
Qed.

Lemma date_format_map_entries_witness :
  generate_schema integral_float_str plain_list_str day_first_batch tt true
  = Ok ({["d" := JDict [("type", JList [JStr "null"; JStr "string"]);
                        ("maxLength", JInt 10)]]},
        {["d" := "MM-DD-YYYY"]}) /\
  exists col_types lengths,
    infer_columns integral_float_str plain_list_str (DataFrame day_first_batch) [] ∅ ∅
    = Ok (col_types, {["d" := "MM-DD-YYYY"]}, lengths).
Proof.
  assert (generate_schema integral_float_str plain_list_str day_first_batch tt true
    = Ok ({["d" := JDict [("type", JList [JStr "null"; JStr "string"]);
                          ("maxLength", JInt 10)]]},
          {["d" := "MM-DD-YYYY"]})) as Hg by (vm_compute; reflexivity).
  split; [exact Hg|].
  destruct (date_format_map_entries integral_float_str plain_list_str
              day_first_batch true _ _ Hg) as (col_types & lengths & Hloop & _).
  exists col_types, lengths. exact Hloop.
Defined.

(** A column of day-first dates with slashes and a blank: the last of
    the four formats is reached. *)
Lemma infer_column_later_format_witness :
  ~ all_match iso_8601 [VStr "15/01/2022"; VStr ""; VStr "20/02/2022"] /\
  ~ all_match (array_strptime [Dirm; Lit "/"%char; Dird; Lit "/"%char; DirY])
      [VStr "15/01/2022"; VStr ""; VStr "20/02/2022"] /\
  all_match (array_strptime [Dird; Lit "/"%char; Dirm; Lit "/"%char; DirY])
    [VStr "15/01/2022"; VStr ""; VStr "20/02/2022"] /\
  infer_column integral_float_str plain_list_str
    (mkSeries "d" DObject [VStr "15/01/2022"; VStr ""; VStr "20/02/2022"]) ∅ ∅
  = Ok (Some "string", <["d" := "DD/MM/YYYY"]> ∅, <["d" := 10]> ∅).
Proof.
  assert (VStr "15/01/2022"
          ∈ date_candidates [VStr "15/01/2022"; VStr ""; VStr "20/02/2022"]) as Hin
    by (vm_compute; left).
  assert (~ all_match iso_8601 [VStr "15/01/2022"; VStr ""; VStr "20/02/2022"])
    as Hiso.
  { intros H. specialize (H _ Hin). vm_compute in H. discriminate H. }
  assert (~ all_match (array_strptime [Dirm; Lit "/"%char; Dird; Lit "/"%char; DirY])
            [VStr "15/01/2022"; VStr ""; VStr "20/02/2022"]) as Hmd.
  { intros H. specialize (H _ Hin). vm_compute in H. discriminate H. }
  assert (all_match (array_strptime [Dird; Lit "/"%char; Dirm; Lit "/"%char; DirY])
            [VStr "15/01/2022"; VStr ""; VStr "20/02/2022"]) as Hdm.
  { intros s Hs. vm_compute in Hs. elim_elem_of Hs; injection Hs as ->; reflexivity. }
  split; [exact Hiso|]. split; [exact Hmd|]. split; [exact Hdm|].
  destruct (infer_column_later_format integral_float_str plain_list_str
              (mkSeries "d" DObject [VStr "15/01/2022"; VStr ""; VStr "20/02/2022"])
              ∅ ∅ eq_refl eq_refl Hiso) as (_ & _ & _ & Hlast).
  destruct (Hlast Hmd Hdm) as (_ & _ & Hcol).
  exact Hcol.
Defined.




(** * Further properties of the inference engine *)

(** ** Which calls raise *)

Lemma infer_number_text_ok column :
  forallb is_text (cells column) = true -> exists b, infer_number column = Ok b.
Proof.
  intros Hl. unfold infer_number.
  destruct (strip_commas_column _ Hl) as (ts & -> & _). simpl.
  destruct (to_numeric ts) as [[d ns]|]; [|eauto].
  destruct (forallb is_nan ns); eauto.
Qed.

Lemma infer_boolean_text_ok column :
  forallb is_text (cells column) = true -> exists b, infer_boolean column = Ok b.
Proof.
  intros Hl. rewrite infer_boolean_simple; [eauto|].
  rewrite forallb_forall in *. intros x Hx. specialize (Hl x Hx). by destruct x.
Qed.

(** X1. [infer_number] raises exactly when some cell of the column is not
    text, and the exception is then [AttributeError]: a failure of the
    numeric conversion itself never leaves the function. *)
Theorem infer_number_raises_iff column e :
  infer_number column = Raise e <->
  e = AttributeError /\ exists x, x ∈ cells column /\ is_text x = false.
Proof.
  split.
  - intros H. destruct (forallb is_text (cells column)) eqn:Hl.
    + destruct (infer_number_text_ok _ Hl) as [b Hb]. congruence.
    + rewrite (infer_number_not_text _ Hl) in H. injection H as <-.
      split; [done|].
      assert (~ forallb is_text (cells column) = true) as Hn by congruence.
      rewrite forallb_forall in Hn.
      induction (cells column) as [|x l IH]; [by destruct Hn|].
      destruct (is_text x) eqn:Hx.
      * destruct IH as (y & Hy & Hyt).
        { simpl in Hl. by rewrite Hx in Hl. }
        { intros Hall. apply Hn. intros z [<-|Hz]; auto. }
        exists y. split; [by right|done].
      * exists x. split; [left|done].
  - intros (-> & x & Hx & Hxt). apply infer_number_not_text.
    apply not_true_is_false. intros Hl. rewrite forallb_forall in Hl.
    apply list_elem_of_In in Hx. by rewrite (Hl x Hx) in Hxt.
Qed.

Section FurtherProperties.

Variable float_str : Q -> string.
Variable list_str : list string -> string.

Local Abbreviation py_str := (py_str float_str list_str).
Local Abbreviation max_len := (max_len float_str list_str).
Local Abbreviation infer_column := (infer_column float_str list_str).
Local Abbreviation infer_columns := (infer_columns float_str list_str).
Local Abbreviation generate_schema := (generate_schema float_str list_str).

Lemma infer_column_text_ok column dfm lengths :
  dtype column = DObject -> forallb is_text (cells column) = true ->
  forallb is_null (cells column) = false ->
  exists r, infer_column column dfm lengths = Ok r.
Proof.
  intros Hd Hl Hnull. destruct (text_cell_exists _ Hl Hnull) as [s Hs].
  rewrite (infer_column_text _ _ _ _ _ s Hd Hl Hs).
  destruct (infer_number_text_ok _ Hl) as [[] ->]; simpl; [eauto|].
  destruct (infer_datetime column dfm) as [[] dfm']; [eauto|].
  destruct (infer_boolean_text_ok _ Hl) as [[] ->]; simpl; eauto.
Qed.

Lemma infer_column_raise_inv column dfm lengths e :
  infer_column column dfm lengths = Raise e ->
  dtype column = DObject /\
  forallb is_null (cells column) = false /\
  existsb is_list (cells column) = false /\
  forallb is_text (cells column) = false.
Proof.
  intros H. destruct (forallb is_null (cells column)) eqn:Hnull.
  { unfold infer_column in H. by rewrite Hnull in H. }
  destruct (decide (dtype_name (dtype column) = "object")) as [Hobj|Hobj].
  2:{ by rewrite infer_column_not_object in H. }
  apply dtype_name_object in Hobj.
  destruct (existsb is_list (cells column)) eqn:Hlist.
  { apply existsb_exists in Hlist as (x & Hx & Hxl). destruct x; try done.
    apply list_elem_of_In in Hx.
    by rewrite (infer_column_list _ _ _ _ _ _ Hobj Hx) in H. }
  destruct (forallb is_text (cells column)) eqn:Hl; [|done].
  destruct (infer_column_text_ok column dfm lengths Hobj Hl Hnull) as [r Hr].
  congruence.
Qed.

(** X2. [infer_column] raises exactly on an object column that is not all
    null, has no list cell and has a cell that is not text (a missing
    cell, a boolean or a number beside text); the exception is
    [AttributeError], whatever the two maps hold. *)
Theorem infer_column_raises_iff column dfm lengths e :
  infer_column column dfm lengths = Raise e <->
  e = AttributeError /\ dtype column = DObject /\
  forallb is_null (cells column) = false /\
  existsb is_list (cells column) = false /\
  forallb is_text (cells column) = false.
Proof.
  split.
  - intros H. pose proof (infer_column_raise_inv _ _ _ _ H) as Hinv.
    destruct Hinv as (Hd & Hnull & Hlist & Hl).
    rewrite infer_column_not_text in H by done. by injection H as <-.
  - intros (-> & Hd & Hnull & Hlist & Hl). by apply infer_column_not_text.
Qed.

Lemma infer_number_raise_attr column e :
  infer_number column = Raise e -> e = AttributeError.
Proof.
  intros H. destruct (forallb is_text (cells column)) eqn:Hl.
  - destruct (infer_number_text_ok _ Hl) as [b Hb]. congruence.
  - rewrite (infer_number_not_text _ Hl) in H. congruence.
Qed.

Lemma infer_column_raise_attr column dfm lengths e :
  infer_column column dfm lengths = Raise e -> e = AttributeError.
Proof.
  intros H. unfold infer_column in H.
  destruct (forallb is_null (cells column)); [done|].
  destruct (bool_decide (dtype_name (dtype column) = "object"));
    [|by destruct (bool_decide _)].
  destruct (existsb is_list (cells column)); [done|].
  destruct (infer_number column) as [[]|e'] eqn:Hnum; simpl in H; [done| |].
  - destruct (infer_datetime column dfm) as [[] d]; [done|].
    destruct (infer_boolean_text_ok _ (infer_number_text _ _ Hnum)) as [b Hb].
    rewrite Hb in H. by destruct b.
  - injection H as <-. by apply infer_number_raise_attr in Hnum.
Qed.

Lemma infer_columns_raise columns col_types dfm lengths e :
  infer_columns columns col_types dfm lengths = Raise e ->
  exists column dfm0 lengths0,
    column ∈ columns /\ infer_column column dfm0 lengths0 = Raise e.
Proof.
  revert col_types dfm lengths.
  induction columns as [|c rest IH]; intros col_types dfm lengths H; [done|].
  simpl in H.
  destruct (infer_column c dfm lengths) as [[[t dfm1] lengths1]|e'] eqn:Hc.
  - simpl in H. apply IH in H as (c' & dfm0 & l0 & Hin & Hr).
    exists c', dfm0, l0. split; [by right|done].
  - simpl in H. injection H as <-. exists c, dfm, lengths. split; [left|done].
Qed.

Lemma infer_columns_raise_at columns col_types dfm lengths column :
  column ∈ columns ->
  (forall dfm0 lengths0, infer_column column dfm0 lengths0 = Raise AttributeError) ->
  infer_columns columns col_types dfm lengths = Raise AttributeError.
Proof.
  revert col_types dfm lengths.
  induction columns as [|c rest IH]; intros col_types dfm lengths Hin Hr;
    [inversion Hin|].
  simpl. destruct (infer_column c dfm lengths) as [[[t dfm1] lengths1]|e'] eqn:Hc.
  - simpl. apply elem_of_cons in Hin as [->|Hin]; [|by apply IH].
    by rewrite Hr in Hc.
  - simpl. f_equal. by apply infer_column_raise_attr in Hc.
Qed.

Lemma emit_schema_ok col_types lengths flag schema :
  (forall k t, (k, t) ∈ col_types -> is_Some (lengths !! k)) ->
  exists schema', emit_schema col_types lengths flag schema = Ok schema'.
Proof.
  revert schema. induction col_types as [|[k t] rest IH]; intros schema Hl;
    simpl; [eauto|].
  assert (forall k t, (k, t) ∈ rest -> is_Some (lengths !! k)) as Hrest.
  { intros k' t' Hin. apply (Hl k' t'). by right. }
  case_bool_decide; [|by apply IH].
  destruct (Hl k t) as [n ->]; [left|]. by apply IH.
Qed.

(** The second loop cannot fail after the first: every column has its
    length recorded. *)
Lemma generate_schema_loops {T} samples (table_spec : T) flag col_types dfm lengths :
  infer_columns (DataFrame samples) [] ∅ ∅ = Ok (col_types, dfm, lengths) ->
  exists schema, generate_schema samples table_spec flag = Ok (schema, dfm).
Proof.
  intros Hloop. unfold generate_schema. rewrite Hloop. simpl.
  destruct (emit_schema_ok col_types lengths flag ∅) as [schema ->]; [|simpl; eauto].
  intros k t Hkt.
  destruct (infer_columns_local _ _ _ _ _ _ _ _ _ (frame_NoDup samples) Hloop)
    as (ts & -> & _ & _ & Hin).
  destruct (Hin k t Hkt) as (c & dfm0 & l0 & dfm1 & l1 & _ & Hcn & Hcall & _ & _ & ->).
  apply infer_column_effect in Hcall as [[n ->] _].
  rewrite Hcn, lookup_insert_eq. eauto.
Qed.

(** X3. [generate_schema] fails exactly when the frame has an object
    column, not all null and without a list cell, in which some cell is
    not text; it then raises [AttributeError].  In particular no other
    exception (a [KeyError] from the lengths map, a parse error) reaches
    the caller. *)
Theorem generate_schema_raises_iff samples (flag : bool) e :
  generate_schema samples tt flag = Raise e <->
  e = AttributeError /\
  exists column, column ∈ DataFrame samples /\ dtype column = DObject /\
    forallb is_null (cells column) = false /\
    existsb is_list (cells column) = false /\
    forallb is_text (cells column) = false.
Proof.
  split.
  - intros H.
    destruct (infer_columns (DataFrame samples) [] ∅ ∅)
      as [[[col_types dfm] lengths]|e'] eqn:Hloop.
    + destruct (generate_schema_loops samples tt flag _ _ _ Hloop) as [schema Hs].
      congruence.
    + assert (e = e') as ->.
      { unfold generate_schema in H. rewrite Hloop in H. simpl in H. congruence. }
      apply infer_columns_raise in Hloop as (c & dfm0 & l0 & Hin & Hr).
      pose proof (infer_column_raise_attr _ _ _ _ Hr) as ->.
      apply infer_column_raise_inv in Hr. split; [done|].
      exists c. done.
  - intros (-> & c & Hin & Hd & Hnull & Hlist & Hl).
    unfold generate_schema.
    rewrite (infer_columns_raise_at _ _ _ _ c Hin); [done|].
    intros dfm0 l0. by apply infer_column_not_text.
Qed.

(** ** The shape of the result *)

(** The tag returned by [infer_column] is [list] only for a column with a
    list cell, and otherwise one of the tags the emitter receives. *)
Lemma infer_column_tag column dfm lengths t dfm' lengths' :
  infer_column column dfm lengths = Ok (t, dfm', lengths') ->
  (t = Some "list" /\ existsb is_list (cells column) = true) \/
  (t ∈ emitted_tags /\
   (forallb is_null (cells column) = true \/ dtype column <> DObject \/
    existsb is_list (cells column) = false)).
Proof.
  intros H. unfold emitted_tags.
  destruct (forallb is_null (cells column)) eqn:Hnull.
  { unfold infer_column in H. rewrite Hnull in H. injection H as <- _ _.
    right. split; [left|by left]. }
  destruct (decide (dtype_name (dtype column) = "object")) as [Hobj|Hobj].
  2:{ rewrite infer_column_not_object in H by done. injection H as <- _ _.
      right. split.
      - destruct (bool_decide _); [right|right;right;right;right]; left.
      - right. left. intros Hd. by rewrite Hd in Hobj. }
  apply dtype_name_object in Hobj.
  destruct (existsb is_list (cells column)) eqn:Hlist.
  { pose proof Hlist as Hl'.
    apply existsb_exists in Hlist as (x & Hx & Hxl). destruct x; try done.
    apply list_elem_of_In in Hx.
    rewrite (infer_column_list _ _ _ _ _ _ Hobj Hx) in H.
    injection H as <- _ _. by left. }
  right. split; [|by right; right].
  unfold infer_column in H. rewrite Hnull, Hobj, Hlist in H. simpl in H.
  destruct (infer_number column) as [[]|]; simpl in H; [| |done].
  { injection H as <- _ _. right. left. }
  destruct (infer_datetime column dfm) as [[] dfm1].
  { injection H as <- _ _. right. right. left. }
  destruct (infer_boolean column) as [[]|]; simpl in H; [| |done];
    injection H as <- _ _; [right; right; right|]; left.
Qed.

Lemma generate_schema_outside {T} samples (table_spec : T) flag schema dfm k :
  generate_schema samples table_spec flag = Ok (schema, dfm) ->
  k ∉ frame_columns samples -> schema !! k = None /\ dfm !! k = None.
Proof.
  intros Hg Hk.
  apply generate_schema_inv in Hg as (col_types & lengths & Hloop & Hemit & Hnames).
  pose proof (frame_NoDup samples) as Hnd.
  destruct (infer_columns_local _ _ _ _ _ _ _ _ _ Hnd Hloop)
    as (ts & -> & Hts & Hout & _).
  simpl in *. rewrite frame_names in Hout, Hnd. split.
  - assert (NoDup (map fst ts)) as Hnd' by by rewrite Hnames.
    destruct (emit_schema_lookup ts lengths flag ∅ schema k Hnd' Hemit) as [Hs _].
    rewrite Hs; [done|]. by rewrite Hnames.
  - by destruct (Hout k Hk) as [-> _].
Qed.

Lemma cast_cell_is_list d x : is_list (cast_cell d x) = is_list x.
Proof. by destruct d, x. Qed.

Lemma frame_column_is_list samples k :
  existsb is_list (cells (frame_column samples k))
  = existsb is_list (column_cells k samples).
Proof.
  unfold frame_column. simpl.
  generalize (frame_dtype (column_cells k samples)). intros d.
  induction (column_cells k samples) as [|x l IH]; [done|]. simpl.
  by rewrite cast_cell_is_list, IH.
Qed.

Lemma frame_column_in samples k :
  k ∈ frame_columns samples -> frame_column samples k ∈ DataFrame samples.
Proof. intros Hk. unfold DataFrame. apply list_elem_of_fmap. eauto. Qed.

Lemma frame_dtype_object_list l :
  existsb is_list l = true -> frame_dtype l = DObject.
Proof.
  intros H. apply frame_dtype_object.
  apply existsb_exists in H as (x & Hx & Hxl). apply existsb_exists.
  exists x. split; [done|]. by destruct x.
Qed.

(** X4. In a returned result the schema has an entry exactly for the
    columns of the batch without a list cell, and every key of the date
    format map is a key of the schema. *)
Theorem schema_keys samples (flag : bool) schema dfm :
  generate_schema samples tt flag = Ok (schema, dfm) ->
  forall k,
    (is_Some (schema !! k) <->
     k ∈ frame_columns samples /\ existsb is_list (column_cells k samples) = false) /\
    (is_Some (dfm !! k) -> is_Some (schema !! k)).
Proof.
  intros Hg k.
  destruct (decide (k ∈ frame_columns samples)) as [Hk|Hk].
  2:{ destruct (generate_schema_outside _ _ _ _ _ k Hg Hk) as [-> ->].
      split; [|done]. split; [intros []; done|intros []; done]. }
  destruct (generate_schema_column _ _ _ _ _ _ _ _ Hg (frame_column_in _ _ Hk))
    as (t & dfm0 & l0 & dfm1 & l1 & Hcall & Hd0 & Hd1 & Hfrag).
  simpl in *. pose proof (infer_column_tag _ _ _ _ _ _ Hcall) as Htag.
  rewrite frame_column_is_list in Htag.
  assert (is_Some (schema !! k) <-> existsb is_list (column_cells k samples) = false)
    as Hiff.
  { destruct Htag as [[-> Hl]|[Ht Hcases]].
    - simpl in Hfrag. rewrite Hfrag, Hl. split; [intros []; done|done].
    - rewrite bool_decide_eq_false_2 in Hfrag.
      2:{ intros ->. unfold emitted_tags in Ht. elim_elem_of Ht; done. }
      destruct Hfrag as (n & _ & ->). split; [|eauto]. intros _.
      destruct (existsb is_list (column_cells k samples)) eqn:Hl; [|done].
      exfalso. destruct Hcases as [Hnull|[Hd|Hno]]; [| |done].
      + apply existsb_exists in Hl as (x & Hx & Hxl).
        unfold frame_column in Hnull. simpl in Hnull.
        rewrite forallb_forall in Hnull.
        specialize (Hnull (cast_cell (frame_dtype (column_cells k samples)) x)).
        rewrite in_map_iff in Hnull.
        assert (is_null (cast_cell (frame_dtype (column_cells k samples)) x) = true)
          as Hn by eauto.
        destruct x; try done. by destruct (frame_dtype _).
      + apply Hd. unfold frame_column. simpl. by apply frame_dtype_object_list. }
  split.
  - rewrite Hiff. tauto.
  - intros [l Hl]. rewrite Hd1 in Hl.
    apply infer_column_effect in Hcall as [_ [[-> _]|(l' & _ & Hcases)]].
    { rewrite Hd0 in Hl. done. }
    rewrite bool_decide_eq_false_2 in Hfrag.
    + destruct Hfrag as (n & _ & ->). eauto.
    + destruct Hcases as [[-> _]|[-> _]]; done.
Qed.

(** X5. Every fragment of a returned schema is of the plain kind: it has
    a [type] list that begins with [null] and ends with [string], no
    [anyOf] (the [dict] branch of the emitter is never taken), and a
    [maxLength] key exactly when the length flag is set. *)
Theorem schema_fragment_shape samples (flag : bool) schema dfm k frag :
  generate_schema samples tt flag = Ok (schema, dfm) ->
  schema !! k = Some frag ->
  (exists tys, json_get "type" frag = Some (JList (JStr "null" :: tys)) /\
     last tys = Some (JStr "string")) /\
  json_get "anyOf" frag = None /\
  (is_Some (json_get "maxLength" frag) <-> flag = true).
Proof.
  intros Hg Hfrag.
  destruct (decide (k ∈ frame_columns samples)) as [Hk|Hk].
  2:{ destruct (generate_schema_outside _ _ _ _ _ k Hg Hk) as [Hs _]. congruence. }
  destruct (generate_schema_column _ _ _ _ _ _ _ _ Hg (frame_column_in _ _ Hk))
    as (t & dfm0 & l0 & dfm1 & l1 & Hcall & _ & _ & Hf).
  simpl in *.
  destruct (infer_column_tag _ _ _ _ _ _ Hcall) as [[-> _]|[Ht _]].
  { simpl in Hf. congruence. }
  rewrite bool_decide_eq_false_2 in Hf.
  2:{ intros ->. unfold emitted_tags in Ht. elim_elem_of Ht; done. }
  destruct Hf as (n & _ & Hs). rewrite Hs in Hfrag. injection Hfrag as <-.
  unfold emitted_tags in Ht.
  elim_elem_of Ht; destruct flag; cbn;
    (split; [eexists; split; reflexivity|]); (split; [reflexivity|]);
    split; intros Hx; try done; try (by eexists); by destruct Hx.
Qed.

Lemma later_not_iso l : l ∈ later_labels -> l ∉ iso_labels.
Proof.
  intros Hl Hi. vm_compute in Hl. unfold iso_labels in Hi.
  elim_elem_of Hl; elim_elem_of Hi; done.
Qed.

(** X6. The two results agree on dates: a fragment of a returned schema
    carries [format: date-time] exactly when the date format map holds a
    year-first label for the column, and carries no other format. *)
Theorem schema_format_iff samples (flag : bool) schema dfm k frag :
  generate_schema samples tt flag = Ok (schema, dfm) ->
  schema !! k = Some frag ->
  (json_get "format" frag = Some (JStr "date-time") <->
   exists l, dfm !! k = Some l /\ l ∈ iso_labels) /\
  (json_get "format" frag = None \/ json_get "format" frag = Some (JStr "date-time")).
Proof.
  intros Hg Hfrag.
  destruct (decide (k ∈ frame_columns samples)) as [Hk|Hk].
  2:{ destruct (generate_schema_outside _ _ _ _ _ k Hg Hk) as [Hs _]. congruence. }
  destruct (generate_schema_column _ _ _ _ _ _ _ _ Hg (frame_column_in _ _ Hk))
    as (t & dfm0 & l0 & dfm1 & l1 & Hcall & Hd0 & Hd1 & Hf).
  simpl in *.
  pose proof (infer_column_tag _ _ _ _ _ _ Hcall) as [[-> _]|[Ht _]].
  { simpl in Hf. congruence. }
  rewrite bool_decide_eq_false_2 in Hf.
  2:{ intros ->. unfold emitted_tags in Ht. elim_elem_of Ht; done. }
  destruct Hf as (n & _ & Hs). rewrite Hs in Hfrag. injection Hfrag as <-.
  rewrite Hd1.
  apply infer_column_effect in Hcall as [_ [[-> Hne]|(l & -> & [[-> Hl]|[-> Hl]])]].
  - rewrite Hd0. unfold emitted_tags in Ht.
    elim_elem_of Ht; try done; destruct flag; cbn;
      (split; [|by left]); (split; [done|]); by intros (l & Hl & _).
  - rewrite lookup_insert_eq. destruct flag; cbn; (split; [|by right]);
      (split; [intros _; eauto|done]).
  - rewrite lookup_insert_eq. destruct flag; cbn; (split; [|by left]);
      (split; [done|]); intros (l' & [= <-] & Hiso); by apply later_not_iso in Hl.
Qed.

Lemma infer_column_lengths column dfm lengths t dfm' lengths' :
  infer_column column dfm lengths = Ok (t, dfm', lengths') ->
  lengths' = <[name column :=
                 if forallb is_null (cells column) then 0
                 else max_len (cells column)]> lengths.
Proof.
  intros H. unfold infer_column in H.
  destruct (forallb is_null (cells column)); [by injection H as _ _ <-|].
  destruct (bool_decide (dtype_name (dtype column) = "object")).
  - destruct (existsb is_list (cells column)); [by injection H as _ _ <-|].
    destruct (infer_number column) as [[]|]; simpl in H;
      [by injection H as _ _ <-| |done].
    destruct (infer_datetime column dfm) as [[] dfm1]; [by injection H as _ _ <-|].
    destruct (infer_boolean column) as [[]|]; simpl in H; [| |done];
      by injection H as _ _ <-.
  - destruct (bool_decide _); by injection H as _ _ <-.
Qed.

Lemma len_nonneg s : 0 <= len s.
Proof. unfold len. lia. Qed.

Lemma max_len_bound l x : x ∈ l -> len (py_str x) <= max_len l.
Proof.
  unfold max_len. induction l as [|y l IH]; intros Hx; [inversion Hx|]. simpl.
  apply elem_of_cons in Hx as [->|Hx]; [lia|]. specialize (IH Hx). lia.
Qed.

Lemma max_len_attained l :
  l <> [] -> exists x, x ∈ l /\ len (py_str x) = max_len l.
Proof.
  unfold max_len. induction l as [|y l IH]; [done|]. intros _. simpl.
  destruct l as [|z l].
  - exists y. split; [left|]. simpl. pose proof (len_nonneg (py_str y)). lia.
  - destruct IH as (x & Hx & Hlen); [done|].
    destruct (Z.max_spec (len (py_str y))
                (fold_right Z.max 0 (map (fun x => len (py_str x)) (z :: l))))
      as [[_ ->]|[_ ->]].
    + exists x. split; [by right|done].
    + exists y. split; [left|done].
Qed.

(** X7. With the length flag set, the [maxLength] of a column's fragment
    is 0 when the column is all null, and otherwise the length of the
    longest printed cell: no sampled value is longer, and one has that
    length. *)
Theorem schema_max_length samples schema dfm column frag :
  generate_schema samples tt true = Ok (schema, dfm) ->
  column ∈ DataFrame samples ->
  schema !! name column = Some frag ->
  exists n, json_get "maxLength" frag = Some (JInt n) /\
    ((forallb is_null (cells column) = true /\ n = 0) \/
     (forallb is_null (cells column) = false /\
      (forall x, x ∈ cells column -> len (py_str x) <= n) /\
      exists x, x ∈ cells column /\ len (py_str x) = n)).
Proof.
  intros Hg Hc Hfrag.
  destruct (generate_schema_column _ _ _ _ _ _ _ _ Hg Hc)
    as (t & dfm0 & l0 & dfm1 & l1 & Hcall & _ & _ & Hf).
  pose proof (infer_column_tag _ _ _ _ _ _ Hcall) as [[-> _]|[Ht _]].
  { simpl in Hf. congruence. }
  rewrite bool_decide_eq_false_2 in Hf.
  2:{ intros ->. unfold emitted_tags in Ht. elim_elem_of Ht; done. }
  destruct Hf as (n & Hn & Hs). rewrite Hs in Hfrag. injection Hfrag as <-.
  rewrite (infer_column_lengths _ _ _ _ _ _ Hcall), lookup_insert_eq in Hn.
  injection Hn as Hn. exists n. split.
  { unfold emitted_tags in Ht. elim_elem_of Ht; reflexivity. }
  destruct (forallb is_null (cells column)) eqn:Hnull; [by left|right].
  split; [done|]. subst n. split; [apply max_len_bound|].
  apply max_len_attained. intros Hnil. by rewrite Hnil in Hnull.
Qed.

(** ** Columns of numbers *)

Lemma digit_val_range c : is_digit c = true -> 0 <= digit_val c <= 9.
Proof.
  unfold is_digit, digit_val. intros H. apply andb_true_iff in H as [H1 H2].
  apply Z.leb_le in H1, H2. lia.
Qed.

Lemma digits_fold_bound ds acc :
  forallb is_digit ds = true -> 0 <= acc ->
  acc * 10 ^ Z.of_nat (length ds)
  <= fold_left (fun a c => 10 * a + digit_val c) ds acc
  < (acc + 1) * 10 ^ Z.of_nat (length ds).
Proof.
  revert acc. induction ds as [|d ds IH]; intros acc Hds Hacc.
  - simpl. lia.
  - simpl in Hds. apply andb_true_iff in Hds as [Hd Hds].
    pose proof (digit_val_range d Hd) as Hv.
    cbn [fold_left length]. rewrite Nat2Z.inj_succ, Z.pow_succ_r by lia.
    specialize (IH (10 * acc + digit_val d) Hds ltac:(lia)).
    assert (0 < 10 ^ Z.of_nat (length ds)) by (apply Z.pow_pos_nonneg; lia).
    nia.
Qed.

Lemma digits_val_bound ds :
  forallb is_digit ds = true -> (length ds <= 18)%nat ->
  0 <= digits_val ds <= INT64_MAX.
Proof.
  intros Hds Hlen. pose proof (digits_fold_bound ds 0 Hds ltac:(lia)) as Hb.
  unfold digits_val. split; [lia|].
  assert (10 ^ Z.of_nat (length ds) <= 10 ^ 18) as Hp
    by (apply Z.pow_le_mono_r; lia).
  unfold INT64_MAX. lia.
Qed.

Lemma span_digits_all ds :
  forallb is_digit ds = true -> span_digits ds = (ds, []).
Proof.
  induction ds as [|d ds IH]; simpl; [done|]. intros H.
  apply andb_true_iff in H as [-> H]. by rewrite IH.
Qed.

(** A run of digits converts to the integer it writes. *)
Lemma to_double_digits ds :
  ds <> [] -> forallb is_digit ds = true ->
  to_double ds = Some (NInt (digits_val ds)).
Proof.
  intros Hne Hds. destruct ds as [|d ds]; [done|].
  pose proof Hds as Hds'. simpl in Hds'. apply andb_true_iff in Hds' as [Hd _].
  unfold to_double. cbn [skip_spaces]. rewrite (digit_not_space d Hd).
  destruct (digit_not_sign d Hd) as (Hm & Hp & _).
  unfold take_sign. rewrite !bool_decide_eq_false_2 by done.
  rewrite span_digits_all by done. done.
Qed.

Lemma convert_numeric_digits s :
  chars s <> [] -> forallb is_digit (chars s) = true ->
  digits_val (chars s) <= UINT64_MAX ->
  convert_numeric s = Ok (NInt (digits_val (chars s))).
Proof.
  intros Hne Hds Hmax. unfold convert_numeric.
  destruct s as [|c s]; [done|]. unfold floatify.
  rewrite to_double_digits by done.
  pose proof (digits_fold_bound _ 0 Hds ltac:(lia)) as Hb.
  fold (digits_val (chars (String c s))) in Hb.
  remember (digits_val (chars (String c s))) as z eqn:Hz. simpl.
  assert ((z <? INT64_MIN) = false) as ->.
  { apply Z.ltb_ge. unfold INT64_MIN. lia. }
  assert ((UINT64_MAX <? z) = false) as ->; [|done].
  by apply Z.ltb_ge.
Qed.

Lemma convert_numeric_grouped s :
  grouped_digits s = true ->
  exists n, convert_numeric (strip_commas s) = Ok n /\
    small_num n = true /\ is_nan n = false.
Proof.
  unfold grouped_digits. intros H.
  apply andb_true_iff in H as [H Hlen]. apply andb_true_iff in H as [Hne Hds].
  apply bool_decide_eq_true in Hlen. apply negb_true_iff, bool_decide_eq_false in Hne.
  pose proof (digits_val_bound _ Hds Hlen) as Hb.
  exists (NInt (digits_val (chars (strip_commas s)))). split.
  - apply convert_numeric_digits; try done. unfold INT64_MAX, UINT64_MAX in *. lia.
  - split; [|done]. simpl. apply andb_true_iff. split; apply Z.leb_le; lia.
Qed.

Lemma mapM_result_forall {A B : Type} (f : A -> result B) (P : B -> Prop) l :
  Forall (fun x => exists y, f x = Ok y /\ P y) l ->
  exists ys, mapM_result f l = Ok ys /\ Forall P ys /\
    Forall2 (fun x y => f x = Ok y) l ys.
Proof.
  induction 1 as [|x l (y & Hy & HP) _ (ys & Hys & HPs & H2)].
  - exists []. repeat split; constructor.
  - exists (y :: ys). simpl. rewrite Hy. simpl. rewrite Hys.
    repeat split; by constructor.
Qed.

Lemma numeric_dtype_small ns :
  Forall (fun n => small_num n = true) ns ->
  bool_decide (dtype_name (numeric_dtype ns) ∈ ["float64"; "int64"]) = true.
Proof.
  intros Hs. unfold numeric_dtype.
  assert (existsb is_uint ns = false) as ->.
  { apply not_true_is_false. intros H. apply existsb_exists in H as (n & Hn & Hu).
    rewrite Forall_forall in Hs. apply list_elem_of_In, Hs in Hn.
    destruct n as [|z|]; try done. simpl in *.
    apply andb_true_iff in Hn as [_ Hn]. apply Z.leb_le in Hn.
    apply Z.ltb_lt in Hu. lia. }
  simpl. by destruct (existsb is_float ns).
Qed.

Lemma strip_commas_column_map l :
  forallb is_text l = true ->
  mapM_result cell_strip_commas l = Ok (map (fun x => strip_commas (cell_text x)) l).
Proof.
  intros Hl. apply mapM_result_ok, Forall_forall. intros x Hx.
  destruct (proj1 (forallb_is_text l) Hl x Hx) as [s ->]. done.
Qed.

Lemma Forall2_elem_l {A B} (R : A -> B -> Prop) l ys x :
  Forall2 R l ys -> x ∈ l -> exists y, y ∈ ys /\ R x y.
Proof.
  induction 1 as [|a b l ys Hab _ IH]; intros Hx; [inversion Hx|].
  apply elem_of_cons in Hx as [->|Hx].
  - exists b. split; [left|done].
  - destruct (IH Hx) as (y & Hy & HR). exists y. split; [by right|done].
Qed.

(** The numeric check passes on a column of text whose cells all convert
    to NaN or to integers of the signed range, one of them not NaN. *)
Lemma infer_number_small column :
  Forall (fun x => exists s n, x = VStr s /\
            convert_numeric (strip_commas s) = Ok n /\ small_num n = true)
    (cells column) ->
  (exists s n, VStr s ∈ cells column /\
     convert_numeric (strip_commas s) = Ok n /\ is_nan n = false) ->
  infer_number column = Ok true.
Proof.
  intros Hall (s0 & n0 & Hs0 & Hn0 & Hnan). unfold infer_number.
  rewrite strip_commas_column_map.
  2:{ apply forallb_is_text. intros x Hx. rewrite Forall_forall in Hall.
      destruct (Hall x Hx) as (s & _ & -> & _). eauto. }
  simpl. unfold to_numeric.
  destruct (mapM_result_forall convert_numeric (fun n => small_num n = true)
              (map (fun x => strip_commas (cell_text x)) (cells column)))
    as (ns & -> & Hsmall & H2).
  { apply Forall_fmap. eapply Forall_impl; [exact Hall|].
    intros x (s & n & -> & Hn & Hsm). simpl. eauto. }
  simpl. rewrite numeric_dtype_small by done.
  assert (forallb is_nan ns = false) as ->; [|done].
  apply not_true_is_false. intros Hnans.
  destruct (Forall2_elem_l _ _ _ (strip_commas s0) H2) as (n & Hn & Hconv).
  { apply list_elem_of_fmap. by exists (VStr s0). }
  rewrite forallb_forall in Hnans. apply list_elem_of_In, Hnans in Hn.
  congruence.
Qed.

(** X8. A column of text whose cells are blank or integers written with
    thousands separators (digits and commas, at most eighteen digits),
    one of them not blank, is typed [number], and no date format is
    recorded for it. *)
Theorem grouped_digits_column_is_number column dfm lengths :
  dtype column = DObject ->
  Forall (fun x => exists s, x = VStr s /\ (s = "" \/ grouped_digits s = true))
    (cells column) ->
  (exists s, VStr s ∈ cells column /\ s <> "") ->
  infer_column column dfm lengths =
    Ok (Some "number", dfm, <[name column := max_len (cells column)]> lengths).
Proof.
  intros Hd Hall (s0 & Hs0 & Hne).
  assert (forallb is_text (cells column) = true) as Hl.
  { apply forallb_is_text. intros x Hx. rewrite Forall_forall in Hall.
    destruct (Hall x Hx) as (s & -> & _). eauto. }
  rewrite (infer_column_text _ _ _ _ _ s0 Hd Hl Hs0).
  rewrite infer_number_small; [done| |].
  - eapply Forall_impl; [exact Hall|]. intros x (s & -> & [->|Hg]).
    + exists "", NNaN. done.
    + destruct (convert_numeric_grouped s Hg) as (n & Hn & Hsm & _). eauto.
  - rewrite Forall_forall in Hall.
    destruct (Hall _ Hs0) as (s & [= <-] & [->|Hg]); [done|].
    destruct (convert_numeric_grouped s0 Hg) as (n & Hn & _ & Hnan). eauto.
Qed.

Lemma strip_commas_digits s :
  forallb is_digit (chars s) = true -> strip_commas s = s.
Proof.
  intros Hds. apply chars_inj. rewrite chars_strip_commas.
  apply filter_keep_all, Forall_forall. intros c Hc.
  rewrite forallb_forall in Hds. apply list_elem_of_In, Hds in Hc.
  by apply digit_not_sign.
Qed.

(** A text of nine digits or more is not read by the ISO parser: after
    the eight digits of a date only [T] or a blank may follow. *)
Lemma parse_iso_long_digits a b c d e f g h i rest :
  forallb is_digit [a; b; c; d; e; f; g; h; i] = true ->
  parse_iso_8601_datetime (a :: b :: c :: d :: e :: f :: g :: h :: i :: rest) = None.
Proof.
  intros Hds. pose proof Hds as Hds'. simpl in Hds'.
  repeat (let H := fresh "Hd" in apply andb_true_iff in Hds' as [H Hds']).
  unfold parse_iso_8601_datetime.
  assert (skip_spaces (a :: b :: c :: d :: e :: f :: g :: h :: i :: rest)
          = a :: b :: c :: d :: e :: f :: g :: h :: i :: rest) as ->.
  { simpl. by rewrite (digit_not_space a). }
  assert (bool_decide (a = "-"%char) = false) as ->.
  { apply bool_decide_eq_false. by destruct (digit_not_sign a). }
  assert (forallb is_digit [a; b; c; d] = true) as ->.
  { simpl. by rewrite Hd, Hd0, Hd1, Hd2. }
  rewrite Hd3. unfold iso_month. simpl one_or_two. rewrite Hd3, Hd4.
  destruct ((10 * digit_val e + digit_val f <? 1)
            || (12 <? 10 * digit_val e + digit_val f)); [done|].
  unfold iso_day. simpl one_or_two. rewrite Hd5, Hd6.
  destruct (_ || _); [done|].
  unfold iso_after_date.
  assert (bool_decide (i = "T"%char) || bool_decide (i = " "%char) = false) as ->;
    [|done].
  apply orb_false_iff. split; apply bool_decide_eq_false; intros ->; done.
Qed.

Lemma long_digits_not_date f s :
  forallb is_digit (chars s) = true -> INT64_MAX < digits_val (chars s) ->
  parses f s = false.
Proof.
  intros Hds Hbig.
  assert (forall w, w ∈ "" :: "now" :: "today" :: nat_strings -> s <> w) as Hw.
  { intros w Hin ->. unfold nat_strings in Hin.
    elim_elem_of Hin; vm_compute in Hds, Hbig; done. }
  assert (bool_decide (s ∈ nat_strings) = false) as Hnat.
  { apply bool_decide_eq_false. intros Hin. apply (Hw s); [|done].
    by do 3 right. }
  destruct (decide (f = F_Y_m_d)) as [->|Hf].
  - simpl. unfold iso_8601. rewrite Hnat.
    rewrite (bool_decide_eq_false_2 (s = "")) by (apply Hw; left).
    simpl.
    assert (18 < length (chars s))%nat as Hlen.
    { destruct (decide (length (chars s) <= 18)%nat) as [Hle|]; [|lia].
      pose proof (digits_val_bound _ Hds Hle). lia. }
    destruct (chars s) as [|a [|b [|c [|d [|e [|f [|g [|h [|i rest]]]]]]]]] eqn:Hs;
      simpl in Hlen; try lia.
    rewrite parse_iso_long_digits.
    + apply bool_decide_eq_false. intros Hin. apply (Hw s); [|done].
      apply elem_of_cons in Hin as [->|Hin]; [right; left|].
      apply list_elem_of_singleton in Hin as ->. right; right; left.
    + cbn [forallb] in Hds |- *.
      repeat (let H := fresh "Hd" in apply andb_true_iff in Hds as [H Hds]).
      by rewrite Hd, Hd0, Hd1, Hd2, Hd3, Hd4, Hd5, Hd6, Hd7.
  - destruct (parses f s) eqn:Hp; [|done].
    apply parses_later_shaped in Hp as [Hin|(pre & ds & c & rest & Hs & _ & _ & _ & Hc)];
      [| |done].
    + by rewrite (bool_decide_eq_true_2 _ Hin) in Hnat.
    + rewrite forallb_forall in Hds. specialize (Hds c).
      rewrite Hs in Hds. rewrite !in_app_iff in Hds.
      assert (is_digit c = true) as Hd by (apply Hds; right; right; by left).
      by destruct Hc; subst c.
Qed.

Lemma digits_not_marked s :
  forallb is_digit (chars s) = true -> remove_null_marker s = s.
Proof.
  intros Hds. apply remove_null_marker_id. intros Hc.
  rewrite forallb_forall in Hds. by apply list_elem_of_In, Hds in Hc.
Qed.

Lemma digits_not_boolean s :
  chars s <> [] -> forallb is_digit (chars s) = true ->
  is_boolean_value (VStr s) = false.
Proof.
  intros Hne Hds. destruct (is_boolean_value (VStr s)) eqn:Hb; [|done].
  destruct (chars s) as [|d r] eqn:Hs; [done|].
  assert (d ∈ chars s) as Hd by (rewrite Hs; left).
  pose proof (boolean_word_chars s d Hb Hd) as Hw.
  simpl in Hds. apply andb_true_iff in Hds as [Hdd _].
  rewrite <- lower_char_digit in Hdd. revert Hw Hdd.
  generalize (lower_char d). intros k. by_all_chars k.
Qed.

(** No format is tried with success on a column of text none of whose
    marker-free texts parses as a date. *)
Lemma infer_datetime_no_date column dfm :
  forallb is_text (cells column) = true ->
  (forall s f, VStr s ∈ cells column -> remove_null_marker s <> "" ->
     parses f (remove_null_marker s) = false) ->
  infer_datetime column dfm = (false, dfm).
Proof.
  intros Hl Hno.
  assert (forall f, date_candidates (cells column) <> [] ->
            forallb (cell_parses f) (date_candidates (cells column)) = false) as Hf.
  { intros f Hne. destruct (date_candidates_cell _ Hl Hne) as (s & Hs & Hs').
    apply not_true_is_false. intros Hall.
    pose proof (all_parse_cell _ _ _ Hall Hs') as Hp. simpl in Hp.
    destruct (date_candidates_text _ _ Hl Hs') as (s' & _ & [= Heq] & Hnb).
    rewrite <- Heq in Hnb. by rewrite Hno in Hp. }
  destruct (infer_datetime_cases column dfm Hl)
    as [[_ ->]|[(Hne & Hiso & _)|(Hne & _ & ->)]]; [done| |].
  - by rewrite Hf in Hiso.
  - destruct (try_later_formats_cases later_formats
                (mkSeries (name column) (dtype column)
                   (date_candidates (cells column))) dfm)
      as [[_ ->]|(pre & f & label & post & _ & _ & Hyes & _)]; [done|].
    cbn [cells] in Hyes. by rewrite Hf in Hyes.
Qed.

(** X9. A column of text that writes integers above the signed 64-bit
    range is not numeric for [infer_number] (the converted column is
    [uint64], or the conversion fails), and the column is typed
    [string]. *)
Theorem large_integer_column_is_string column dfm lengths :
  dtype column = DObject -> cells column <> [] ->
  Forall (fun x => exists s, x = VStr s /\ chars s <> [] /\
            forallb is_digit (chars s) = true /\
            INT64_MAX < digits_val (chars s))
    (cells column) ->
  infer_number column = Ok false /\
  infer_column column dfm lengths =
    Ok (Some "string", dfm, <[name column := max_len (cells column)]> lengths).
Proof.
  intros Hd Hne Hall.
  assert (forallb is_text (cells column) = true) as Hl.
  { apply forallb_is_text. intros x Hx. rewrite Forall_forall in Hall.
    destruct (Hall x Hx) as (s & -> & _). eauto. }
  assert (exists s, VStr s ∈ cells column) as [s0 Hs0].
  { destruct (cells column) as [|x l]; [done|].
    apply Forall_cons in Hall as [(s & -> & _) _]. exists s. left. }
  assert (infer_number column = Ok false) as Hnum.
  { unfold infer_number. rewrite strip_commas_column_map by done. simpl.
    unfold to_numeric.
    destruct (mapM_result convert_numeric _) as [ns|] eqn:Hm; [|done].
    simpl. apply mapM_result_inv in Hm.
    assert (Forall (fun n => exists z, n = NInt z /\ INT64_MAX < z) ns) as Hns.
    { apply Forall_forall. intros n Hn.
      apply Forall2_flip in Hm.
      destruct (Forall2_elem_l _ _ _ n Hm Hn) as (t & Ht & Hconv).
      apply list_elem_of_fmap in Ht as (x & -> & Hx).
      rewrite Forall_forall in Hall.
      destruct (Hall x Hx) as (s & -> & Hc & Hds & Hbig). simpl in Hconv.
      rewrite strip_commas_digits in Hconv by done.
      destruct (decide (digits_val (chars s) <= UINT64_MAX)) as [Hle|Hgt].
      - rewrite convert_numeric_digits in Hconv by done. injection Hconv as <-.
        eauto.
      - exfalso. unfold convert_numeric in Hconv. destruct s as [|c s]; [done|].
        unfold floatify in Hconv. rewrite to_double_digits in Hconv by done.
        remember (digits_val (chars (String c s))) as z. simpl in Hconv.
        assert ((UINT64_MAX <? z) = true) as Hlt by (apply Z.ltb_lt; lia).
        rewrite Hlt, orb_true_r in Hconv. done. }
    destruct ns as [|n ns].
    { apply Forall2_length in Hm. rewrite length_map in Hm.
      destruct (cells column); done. }
    apply Forall_cons in Hns as [(z & -> & Hz) Hns]. simpl.
    assert (numeric_dtype (NInt z :: ns) = DUInt64) as ->; [|done].
    unfold numeric_dtype.
    assert (forall P : num -> bool,
              (forall z', INT64_MAX < z' -> P (NInt z') = false) ->
              existsb P (NInt z :: ns) = false) as Hno.
    { intros P HP. apply not_true_is_false. intros H.
      apply existsb_exists in H as (n & Hn & Hf). apply list_elem_of_In in Hn.
      apply elem_of_cons in Hn as [->|Hn]; [by rewrite HP in Hf|].
      rewrite Forall_forall in Hns. apply Hns in Hn as (z' & -> & Hz').
      by rewrite HP in Hf. }
    rewrite (Hno is_nan), (Hno is_sint), (Hno is_float); try done.
    2:{ intros z' Hz'. simpl. unfold INT64_MAX in Hz'. lia. }
    rewrite andb_false_r. simpl.
    assert ((INT64_MAX <? z) = true) as -> by by apply Z.ltb_lt.
    done. }
  split; [done|].
  rewrite (infer_column_text _ _ _ _ _ s0 Hd Hl Hs0), Hnum. simpl.
  rewrite infer_datetime_no_date; [|done|].
  2:{ intros s f Hs _. rewrite Forall_forall in Hall.
      destruct (Hall _ Hs) as (s' & [= <-] & _ & Hds & _).
      destruct (Hall _ Hs) as (s'' & [= <-] & _ & _ & Hbig).
      rewrite digits_not_marked by done. by apply long_digits_not_date. }
  rewrite Forall_forall in Hall.
  destruct (Hall _ Hs0) as (s' & [= <-] & Hc & Hds & _).
  rewrite (infer_boolean_text_false column s0); try done.
  - intros ->. done.
  - by apply digits_not_boolean.
Qed.

(** ** Columns of integers *)

Lemma frame_dtype_int64 l :
  l <> [] ->
  (forall x, x ∈ l -> exists z, x = VInt z /\ INT64_MIN <= z <= INT64_MAX) ->
  frame_dtype l = DInt64.
Proof.
  intros Hne Hall. rewrite frame_dtype_fits.
  2:{ apply forallb_forall. intros x Hx. apply list_elem_of_In in Hx.
      destruct (Hall x Hx) as (z & -> & Hz). simpl.
      apply andb_true_iff. split; apply Z.leb_le; lia. }
  rewrite (existsb_false_forall is_text_or_list),
    (existsb_false_forall is_none), (existsb_false_forall is_bool_cell),
    (existsb_false_forall is_float_cell);
    try (intros x Hx; by destruct (Hall x Hx) as (z & -> & _)).
  assert (existsb (int_cell (fun _ => true)) l = true) as ->; [|done].
  destruct l as [|x l]; [done|]. by destruct (Hall x) as (z & -> & _); [left|].
Qed.

(** X10. A column in which every row holds an integer of the signed
    64-bit range gets dtype [int64] and is typed [number]; its fragment in
    a returned schema is the one of [number]. *)
Theorem integer_column_is_number samples k :
  samples <> [] ->
  (forall r, r ∈ samples ->
     exists z, row_get k r = Some (VInt z) /\ INT64_MIN <= z <= INT64_MAX) ->
  dtype (frame_column samples k) = DInt64 /\
  (forall dfm lengths,
     infer_column (frame_column samples k) dfm lengths =
       Ok (Some "number", dfm,
           <[k := max_len (cells (frame_column samples k))]> lengths)) /\
  (forall (flag : bool) schema dfm,
     generate_schema samples tt flag = Ok (schema, dfm) ->
     schema !! k =
       Some (datatype_schema (Some "number")
               (max_len (cells (frame_column samples k))) flag) /\
     dfm !! k = None).
Proof.
  intros Hne Hall.
  assert (forall x, x ∈ column_cells k samples ->
            exists z, x = VInt z /\ INT64_MIN <= z <= INT64_MAX) as Hcells.
  { intros x Hx. unfold column_cells in Hx.
    apply list_elem_of_fmap in Hx as (r & -> & Hr).
    destruct (Hall r Hr) as (z & -> & Hz). eauto. }
  assert (column_cells k samples <> []) as Hne'.
  { unfold column_cells. by destruct samples. }
  assert (dtype (frame_column samples k) = DInt64) as Hd.
  { unfold frame_column. simpl. by apply frame_dtype_int64. }
  assert (forallb is_null (cells (frame_column samples k)) = false) as Hnull.
  { unfold frame_column. simpl. rewrite frame_dtype_int64 by done.
    destruct (column_cells k samples) as [|x l]; [done|].
    destruct (Hcells x) as (z & -> & _); [left|done]. }
  assert (forall dfm lengths,
     infer_column (frame_column samples k) dfm lengths =
       Ok (Some "number", dfm,
           <[k := max_len (cells (frame_column samples k))]> lengths)) as Hcall.
  { intros dfm lengths. rewrite infer_column_not_object; [|done|by rewrite Hd].
    by rewrite Hd. }
  split; [done|]. split; [done|]. intros flag schema dfm Hg.
  assert (k ∈ frame_columns samples) as Hk.
  { destruct samples as [|r rest]; [done|].
    destruct (Hall r) as (z & Hz & _); [left|].
    eapply frame_columns_row; [left|done]. }
  destruct (generate_schema_column _ _ _ _ _ _ _ _ Hg (frame_column_in _ _ Hk))
    as (t & dfm0 & l0 & dfm1 & l1 & Hcall' & Hd0 & Hd1 & Hf).
  rewrite Hcall in Hcall'. injection Hcall' as <- <- <-. simpl in *.
  destruct Hf as (n & Hn & ->). rewrite lookup_insert_eq in Hn.
  injection Hn as <-. split; [done|]. congruence.
Qed.

(** ** Columns of markers, and the order of the formats *)

(** X11. A column of text made only of blanks and null markers (every
    text is empty once its markers are removed) is typed [string], and no
    date format is recorded for it. *)
Theorem marker_column_is_string column dfm lengths :
  dtype column = DObject -> cells column <> [] ->
  Forall (fun x => exists s, x = VStr s /\ remove_null_marker s = "")
    (cells column) ->
  infer_column column dfm lengths =
    Ok (Some "string", dfm, <[name column := max_len (cells column)]> lengths).
Proof.
  intros Hd Hne Hall.
  assert (forallb is_text (cells column) = true) as Hl.
  { apply forallb_is_text. intros x Hx. rewrite Forall_forall in Hall.
    destruct (Hall x Hx) as (s & -> & _). eauto. }
  assert (exists s, VStr s ∈ cells column) as [s0 Hs0].
  { destruct (cells column) as [|x l]; [done|].
    apply Forall_cons in Hall as [(s & -> & _) _]. exists s. left. }
  assert (forall s, VStr s ∈ cells column -> s <> "" ->
            "<"%char ∈ chars s /\ is_boolean_value (VStr s) = false) as Hmark.
  { intros s Hs Hsne. rewrite Forall_forall in Hall.
    destruct (Hall _ Hs) as (s' & [= <-] & Hrm).
    assert ("<"%char ∈ chars s) as Hin.
    { destruct (decide ("<"%char ∈ chars s)) as [|Hno]; [done|].
      rewrite remove_null_marker_id in Hrm by done. done. }
    split; [done|]. destruct (is_boolean_value (VStr s)) eqn:Hb; [|done].
    by pose proof (boolean_word_chars s _ Hb Hin). }
  rewrite (infer_column_text _ _ _ _ _ s0 Hd Hl Hs0).
  assert (infer_number column = Ok false) as ->.
  { unfold infer_number. rewrite strip_commas_column_map by done. simpl.
    unfold to_numeric.
    destruct (mapM_result convert_numeric _) as [ns|] eqn:Hm; [|done].
    simpl. apply mapM_result_inv in Hm.
    assert (forallb is_nan ns = true) as ->; [|done].
    apply forallb_forall. intros n Hn. apply list_elem_of_In in Hn.
    apply Forall2_flip in Hm.
    destruct (Forall2_elem_l _ _ _ n Hm Hn) as (t & Ht & Hconv).
    apply list_elem_of_fmap in Ht as (x & -> & Hx).
    destruct (proj1 (forallb_is_text _) Hl x Hx) as [s ->]. simpl in Hconv.
    destruct (decide (s = "")) as [->|Hsne].
    - vm_compute in Hconv. by injection Hconv as <-.
    - destruct (Hmark s Hx Hsne) as [Hin _].
      rewrite convert_numeric_angle in Hconv by done. done. }
  simpl.
  assert (infer_datetime column dfm = (false, dfm)) as ->.
  { destruct (infer_datetime_cases column dfm Hl)
      as [[_ ->]|[(Hvals & _)|(Hvals & _)]]; [done| |];
      destruct (date_candidates_cell _ Hl Hvals) as (s & Hs & Hs');
      apply (date_candidates_text _ _ Hl) in Hs' as (s' & Hs'' & _ & Hnb);
      rewrite Forall_forall in Hall;
      destruct (Hall _ Hs'') as (s2 & [= <-] & Hrm); done. }
  assert (infer_boolean column = Ok false) as ->; [|done].
  rewrite infer_boolean_text by done.
  f_equal. destruct (existsb _ (cells column)) eqn:Hex; [|done]. simpl.
  apply existsb_exists in Hex as (x & Hx & Hnm).
  pose proof Hx as Hx'. apply list_elem_of_In in Hx'.
  destruct (proj1 (forallb_is_text _) Hl x Hx') as [s ->].
  apply not_true_is_false. intros Hfa. rewrite forallb_forall in Hfa.
  specialize (Hfa _ Hx). apply negb_true_iff in Hnm. rewrite Hnm in Hfa.
  assert (s <> "") as Hsne by (intros ->; done).
  destruct (Hmark s Hx' Hsne) as [_ Hb]. simpl in Hfa. simpl in Hb. congruence.
Qed.

(** X12. The month-first formats are tried before the day-first ones:
    when the non-missing values of a text column all parse with the month
    first (and not all as year-first dates), the label recorded is
    [MM-DD-YYYY], or [MM/DD/YYYY] for slashes, whether or not the values
    would also parse with the day first. *)
Theorem month_first_wins column dfm lengths f label :
  dtype column = DObject -> forallb is_text (cells column) = true ->
  (f, label) ∈ [(F_m_d_Y_dash, "MM-DD-YYYY"); (F_m_d_Y_slash, "MM/DD/YYYY")] ->
  forallb (cell_parses f) (date_candidates (cells column)) = true ->
  forallb (cell_parses F_Y_m_d) (date_candidates (cells column)) = false ->
  infer_column column dfm lengths =
    Ok (Some "string", <[name column := label]> dfm,
        <[name column := max_len (cells column)]> lengths).
Proof.
  intros Hd Hl Hf Hall Hno.
  assert (date_candidates (cells column) <> []) as Hne.
  { intros Hnil. by rewrite Hnil in Hno. }
  destruct (date_candidates_cell _ Hl Hne) as (s & Hs & Hs').
  elim_elem_of Hf; injection Hf as -> ->.
  - by destruct (infer_column_later float_str list_str column dfm lengths []
                   F_m_d_Y_dash "MM-DD-YYYY"
                   [(F_d_m_Y_dash, "DD-MM-YYYY"); (F_m_d_Y_slash, "MM/DD/YYYY");
                    (F_d_m_Y_slash, "DD/MM/YYYY")]) as (_ & _ & _ & ->).
  - assert (Forall (fun fl => forallb (cell_parses fl.1)
                                (date_candidates (cells column)) = false)
              [(F_m_d_Y_dash, "MM-DD-YYYY"); (F_d_m_Y_dash, "DD-MM-YYYY")]) as Hpre.
    { repeat constructor; simpl;
        apply (slash_excludes_dash _ F_m_d_Y_slash); try done;
        [left|left|left|right; left]. }
    by destruct (infer_column_later float_str list_str column dfm lengths
                   [(F_m_d_Y_dash, "MM-DD-YYYY"); (F_d_m_Y_dash, "DD-MM-YYYY")]
                   F_m_d_Y_slash "MM/DD/YYYY" [(F_d_m_Y_slash, "DD/MM/YYYY")]
                   Hd Hl Hno eq_refl Hpre Hall) as (_ & _ & _ & ->).
Qed.

(** X13. Whatever the cells are, [infer_datetime] changes the date format
    map at most at the column's own key; it returns [True] only after
    writing one of the two year-first labels there, and what it writes
    when it returns [False] is one of the four other labels. *)
Theorem infer_datetime_effect column dfm b dfm' :
  infer_datetime column dfm = (b, dfm') ->
  (forall k, k <> name column -> dfm' !! k = dfm !! k) /\
  (b = true -> exists l, l ∈ iso_labels /\ dfm' = <[name column := l]> dfm) /\
  (b = false ->
   dfm' = dfm \/ exists l, l ∈ later_labels /\ dfm' = <[name column := l]> dfm).
Proof.
  intros H.
  assert ((b = true /\ exists l, l ∈ iso_labels /\ dfm' = <[name column := l]> dfm)
          \/ (b = false /\
              (dfm' = dfm \/
               exists l, l ∈ later_labels /\ dfm' = <[name column := l]> dfm)))
    as Hcases.
  { unfold infer_datetime in H.
    destruct (date_candidates (cells column)) as [|v vals] eqn:Hv.
    { injection H as <- <-. right. split; [done|by left]. }
    rewrite <- Hv in H. clear Hv. unfold infer_datetime_and_format in H.
    cbn [name dtype cells] in H.
    match type of H with context [try_later_formats later_formats ?c dfm] =>
      pose proof (try_later_formats_cases later_formats c dfm) as Hlater;
      destruct (try_later_formats later_formats c dfm) as [b2 d2] end.
    cbn [name] in Hlater.
    assert (b2 = false /\
            (d2 = dfm \/ exists l, l ∈ later_labels /\ d2 = <[name column := l]> dfm))
      as [-> Hd2].
    { destruct Hlater as [[_ [= -> ->]]|(pre & f & label & post & Heq & _ & _ & [= -> ->])].
      - split; [done|by left].
      - split; [done|right]. exists label. split; [by eapply later_label_elem|done]. }
    destruct (series_min _) as [cell|]; simpl in H.
    - destruct (to_datetime _ F_Y_m_d); simpl in H.
      + injection H as <- <-. left. split; [done|].
        exists (iso_label cell). split; [apply iso_label_elem|done].
      + injection H as <- <-. by right.
    - injection H as <- <-. by right. }
  split; [|split].
  - intros k Hk.
    destruct Hcases as [(_ & l & _ & ->)|(_ & [->|(l & _ & ->)])];
      try done; by rewrite lookup_insert_ne.
  - intros ->. by destruct Hcases as [[_ ?]|[? _]].
  - intros ->. by destruct Hcases as [[? _]|[_ ?]].
Qed.


(** ** Boolean words *)

Lemma boolean_word_not_numeric s :
  s <> "" -> is_boolean_value (VStr s) = true ->
  convert_numeric (strip_commas s) = Raise ValueError.
Proof.
  intros Hne Hb.
  assert (strip_commas s = s) as ->.
  { apply chars_inj. rewrite chars_strip_commas.
    apply filter_keep_all, Forall_forall. intros c Hc.
    pose proof (boolean_word_chars s c Hb Hc) as Hw. intros ->. done. }
  assert (floatify s = Raise ValueError) as Hf.
  { unfold floatify. destruct (to_double (chars s)) as [n|] eqn:Ht.
    - exfalso. apply to_double_chars in Ht. simpl in Hb.
      apply orb_true_iff in Hb as [Hb|Hb]; apply bool_decide_eq_true in Hb;
        destruct s as [|c r]; try done; simpl in Hb, Ht;
        injection Hb as Hc _; apply andb_true_iff in Ht as [Ht _];
        revert Hc Ht; by_all_chars c.
    - rewrite bool_decide_eq_false_2; [done|]. intros Hin. simpl in Hb.
      apply orb_true_iff in Hb as [Hb|Hb]; apply bool_decide_eq_true in Hb;
        rewrite Hb in Hin; unfold inf_words in Hin; elim_elem_of Hin;
        discriminate Hin. }
  destruct s; [done|]. unfold convert_numeric. by rewrite Hf.
Qed.

(** X16. A column of text whose cells are blank or one of the words
    [true] and [false] in any letter case, one of them not blank, is typed
    [boolean], and no date format is recorded for it. *)
Theorem boolean_words_column_is_boolean column dfm lengths :
  dtype column = DObject ->
  Forall (fun x => exists s, x = VStr s /\
            (s = "" \/ lower s = "true" \/ lower s = "false"))
    (cells column) ->
  (exists s, VStr s ∈ cells column /\ s <> "") ->
  infer_column column dfm lengths =
    Ok (Some "boolean", dfm, <[name column := max_len (cells column)]> lengths).
Proof.
  intros Hd Hall (s0 & Hs0 & Hne0).
  assert (forallb is_text (cells column) = true) as Hl.
  { apply forallb_is_text. intros x Hx. rewrite Forall_forall in Hall.
    destruct (Hall x Hx) as (s & -> & _). eauto. }
  assert (forall s, VStr s ∈ cells column -> s <> "" ->
            is_boolean_value (VStr s) = true) as Hword.
  { intros s Hs Hsne. rewrite Forall_forall in Hall.
    destruct (Hall _ Hs) as (s' & [= <-] & [->|[Hw|Hw]]); [done| |]; simpl;
      rewrite Hw; done. }
  rewrite (infer_column_text _ _ _ _ _ s0 Hd Hl Hs0).
  assert (infer_number column = Ok false) as ->.
  { unfold infer_number.
    destruct (strip_commas_column _ Hl) as (ts & -> & Hts). simpl.
    unfold to_numeric.
    destruct (mapM_result_raise convert_numeric ts (strip_commas s0) ValueError)
      as [e ->]; [by apply Hts| |done].
    apply boolean_word_not_numeric; [done|by apply Hword]. }
  simpl.
  assert (infer_datetime column dfm = (false, dfm)) as ->.
  { apply infer_datetime_no_date; [done|]. intros s f Hs Hnb.
    destruct (decide (s = "")) as [->|Hsne]; [done|].
    by apply boolean_word_not_date, Hword. }
  assert (infer_boolean column = Ok true) as ->; [|done].
  rewrite infer_boolean_text by done.
  f_equal. apply andb_true_iff. split.
  - apply existsb_exists. exists (VStr s0). split; [by apply list_elem_of_In|].
    by destruct s0.
  - apply forallb_forall. intros x Hx. apply list_elem_of_In in Hx.
    destruct (proj1 (forallb_is_text _) Hl x Hx) as [s ->].
    destruct (decide (s = "")) as [->|Hsne]; [done|].
    rewrite (Hword s Hx Hsne). apply orb_true_r.
Qed.

End FurtherProperties.

(** ** The schema emitter *)

Lemma json_of_datatype_inj t t' :
  json_of_datatype t = json_of_datatype t' -> t = t'.
Proof. destruct t, t'; simpl; congruence. Qed.

(** X14. The emitter never gives one fragment to two type tags: equal
    fragments come from equal tags and equal length flags, and from equal
    lengths when the flag is set. *)
Theorem datatype_schema_inj t n flag t' n' flag' :
  datatype_schema t n flag = datatype_schema t' n' flag' ->
  t = t' /\ flag = flag' /\ (flag = true -> n = n').
Proof.
  unfold datatype_schema. intros H.
  repeat case_bool_decide; destruct flag, flag'; simplify_eq/=;
    try done;
    try match goal with
    | H : json_of_datatype _ = json_of_datatype _ |- _ =>
        apply json_of_datatype_inj in H; subst; done
    end.
Qed.

(** ** The order of the sample rows *)

Lemma forallb_Permutation {A} (p : A -> bool) l l' :
  l ≡ₚ l' -> forallb p l = forallb p l'.
Proof.
  induction 1 as [|x l l' _ IH|x y l|l l' l'' _ IH1 _ IH2]; simpl;
    [done|by rewrite IH| |congruence].
  by destruct (p x), (p y).
Qed.

Lemma existsb_Permutation {A} (p : A -> bool) l l' :
  l ≡ₚ l' -> existsb p l = existsb p l'.
Proof.
  induction 1 as [|x l l' _ IH|x y l|l l' l'' _ IH1 _ IH2]; simpl;
    [done|by rewrite IH| |congruence].
  by destruct (p x), (p y).
Qed.

Lemma mapM_result_Permutation {A B} (f : A -> result B) l l' :
  l ≡ₚ l' ->
  match mapM_result f l, mapM_result f l' with
  | Ok ys, Ok ys' => ys ≡ₚ ys'
  | Raise _, Raise _ => True
  | _, _ => False
  end.
Proof.
  induction 1 as [|x l l' _ IH|x y l|l l' l'' _ IH1 _ IH2]; simpl.
  - done.
  - destruct (f x); simpl; [|done].
    destruct (mapM_result f l), (mapM_result f l'); simpl; try done.
    by constructor.
  - destruct (f x), (f y); simpl; try done;
      destruct (mapM_result f l); simpl; try done. apply perm_swap.
  - destruct (mapM_result f l), (mapM_result f l'), (mapM_result f l'');
      try done. by etrans.
Qed.

Lemma numeric_dtype_Permutation ns ns' :
  ns ≡ₚ ns' -> numeric_dtype ns = numeric_dtype ns'.
Proof.
  intros H. unfold numeric_dtype.
  by rewrite (existsb_Permutation is_float _ _ H),
    (existsb_Permutation is_uint _ _ H), (existsb_Permutation is_sint _ _ H),
    (existsb_Permutation is_nan _ _ H).
Qed.

Lemma infer_number_Permutation c c' :
  cells c ≡ₚ cells c' -> infer_number c = infer_number c'.
Proof.
  intros H. destruct (forallb is_text (cells c)) eqn:Hl.
  - pose proof Hl as Hl'. rewrite (forallb_Permutation _ _ _ H) in Hl'.
    unfold infer_number. rewrite !strip_commas_column_map by done. simpl.
    unfold to_numeric.
    pose proof (mapM_result_Permutation convert_numeric
                  (map (fun x => strip_commas (cell_text x)) (cells c))
                  (map (fun x => strip_commas (cell_text x)) (cells c'))
                  (fmap_Permutation _ _ _ H)) as Hm.
    destruct (mapM_result convert_numeric _) as [ns|],
      (mapM_result convert_numeric _) as [ns'|]; try done. simpl.
    by rewrite (numeric_dtype_Permutation _ _ Hm), (forallb_Permutation _ _ _ Hm).
  - pose proof Hl as Hl'. rewrite (forallb_Permutation _ _ _ H) in Hl'.
    by rewrite !infer_number_not_text.
Qed.

Lemma date_candidates_Permutation l l' :
  forallb is_text l = true -> l ≡ₚ l' -> date_candidates l ≡ₚ date_candidates l'.
Proof.
  intros Hl H. pose proof Hl as Hl'. rewrite (forallb_Permutation _ _ _ H) in Hl'.
  assert (forall k, forallb is_text k = true ->
            forallb is_text (map cell_remove_null_marker k) = true) as Ht.
  { intros k Hk. apply forallb_forall. intros y Hy.
    apply in_map_iff in Hy as (z & <- & Hz).
    rewrite forallb_forall in Hk. specialize (Hk z Hz). by destruct z. }
  unfold date_candidates, dropna. rewrite !replace_blank_text by by apply Ht.
  by apply filter_Permutation, fmap_Permutation, fmap_Permutation.
Qed.

Lemma try_later_formats_ext fmts c c' dfm :
  name c = name c' ->
  (forall f, forallb (cell_parses f) (cells c) = forallb (cell_parses f) (cells c')) ->
  try_later_formats fmts c dfm = try_later_formats fmts c' dfm.
Proof.
  intros Hn Hf. induction fmts as [|[f label] fmts IH]; simpl; [done|].
  unfold to_datetime. rewrite <- Hf, <- Hn, IH. done.
Qed.

Lemma infer_datetime_Permutation c c' dfm :
  name c = name c' -> dtype c = dtype c' ->
  forallb is_text (cells c) = true -> cells c ≡ₚ cells c' ->
  infer_datetime c dfm = infer_datetime c' dfm.
Proof.
  intros Hn Hd Hl H.
  pose proof Hl as Hl'. rewrite (forallb_Permutation _ _ _ H) in Hl'.
  pose proof (date_candidates_Permutation _ _ Hl H) as Hv.
  assert (forall f, forallb (cell_parses f) (date_candidates (cells c))
                    = forallb (cell_parses f) (date_candidates (cells c'))) as Hf
    by (intros f; by apply forallb_Permutation).
  destruct (infer_datetime_cases c dfm Hl)
    as [[Hnil ->]|[(Hne & Hiso & m & Hm & Hmin & ->)|(Hne & Hno & ->)]];
    destruct (infer_datetime_cases c' dfm Hl')
      as [[Hnil' ->]|[(Hne' & Hiso' & m' & Hm' & Hmin' & ->)|(Hne' & Hno' & ->)]];
    try done;
    try (rewrite Hnil in Hv; apply Permutation_nil_l in Hv; done);
    try (rewrite Hnil' in Hv; apply Permutation_nil_r in Hv; done);
    try (rewrite Hf in *; congruence).
  - assert (m = m') as ->; [|by rewrite Hn].
    apply String.leb_antisym.
    + apply Hmin. by rewrite Hv.
    + apply Hmin'. by rewrite <- Hv.
  - by apply try_later_formats_ext.
Qed.

Lemma infer_boolean_Permutation c c' :
  forallb is_text (cells c) = true -> cells c ≡ₚ cells c' ->
  infer_boolean c = infer_boolean c'.
Proof.
  intros Hl H.
  assert (forallb is_simple (cells c) = true) as Hs.
  { rewrite forallb_forall in *. intros x Hx. specialize (Hl x Hx). by destruct x. }
  pose proof Hs as Hs'. rewrite (forallb_Permutation _ _ _ H) in Hs'.
  rewrite !infer_boolean_simple by done.
  by rewrite !(existsb_Permutation _ _ _ H), (forallb_Permutation _ _ _ H).
Qed.

(** What the pass has seen when it reaches the end of the column: the
    kinds of cells of the column, and, when the column has no [None], the
    integers above the signed range. *)
Lemma saw_all_kinds s l s' :
  saw_all s l = Some s' ->
  null_ s' = null_ s || existsb is_none l /\
  bool_ s' = bool_ s || existsb is_bool_cell l /\
  float_ s' = float_ s || existsb is_float_cell l /\
  int_ s' = int_ s || existsb (int_cell (fun _ => true)) l /\
  (null_ s' = false ->
   uint_ s' = uint_ s
              || existsb (int_cell (fun z => (INT64_MAX <? z) && (z <=? UINT64_MAX))) l).
Proof.
  revert s. induction l as [|x l IH]; intros s; simpl.
  - intros [= <-]. by rewrite !orb_false_r.
  - destruct (saw s x) as [s1|] eqn:Hx; [|done]. intros H.
    destruct (IH _ H) as (Hn & Hb & Hf & Hi & Hu).
    destruct x as [| |t|b|z|q|items]; simpl in Hx; try done;
      [| | |destruct (null_ s) eqn:Hnull;
            [|destruct (_ || _ || _) eqn:Hbreak; [done|]]|];
      injection Hx as <-; simpl in *; rewrite Hn, Hb, Hf, Hi; simpl;
      (split; [by rewrite ?Hnull, ?orb_true_r|]);
      (split; [by rewrite ?orb_true_r|]);
      (split; [by rewrite ?orb_true_r|]);
      (split; [by rewrite ?orb_true_r|]);
      intros Hc; try done; rewrite ?Hnull in *; simpl in *; try done;
      rewrite Hu by (by rewrite Hn); by rewrite ?orb_assoc.
Qed.

(** The pass stops early at a text, a list or an integer only. *)
Lemma saw_all_none s l :
  saw_all s l = None ->
  existsb is_text_or_list l = true \/ existsb (int_cell (fun _ => true)) l = true.
Proof.
  revert s. induction l as [|x l IH]; intros s; simpl; [done|].
  destruct (saw s x) as [s1|] eqn:Hx.
  - intros H. destruct (IH _ H) as [->| ->]; [left|right]; by rewrite orb_true_r.
  - intros _. destruct x; simpl in *; try done; first [by left|by right].
Qed.

(** Two orders of the same cells on which the pass reaches the end give
    the same dtype. *)
Lemma dtype_of_seen_order l l' s s' :
  l ≡ₚ l' -> saw_all seen_nothing l = Some s -> saw_all seen_nothing l' = Some s' ->
  dtype_of_seen s = dtype_of_seen s'.
Proof.
  intros H Hs Hs'.
  destruct (saw_all_kinds _ _ _ Hs) as (Hn & Hb & Hf & Hi & Hu).
  destruct (saw_all_kinds _ _ _ Hs') as (Hn' & Hb' & Hf' & Hi' & Hu').
  simpl in *.
  rewrite <- (existsb_Permutation _ _ _ H) in Hn'.
  rewrite <- (existsb_Permutation _ _ _ H) in Hb'.
  rewrite <- (existsb_Permutation _ _ _ H) in Hf'.
  rewrite <- (existsb_Permutation _ _ _ H) in Hi'.
  rewrite <- (existsb_Permutation _ _ _ H) in Hu'.
  unfold dtype_of_seen. rewrite Hn', Hb', Hf', Hi', <- Hn, <- Hb, <- Hf, <- Hi.
  destruct (null_ s) eqn:Hnull; [done|].
  rewrite Hu, Hu'; [done| |done]. by rewrite Hn', <- Hn.
Qed.

(** The dtype of a column depends on the order of its cells only where
    one order stops the pass at an integer: the column then has an
    integer and no text, and its dtype in that order is [object]. *)
Lemma frame_dtype_order l l' :
  l ≡ₚ l' ->
  frame_dtype l = frame_dtype l' \/
  (existsb is_text_or_list l = false /\
   existsb (int_cell (fun _ => true)) l = true /\
   (frame_dtype l = DObject \/ frame_dtype l' = DObject)).
Proof.
  intros H. destruct (existsb is_text_or_list l) eqn:Hobj.
  { left. rewrite !frame_dtype_object; [done| |done].
    by rewrite <- (existsb_Permutation _ _ _ H). }
  unfold frame_dtype.
  destruct (saw_all seen_nothing l) as [s|] eqn:Hs;
    destruct (saw_all seen_nothing l') as [s'|] eqn:Hs'.
  - left. by eapply dtype_of_seen_order.
  - right. split; [done|]. split; [|by right].
    apply saw_all_none in Hs' as [Ho|Hi];
      rewrite <- (existsb_Permutation _ _ _ H) in *; congruence.
  - right. split; [done|]. split; [|by left].
    apply saw_all_none in Hs as [Ho|Hi]; congruence.
  - by left.
Qed.

(** A [None] before an integer beyond the 64-bit ranges hides it from
    the range check; after it, the pass has already stopped. *)
Example frame_dtype_order_matters :
  frame_dtype [VNone; VInt (2 ^ 64)] = DFloat64 /\
  frame_dtype [VInt (2 ^ 64); VNone] = DObject.
Proof. split; reflexivity. Qed.

Lemma frame_dtype_fits_Permutation l l' :
  forallb fits_int64 l = true -> l ≡ₚ l' -> frame_dtype l = frame_dtype l'.
Proof.
  intros Hfit H. pose proof Hfit as Hfit'.
  rewrite (forallb_Permutation _ _ _ H) in Hfit'.
  rewrite !frame_dtype_fits by done.
  by rewrite (existsb_Permutation is_text_or_list _ _ H),
    (existsb_Permutation is_none _ _ H), (existsb_Permutation is_bool_cell _ _ H),
    (existsb_Permutation is_float_cell _ _ H),
    (existsb_Permutation (int_cell (fun _ => true)) _ _ H).
Qed.

Lemma column_cells_fit samples k :
  ints_fit_int64 samples = true ->
  forallb fits_int64 (column_cells k samples) = true.
Proof.
  intros Hfit. unfold ints_fit_int64 in Hfit. rewrite forallb_forall in Hfit.
  apply forallb_forall. intros x Hx. unfold column_cells in Hx.
  apply in_map_iff in Hx as (r & <- & Hr). specialize (Hfit r Hr).
  rewrite forallb_forall in Hfit. unfold row_get.
  destruct (List.find _ r) as [kv|] eqn:Hf; [|done]. simpl.
  apply find_some in Hf as [Hin _]. by apply (Hfit kv).
Qed.

Lemma try_later_formats_frame fmts c dfm :
  try_later_formats fmts c dfm =
  ((try_later_formats fmts c ∅).1, (try_later_formats fmts c ∅).2 ∪ dfm).
Proof.
  induction fmts as [|[f label] fmts IH]; simpl.
  - by rewrite (left_id_L ∅ (∪)).
  - destruct (to_datetime (cells c) f); [|done]. simpl.
    by rewrite <- insert_union_l, (left_id_L ∅ (∪)).
Qed.

(** [infer_datetime] on any map is its run on the empty map, laid over
    the map. *)
Lemma infer_datetime_frame c dfm :
  infer_datetime c dfm =
  ((infer_datetime c ∅).1, (infer_datetime c ∅).2 ∪ dfm).
Proof.
  unfold infer_datetime.
  destruct (date_candidates (cells c)) as [|v vals] eqn:Hv.
  { simpl. by rewrite (left_id_L ∅ (∪)). }
  rewrite <- Hv. clear Hv. unfold infer_datetime_and_format.
  cbn [name dtype cells].
  rewrite (try_later_formats_frame later_formats _ dfm).
  match goal with
  | |- context [try_later_formats later_formats ?c ∅] =>
      generalize (try_later_formats later_formats c ∅)
  end.
  intros [b2 d2].
  destruct (series_min _) as [cell|]; simpl; [|done].
  destruct (to_datetime _ F_Y_m_d); simpl; [|done].
  by rewrite <- insert_union_l, (left_id_L ∅ (∪)).
Qed.

Section WholeBatch.

Variable float_str : Q -> string.
Variable list_str : list string -> string.

Local Abbreviation max_len := (max_len float_str list_str).
Local Abbreviation infer_column := (infer_column float_str list_str).
Local Abbreviation infer_columns := (infer_columns float_str list_str).
Local Abbreviation generate_schema := (generate_schema float_str list_str).

Lemma max_len_Permutation l l' : l ≡ₚ l' -> max_len l = max_len l'.
Proof.
  unfold max_len.
  induction 1 as [|x l l' _ IH|x y l|l l' l'' _ IH1 _ IH2]; simpl;
    [done|by rewrite IH|lia|congruence].
Qed.

Ltac frame_maps := rewrite <- ?insert_union_l, ?(left_id_L ∅ (∪)).

(** A call of [infer_column] on any two maps is the call on empty maps,
    laid over them. *)
Lemma infer_column_frame c dfm lengths :
  infer_column c dfm lengths =
  match infer_column c ∅ ∅ with
  | Ok (t, d, l) => Ok (t, d ∪ dfm, l ∪ lengths)
  | Raise e => Raise e
  end.
Proof.
  unfold infer_column.
  destruct (forallb is_null (cells c)); [by frame_maps|].
  destruct (bool_decide (dtype_name (dtype c) = "object")).
  2:{ destruct (bool_decide _); by frame_maps. }
  destruct (existsb is_list (cells c)); [by frame_maps|].
  destruct (infer_number c) as [[]|]; simpl; [by frame_maps| |done].
  rewrite (infer_datetime_frame c dfm).
  destruct (infer_datetime c ∅) as [[] d]; simpl; [by frame_maps|].
  destruct (infer_boolean c) as [[]|]; simpl; [| |done]; by frame_maps.
Qed.

Lemma infer_column_Permutation c c' dfm lengths :
  name c = name c' -> dtype c = dtype c' -> cells c ≡ₚ cells c' ->
  infer_column c dfm lengths = infer_column c' dfm lengths.
Proof.
  intros Hn Hd H. unfold infer_column.
  rewrite <- Hn, <- Hd, <- (forallb_Permutation is_null _ _ H),
    <- (max_len_Permutation _ _ H), <- (existsb_Permutation is_list _ _ H),
    <- (infer_number_Permutation c c' H).
  destruct (forallb is_null (cells c)); [done|].
  destruct (bool_decide _); [|done].
  destruct (existsb is_list (cells c)); [done|].
  destruct (infer_number c) as [[]|] eqn:Hnum; simpl; [done| |done].
  pose proof (infer_number_text _ _ Hnum) as Hl.
  by rewrite <- (infer_datetime_Permutation c c' dfm Hn Hd Hl H),
    <- (infer_boolean_Permutation c c' Hl H).
Qed.

Lemma column_cells_Permutation samples samples' k :
  samples ≡ₚ samples' -> column_cells k samples ≡ₚ column_cells k samples'.
Proof. intros H. unfold column_cells. by apply fmap_Permutation. Qed.

Lemma frame_column_Permutation samples samples' k dfm lengths :
  ints_fit_int64 samples = true -> samples ≡ₚ samples' ->
  infer_column (frame_column samples k) dfm lengths
  = infer_column (frame_column samples' k) dfm lengths.
Proof.
  intros Hfit H. pose proof (column_cells_Permutation _ _ k H) as Hc.
  pose proof (frame_dtype_fits_Permutation _ _ (column_cells_fit _ k Hfit) Hc) as Hd.
  apply infer_column_Permutation; unfold frame_column; simpl.
  - done.
  - done.
  - rewrite Hd. by apply fmap_Permutation.
Qed.

(** A column of the frame with an integer and no text whose dtype is
    [object] makes [infer_column] raise. *)
Lemma frame_column_object_int samples k dfm lengths :
  existsb is_text_or_list (column_cells k samples) = false ->
  existsb (int_cell (fun _ => true)) (column_cells k samples) = true ->
  frame_dtype (column_cells k samples) = DObject ->
  infer_column (frame_column samples k) dfm lengths = Raise AttributeError.
Proof.
  intros Hobj Hint Hd. unfold frame_column. rewrite Hd, cast_cell_object.
  apply existsb_exists in Hint as (x & Hx & Hxi).
  destruct x as [| |t|b|z|q|items]; try done.
  apply infer_column_not_text; simpl; [done| | |].
  - apply not_true_is_false. intros Hall. rewrite forallb_forall in Hall.
    by specialize (Hall _ Hx).
  - apply not_true_is_false. intros Hl.
    apply existsb_exists in Hl as (y & Hy & Hyl).
    assert (existsb is_text_or_list (column_cells k samples) = true) as Hc;
      [|congruence].
    apply existsb_exists. exists y. split; [done|]. by destruct y.
  - apply not_true_is_false. intros Hall. rewrite forallb_forall in Hall.
    by specialize (Hall _ Hx).
Qed.

(** Two batches with the same cells under a key, in any order, on both
    of which the column is typed, give it the same result. *)
Lemma frame_column_order samples samples' k r r' :
  column_cells k samples ≡ₚ column_cells k samples' ->
  infer_column (frame_column samples k) ∅ ∅ = Ok r ->
  infer_column (frame_column samples' k) ∅ ∅ = Ok r' -> r = r'.
Proof.
  intros Hc Hrun Hrun'.
  destruct (frame_dtype_order _ _ Hc) as [Hd|(Hobj & Hint & [Hd|Hd])].
  - assert (infer_column (frame_column samples k) ∅ ∅
            = infer_column (frame_column samples' k) ∅ ∅) as Heq.
    { apply infer_column_Permutation; unfold frame_column; simpl; [done..|].
      rewrite Hd. by apply fmap_Permutation. }
    congruence.
  - by rewrite (frame_column_object_int _ _ _ _ Hobj Hint Hd) in Hrun.
  - rewrite (existsb_Permutation _ _ _ Hc) in Hobj.
    rewrite (existsb_Permutation _ _ _ Hc) in Hint.
    by rewrite (frame_column_object_int _ _ _ _ Hobj Hint Hd) in Hrun'.
Qed.

Lemma frame_columns_Permutation samples samples' k :
  samples ≡ₚ samples' -> k ∈ frame_columns samples -> k ∈ frame_columns samples'.
Proof.
  intros H. unfold frame_columns. rewrite !first_seen_spec.
  intros [Hk Hno]. split; [|done].
  apply list_elem_of_In, in_concat in Hk as (ks & Hks & Hk).
  apply in_map_iff in Hks as (r & <- & Hr).
  apply list_elem_of_In, in_concat. exists (map fst r). split; [|done].
  apply in_map. by apply (Permutation_in _ H).
Qed.

(** The two results at the key of a column, from the run of
    [infer_column] on that column with empty maps. *)
Lemma generate_schema_at samples (flag : bool) schema dfm k :
  generate_schema samples tt flag = Ok (schema, dfm) ->
  k ∈ frame_columns samples ->
  exists t d l,
    infer_column (frame_column samples k) ∅ ∅ = Ok (t, d, l) /\
    dfm !! k = d !! k /\
    schema !! k =
      if bool_decide (t = Some "list") then None
      else (fun n => datatype_schema t n flag) <$> l !! k.
Proof.
  intros Hg Hk.
  destruct (generate_schema_column _ _ _ _ _ _ _ _ Hg (frame_column_in _ _ Hk))
    as (t & dfm0 & l0 & dfm1 & l1 & Hcall & Hd0 & Hd1 & Hf).
  simpl in *. rewrite infer_column_frame in Hcall.
  destruct (infer_column (frame_column samples k) ∅ ∅) as [[[t' d] l]|] eqn:Hrun;
    [|done].
  injection Hcall as -> <- <-. exists t, d, l. split; [done|].
  pose proof (infer_column_lengths _ _ _ _ _ _ _ _ Hrun) as Hl. simpl in Hl.
  split.
  - rewrite Hd1, lookup_union, Hd0. by destruct (d !! k).
  - destruct (bool_decide (t = Some "list")); [done|].
    destruct Hf as (n & Hn & ->).
    rewrite lookup_union, Hl, lookup_insert_eq in Hn. simpl in Hn.
    rewrite Hl, lookup_insert_eq. simpl.
    destruct (l0 !! k); simpl in Hn; by injection Hn as <-.
Qed.

Lemma infer_columns_raise_some columns col_types dfm lengths column e :
  column ∈ columns -> infer_column column ∅ ∅ = Raise e ->
  exists e', infer_columns columns col_types dfm lengths = Raise e'.
Proof.
  revert col_types dfm lengths.
  induction columns as [|c rest IH]; intros col_types dfm lengths Hin Hr;
    [inversion Hin|].
  simpl. destruct (infer_column c dfm lengths) as [[[t dfm1] lengths1]|e'] eqn:Hc;
    simpl; [|eauto].
  apply elem_of_cons in Hin as [->|Hin]; [|by apply IH].
  rewrite infer_column_frame, Hr in Hc. done.
Qed.

Lemma generate_schema_ok_Permutation samples samples' (flag : bool) schema dfm :
  ints_fit_int64 samples = true -> samples ≡ₚ samples' ->
  generate_schema samples tt flag = Ok (schema, dfm) ->
  exists schema' dfm', generate_schema samples' tt flag = Ok (schema', dfm').
Proof.
  intros Hfit H Hg.
  destruct (generate_schema samples' tt flag) as [[schema' dfm']|e] eqn:Hg';
    [eauto|exfalso].
  assert (exists e', infer_columns (DataFrame samples') [] ∅ ∅ = Raise e')
    as [e' Hloop].
  { unfold generate_schema in Hg'.
    destruct (infer_columns (DataFrame samples') [] ∅ ∅)
      as [[[ct d] l]|e'] eqn:Hloop; [|eauto].
    destruct (generate_schema_loops _ _ samples' tt flag _ _ _ Hloop) as [s Hs].
    unfold generate_schema in Hs. rewrite Hloop in Hs. congruence. }
  apply infer_columns_raise in Hloop as (c & dfm0 & l0 & Hin & Hr).
  apply frame_column_elem in Hin as [Hc Hk].
  rewrite infer_column_frame in Hr.
  destruct (infer_column c ∅ ∅) as [[[t d] l]|e''] eqn:Hrun; [done|].
  rewrite Hc in Hrun.
  rewrite <- (frame_column_Permutation samples samples' _ _ _ Hfit H) in Hrun.
  symmetry in H. apply (frame_columns_Permutation _ _ _ H) in Hk.
  destruct (infer_columns_raise_some (DataFrame samples) [] ∅ ∅ _ _
              (frame_column_in _ _ Hk) Hrun) as [e3 Hraise].
  unfold generate_schema in Hg. rewrite Hraise in Hg. done.
Qed.

Lemma generate_schema_same samples samples' (flag : bool) schema dfm schema' dfm' :
  (forall k, k ∈ frame_columns samples <-> k ∈ frame_columns samples') ->
  (forall k, column_cells k samples ≡ₚ column_cells k samples') ->
  generate_schema samples tt flag = Ok (schema, dfm) ->
  generate_schema samples' tt flag = Ok (schema', dfm') ->
  schema = schema' /\ dfm = dfm'.
Proof.
  intros Hcols Hc Hg Hg'.
  assert (forall k, schema !! k = schema' !! k /\ dfm !! k = dfm' !! k) as Hk.
  { intros k. destruct (decide (k ∈ frame_columns samples)) as [Hin|Hout].
    - pose proof (proj1 (Hcols k) Hin) as Hin'.
      destruct (generate_schema_at _ _ _ _ _ Hg Hin) as (t & d & l & Hrun & -> & ->).
      destruct (generate_schema_at _ _ _ _ _ Hg' Hin')
        as (t' & d' & l' & Hrun' & -> & ->).
      pose proof (frame_column_order _ _ _ _ _ (Hc k) Hrun Hrun') as Heq.
      by injection Heq as <- <- <-.
    - assert (k ∉ frame_columns samples') as Hout'
        by (intros Hin'; by apply Hout, Hcols).
      destruct (generate_schema_outside _ _ _ _ _ _ _ k Hg Hout) as [-> ->].
      by destruct (generate_schema_outside _ _ _ _ _ _ _ k Hg' Hout') as [-> ->]. }
  split; apply map_eq; intros k; by destruct (Hk k).
Qed.

Lemma generate_schema_raise_attr samples (flag : bool) e :
  generate_schema samples tt flag = Raise e -> e = AttributeError.
Proof.
  intros Hx. unfold generate_schema in Hx.
  destruct (infer_columns (DataFrame samples) [] ∅ ∅) as [[[ct d] l]|e0] eqn:Hloop.
  - destruct (generate_schema_loops _ _ samples tt flag _ _ _ Hloop) as [sc Hs].
    unfold generate_schema in Hs. rewrite Hloop in Hs. congruence.
  - simpl in Hx. injection Hx as <-.
    apply infer_columns_raise in Hloop as (c & dfm0 & l0 & _ & Hr).
    by apply infer_column_raise_attr in Hr.
Qed.

(** X15. The order of the sample rows.  Two orders of the same rows on
    both of which [generate_schema] returns give the same schema and the
    same date format map; and on a batch whose integers all fit the signed
    64-bit range the result does not depend on the order at all: the
    reordered batch gives the same schema and map, or raises the same
    exception.  (Without the range condition the dtype of a column, and so
    whether the call raises, can depend on where a [None] stands.) *)
Theorem generate_schema_row_order samples samples' (flag : bool) :
  samples ≡ₚ samples' ->
  (forall r r',
     generate_schema samples tt flag = Ok r ->
     generate_schema samples' tt flag = Ok r' -> r = r') /\
  (ints_fit_int64 samples = true ->
   generate_schema samples tt flag = generate_schema samples' tt flag).
Proof.
  intros H.
  assert (forall r r',
     generate_schema samples tt flag = Ok r ->
     generate_schema samples' tt flag = Ok r' -> r = r') as Hsame.
  { intros [schema dfm] [schema' dfm'] Hg Hg'.
    destruct (generate_schema_same samples samples' flag schema dfm schema' dfm')
      as [-> ->]; try done.
    - intros k. split; apply frame_columns_Permutation; [done|by symmetry].
    - intros k. by apply column_cells_Permutation. }
  split; [done|]. intros Hfit.
  assert (ints_fit_int64 samples' = true) as Hfit'.
  { unfold ints_fit_int64 in *. by rewrite <- (forallb_Permutation _ _ _ H). }
  destruct (generate_schema samples tt flag) as [[schema dfm]|e] eqn:Hg.
  - destruct (generate_schema_ok_Permutation _ _ _ _ _ Hfit H Hg)
      as (schema' & dfm' & Hg').
    rewrite Hg'. f_equal. by apply Hsame.
  - destruct (generate_schema samples' tt flag) as [[schema' dfm']|e'] eqn:Hg'.
    + symmetry in H.
      destruct (generate_schema_ok_Permutation _ _ _ _ _ Hfit' H Hg') as (s & d & Hs).
      congruence.
    + by rewrite (generate_schema_raise_attr _ _ _ Hg),
        (generate_schema_raise_attr _ _ _ Hg').
Qed.

(** X17. Columns are typed independently: two batches that hold the same
    values under a key, in any order, give that key the same schema
    fragment and the same date format entry, whatever their other columns
    are. *)
Theorem column_schema_local samples samples' (flag : bool) schema dfm schema' dfm' k :
  generate_schema samples tt flag = Ok (schema, dfm) ->
  generate_schema samples' tt flag = Ok (schema', dfm') ->
  k ∈ frame_columns samples -> k ∈ frame_columns samples' ->
  column_cells k samples ≡ₚ column_cells k samples' ->
  schema !! k = schema' !! k /\ dfm !! k = dfm' !! k.
Proof.
  intros Hg Hg' Hk Hk' Hc.
  destruct (generate_schema_at _ _ _ _ _ Hg Hk) as (t & d & l & Hrun & -> & ->).
  destruct (generate_schema_at _ _ _ _ _ Hg' Hk') as (t' & d' & l' & Hrun' & -> & ->).
  pose proof (frame_column_order _ _ _ _ _ Hc Hrun Hrun') as Heq.
  by injection Heq as <- <- <-.
Qed.

Lemma datatype_schema_flag t n :
  t <> Some "dict" ->
  without_max_length (datatype_schema t n true) = datatype_schema t n false.
Proof.
  intros Ht. unfold datatype_schema. by repeat case_bool_decide.
Qed.

(** X18. The length flag changes nothing but the [maxLength] keys: the
    call without the flag raises when the call with the flag does, and
    otherwise returns the same date format map and the same schema with
    the [maxLength] key taken out of every fragment. *)
Theorem length_flag_only_max_length samples :
  generate_schema samples tt false =
  match generate_schema samples tt true with
  | Ok (schema, dfm) => Ok (without_max_length <$> schema, dfm)
  | Raise e => Raise e
  end.
Proof.
  destruct (generate_schema samples tt true) as [[schema dfm]|e] eqn:Ht.
  - destruct (generate_schema_inv _ _ _ _ _ _ _ Ht) as (ct & l & Hloop & _ & _).
    destruct (generate_schema_loops _ _ samples tt false _ _ _ Hloop)
      as [schema' Hf].
    rewrite Hf. do 2 f_equal. apply map_eq. intros k. rewrite lookup_fmap.
    destruct (decide (k ∈ frame_columns samples)) as [Hin|Hout].
    + destruct (generate_schema_at _ _ _ _ _ Ht Hin) as (t & d & l1 & Hrun & _ & ->).
      destruct (generate_schema_at _ _ _ _ _ Hf Hin)
        as (t' & d' & l1' & Hrun' & _ & ->).
      rewrite Hrun in Hrun'. injection Hrun' as <- <- <-.
      case_bool_decide as Hl; [done|].
      destruct (l1 !! k) as [n|]; [|done]. simpl. f_equal. symmetry.
      apply datatype_schema_flag.
      destruct (infer_column_tag _ _ _ _ _ _ _ _ Hrun) as [[-> _]|[Htag _]];
        [done|].
      unfold emitted_tags in Htag. elim_elem_of Htag; done.
    + destruct (generate_schema_outside _ _ _ _ _ _ _ k Ht Hout) as [-> _].
      by destruct (generate_schema_outside _ _ _ _ _ _ _ k Hf Hout) as [-> _].
  - unfold generate_schema in *.
    destruct (infer_columns (DataFrame samples) [] ∅ ∅) as [[[ct d] l]|e0] eqn:Hloop;
      [|done].
    destruct (generate_schema_loops _ _ samples tt true _ _ _ Hloop) as [s Hs].
    unfold generate_schema in Hs. rewrite Hloop in Hs. simpl in *. congruence.
Qed.

End WholeBatch.

(** ** The further properties on concrete batches *)

(** The batch with a list column: the schema has the key [id] only. *)
Lemma schema_keys_witness :
  generate_schema integral_float_str plain_list_str overflow_batch tt false
  = Ok ({["id" := JDict [("type", JList [JStr "null"; JStr "number"; JStr "string"])]]}, ∅) /\
  forall k,
    (is_Some (({["id" := JDict [("type", JList [JStr "null"; JStr "number"; JStr "string"])]]}
                : gmap string json) !! k) <->
     k ∈ frame_columns overflow_batch /\
     existsb is_list (column_cells k overflow_batch) = false) /\
    (is_Some ((∅ : gmap string string) !! k) ->
     is_Some (({["id" := JDict [("type", JList [JStr "null"; JStr "number"; JStr "string"])]]}
                : gmap string json) !! k)).
Proof.
  assert (generate_schema integral_float_str plain_list_str overflow_batch tt false
    = Ok ({["id" := JDict [("type", JList [JStr "null"; JStr "number"; JStr "string"])]]}, ∅))
    as Hg by (vm_compute; reflexivity).
  split; [exact Hg|].
  exact (schema_keys integral_float_str plain_list_str overflow_batch false _ _ Hg).
Defined.

(** The fragment of the date column of the mixed batch. *)
Lemma schema_fragment_shape_witness :
  generate_schema integral_float_str plain_list_str mixed_batch tt true
  = Ok (mixed_schema, mixed_formats) /\
  json_get "type" (JDict [("type", JList [JStr "null"; JStr "string"]);
                          ("format", JStr "date-time"); ("maxLength", JInt 10)])
  = Some (JList [JStr "null"; JStr "string"]) /\
  (is_Some (json_get "maxLength"
              (JDict [("type", JList [JStr "null"; JStr "string"]);
                      ("format", JStr "date-time"); ("maxLength", JInt 10)]))
   <-> true = true).
Proof.
  assert (generate_schema integral_float_str plain_list_str mixed_batch tt true
    = Ok (mixed_schema, mixed_formats)) as Hg by (vm_compute; reflexivity).
  split; [exact Hg|]. split; [reflexivity|].
  refine (proj2 (proj2 (schema_fragment_shape integral_float_str plain_list_str
                          mixed_batch true _ _ "d" _ Hg _))).
  vm_compute. reflexivity.
Defined.

(** The date column of the mixed batch has the format and a year-first
    label; the month-first column has a label and no format. *)
Lemma schema_format_iff_witness :
  mixed_formats !! "m" = Some "MM-DD-YYYY" /\
  ~ json_get "format" (JDict [("type", JList [JStr "null"; JStr "string"]);
                               ("maxLength", JInt 10)])
    = Some (JStr "date-time").
Proof.
  assert (generate_schema integral_float_str plain_list_str mixed_batch tt true
    = Ok (mixed_schema, mixed_formats)) as Hg by (vm_compute; reflexivity).
  split; [vm_compute; reflexivity|].
  intros Hf.
  destruct (proj1 (proj1 (schema_format_iff integral_float_str plain_list_str
                            mixed_batch true _ _ "m"
                            (JDict [("type", JList [JStr "null"; JStr "string"]);
                                    ("maxLength", JInt 10)]) Hg
                            ltac:(vm_compute; reflexivity))) Hf)
    as (l & Hl & Hiso).
  vm_compute in Hl. injection Hl as <-.
  elim_elem_of Hiso; discriminate Hiso.
Defined.

(** The column of grouped digits of the mixed batch: its longest printed
    cell has five characters. *)
Lemma schema_max_length_witness :
  mkSeries "amount" DObject [VStr "1,200"; VStr ""] ∈ DataFrame mixed_batch /\
  exists n,
    json_get "maxLength"
      (JDict [("type", JList [JStr "null"; JStr "number"; JStr "string"]);
              ("maxLength", JInt 5)]) = Some (JInt n) /\
    ((forallb is_null [VStr "1,200"; VStr ""] = true /\ n = 0) \/
     (forallb is_null [VStr "1,200"; VStr ""] = false /\
      (forall x, x ∈ [VStr "1,200"; VStr ""] ->
         len (py_str integral_float_str plain_list_str x) <= n) /\
      exists x, x ∈ [VStr "1,200"; VStr ""] /\
        len (py_str integral_float_str plain_list_str x) = n)).
Proof.
  assert (generate_schema integral_float_str plain_list_str mixed_batch tt true
    = Ok (mixed_schema, mixed_formats)) as Hg by (vm_compute; reflexivity).
  assert (mkSeries "amount" DObject [VStr "1,200"; VStr ""] ∈ DataFrame mixed_batch)
    as Hin by (vm_compute; right; right; left).
  split; [exact Hin|].
  exact (schema_max_length integral_float_str plain_list_str mixed_batch _ _
           (mkSeries "amount" DObject [VStr "1,200"; VStr ""]) _ Hg Hin
           ltac:(vm_compute; reflexivity)).
Defined.

(** Grouped digits and a blank. *)
Lemma grouped_digits_column_is_number_witness :
  infer_column integral_float_str plain_list_str
    (mkSeries "amount" DObject [VStr "1,200"; VStr ""]) ∅ ∅
  = Ok (Some "number", ∅, <["amount" := 5]> ∅).
Proof.
  refine (grouped_digits_column_is_number integral_float_str plain_list_str
            (mkSeries "amount" DObject [VStr "1,200"; VStr ""]) ∅ ∅ _ _ _).
  - reflexivity.
  - simpl. constructor; [exists "1,200"; split; [reflexivity|right; reflexivity]|].
    constructor; [exists ""; split; [reflexivity|left; reflexivity]|]. constructor.
  - exists "1,200". split; [left|discriminate].
Defined.

(** The first integer above the signed range. *)
Lemma large_integer_column_is_string_witness :
  infer_number (mkSeries "big" DObject [VStr "9223372036854775808"]) = Ok false /\
  infer_column integral_float_str plain_list_str
    (mkSeries "big" DObject [VStr "9223372036854775808"]) ∅ ∅
  = Ok (Some "string", ∅, <["big" := 19]> ∅).
Proof.
  refine (large_integer_column_is_string integral_float_str plain_list_str
            (mkSeries "big" DObject [VStr "9223372036854775808"]) ∅ ∅ _ _ _).
  - reflexivity.
  - discriminate.
  - simpl. constructor; [|constructor].
    exists "9223372036854775808". split; [reflexivity|].
    split; [discriminate|]. split; [reflexivity|]. vm_compute. reflexivity.
Defined.

(** The integer column of the mixed batch. *)
Lemma integer_column_is_number_witness :
  dtype (frame_column mixed_batch "id") = DInt64 /\
  mixed_schema !! "id" =
    Some (datatype_schema (Some "number")
            (max_len integral_float_str plain_list_str
               (cells (frame_column mixed_batch "id"))) true) /\
  mixed_formats !! "id" = None.
Proof.
  assert (generate_schema integral_float_str plain_list_str mixed_batch tt true
    = Ok (mixed_schema, mixed_formats)) as Hg by (vm_compute; reflexivity).
  destruct (integer_column_is_number integral_float_str plain_list_str
              mixed_batch "id") as (Hd & _ & Hs).
  - discriminate.
  - intros r Hr. unfold mixed_batch in Hr. elim_elem_of Hr.
    + exists 1. split; [reflexivity|]. vm_compute. split; discriminate.
    + exists 2. split; [reflexivity|]. vm_compute. split; discriminate.
  - split; [exact Hd|]. exact (Hs true _ _ Hg).
Defined.

(** A null marker and a blank. *)
Lemma marker_column_is_string_witness :
  infer_column integral_float_str plain_list_str
    (mkSeries "n" DObject [VStr "<NULL>"; VStr ""]) ∅ ∅
  = Ok (Some "string", ∅, <["n" := 6]> ∅).
Proof.
  refine (marker_column_is_string integral_float_str plain_list_str
            (mkSeries "n" DObject [VStr "<NULL>"; VStr ""]) ∅ ∅ _ _ _).
  - reflexivity.
  - discriminate.
  - simpl. constructor; [exists "<NULL>"; split; reflexivity|].
    constructor; [exists ""; split; reflexivity|]. constructor.
Defined.

(** Dates that parse with the month first and with the day first. *)
Lemma month_first_wins_witness :
  forallb (cell_parses F_d_m_Y_slash)
    (date_candidates [VStr "01/02/2022"; VStr "03/04/2022"]) = true /\
  infer_column integral_float_str plain_list_str
    (mkSeries "m" DObject [VStr "01/02/2022"; VStr "03/04/2022"]) ∅ ∅
  = Ok (Some "string", <["m" := "MM/DD/YYYY"]> ∅, <["m" := 10]> ∅).
Proof.
  split; [reflexivity|].
  refine (month_first_wins integral_float_str plain_list_str
            (mkSeries "m" DObject [VStr "01/02/2022"; VStr "03/04/2022"]) ∅ ∅
            F_m_d_Y_slash "MM/DD/YYYY" _ _ _ _ _).
  - reflexivity.
  - reflexivity.
  - right. left.
  - reflexivity.
  - reflexivity.
Defined.

(** A year-first date, with another column already in the map. *)
Lemma infer_datetime_effect_witness :
  infer_datetime (mkSeries "d" DObject [VStr "2022-01-05"]) {["x" := "MM/DD/YYYY"]}
  = (true, <["d" := "YYYY-MM-DD"]> {["x" := "MM/DD/YYYY"]}) /\
  (<["d" := "YYYY-MM-DD"]> {["x" := "MM/DD/YYYY"]} : gmap string string) !! "x"
  = ({["x" := "MM/DD/YYYY"]} : gmap string string) !! "x".
Proof.
  assert (infer_datetime (mkSeries "d" DObject [VStr "2022-01-05"])
            {["x" := "MM/DD/YYYY"]}
          = (true, <["d" := "YYYY-MM-DD"]> {["x" := "MM/DD/YYYY"]})) as Hd
    by (vm_compute; reflexivity).
  split; [exact Hd|].
  refine (proj1 (infer_datetime_effect _ _ _ _ Hd) "x" _).
  discriminate.
Defined.

(** Two calls of the emitter with the same result. *)
Lemma datatype_schema_inj_witness :
  datatype_schema (Some "number") 5 false = datatype_schema (Some "number") 7 false /\
  (false = true -> 5 = 7).
Proof.
  split; [reflexivity|].
  exact (proj2 (proj2 (datatype_schema_inj (Some "number") 5 false
                         (Some "number") 7 false eq_refl))).
Defined.

(** The mixed batch with its two rows exchanged. *)
Lemma generate_schema_row_order_witness :
  ints_fit_int64 mixed_batch = true /\
  generate_schema integral_float_str plain_list_str
    [[("id", VInt 2); ("d", VStr "2022/03/01"); ("amount", VStr "");
      ("m", VStr "02-20-2022")];
     [("id", VInt 1); ("d", VStr "2022-01-05"); ("amount", VStr "1,200");
      ("m", VStr "01-15-2022")]] tt true
  = Ok (mixed_schema, mixed_formats).
Proof.
  split; [reflexivity|].
  etrans.
  - symmetry.
    exact (proj2 (generate_schema_row_order integral_float_str plain_list_str
                    mixed_batch _ true (perm_swap _ _ [])) eq_refl).
  - vm_compute. reflexivity.
Defined.

(** Boolean words in several letter cases, with a blank. *)
Lemma boolean_words_column_is_boolean_witness :
  infer_column integral_float_str plain_list_str
    (mkSeries "f" DObject [VStr "TRUE"; VStr ""; VStr "False"]) ∅ ∅
  = Ok (Some "boolean", ∅, <["f" := 5]> ∅).
Proof.
  refine (boolean_words_column_is_boolean integral_float_str plain_list_str
            (mkSeries "f" DObject [VStr "TRUE"; VStr ""; VStr "False"]) ∅ ∅ _ _ _).
  - reflexivity.
  - simpl.
    constructor; [exists "TRUE"; split; [reflexivity|right; left; reflexivity]|].
    constructor; [exists ""; split; [reflexivity|left; reflexivity]|].
    constructor; [exists "False"; split; [reflexivity|right; right; reflexivity]|].
    constructor.
  - exists "TRUE". split; [left|discriminate].
Defined.

(** The [id] column of the batch with a list column, and the same values
    in the other order in a batch of one column. *)
Lemma column_schema_local_witness :
  column_cells "id" overflow_batch ≡ₚ
    column_cells "id" [[("id", VStr "2")]; [("id", VStr "1")]] /\
  ({["id" := JDict [("type", JList [JStr "null"; JStr "number"; JStr "string"])]]}
     : gmap string json) !! "id"
  = ({["id" := JDict [("type", JList [JStr "null"; JStr "number"; JStr "string"])]]}
       : gmap string json) !! "id" /\
  (∅ : gmap string string) !! "id" = (∅ : gmap string string) !! "id".
Proof.
  assert (column_cells "id" overflow_batch ≡ₚ
            column_cells "id" [[("id", VStr "2")]; [("id", VStr "1")]]) as Hc
    by apply perm_swap.
  split; [exact Hc|].
  refine (column_schema_local integral_float_str plain_list_str
            overflow_batch [[("id", VStr "2")]; [("id", VStr "1")]] false
            _ _ _ _ "id" _ _ _ _ Hc).
  - vm_compute. reflexivity.
  - vm_compute. reflexivity.
  - vm_compute. left.
  - vm_compute. left.
Defined.
